(** * The A/B-testing manager of the learning optimizer

    A shallow embedding of [src/ai-engine/services/learning-optimizer.py]
    (class [ABTestManager] and its data classes) together with the
    properties of its experiment registry, interaction recorder,
    significance analyzer, early-stopping check and learning store.

    Modelling conventions.
    - Python [int] is [Z]; Python [float] is idealised as an exact rational
      [Q] (rounding, infinities and NaN are not represented), and equality of
      floats is [Qeq].
    - The dictionaries [active_tests] and [completed_tests] are [gmap string];
      the [content]/[design] payloads are association lists, because the code
      iterates over their keys in order.
    - Objects mutated in place live in the manager state; every operation
      takes the state and returns the new one.  The clock ([datetime.now()])
      is an argument, read once per operation.
    - Every experiment owns its variant objects (a [TestVariant] object
      handed to two creations would be one shared object in the source),
      and a key present in a [visitor_data] dictionary holds a value of its
      documented type.
    - An exception swallowed by a [try/except] is written out as the branch
      it takes; a mutation done before the exception is kept.
    - Library calls whose results are not computed here (scipy, statsmodels,
      numpy's square root and random sampling, float formatting) are fields
      of the record [Externals]; [hashlib.md5] is implemented in full. *)

From Stdlib Require Import ZArith QArith Qabs Qminmax Qround Lia Lqa Ascii String List Bool.
From Stdlib Require Import Sorting.Sorted Sorting.Permutation.
From stdpp Require Import gmap strings list fin_maps pretty.
Import ListNotations.

Local Open Scope string_scope.
Local Open Scope Z_scope.
Local Open Scope list_scope.

(** ** hashlib.md5 (RFC 1321) *)

Module MD5.

Definition word (x : Z) : Z := x mod 2 ^ 32.

Definition leftrotate (x c : Z) : Z :=
  word (Z.lor (Z.shiftl x c) (Z.shiftr (word x) (32 - c))).

Definition not32 (x : Z) : Z := Z.lxor (word x) (2 ^ 32 - 1).

Definition shifts : list Z :=
  [ 7; 12; 17; 22; 7; 12; 17; 22; 7; 12; 17; 22; 7; 12; 17; 22;
    5; 9; 14; 20; 5; 9; 14; 20; 5; 9; 14; 20; 5; 9; 14; 20;
    4; 11; 16; 23; 4; 11; 16; 23; 4; 11; 16; 23; 4; 11; 16; 23;
    6; 10; 15; 21; 6; 10; 15; 21; 6; 10; 15; 21; 6; 10; 15; 21 ].

(** [sines !! i] is [floor (2^32 * |sin (i + 1)|)]. *)
Definition sines : list Z :=
  [ 3614090360; 3905402710; 606105819; 3250441966; 4118548399; 1200080426;
    2821735955; 4249261313; 1770035416; 2336552879; 4294925233; 2304563134;
    1804603682; 4254626195; 2792965006; 1236535329; 4129170786; 3225465664;
    643717713; 3921069994; 3593408605; 38016083; 3634488961; 3889429448;
    568446438; 3275163606; 4107603335; 1163531501; 2850285829; 4243563512;
    1735328473; 2368359562; 4294588738; 2272392833; 1839030562; 4259657740;
    2763975236; 1272893353; 4139469664; 3200236656; 681279174; 3936430074;
    3572445317; 76029189; 3654602809; 3873151461; 530742520; 3299628645;
    4096336452; 1126891415; 2878612391; 4237533241; 1700485571; 2399980690;
    4293915773; 2240044497; 1873313359; 4264355552; 2734768916; 1309151649;
    4149444226; 3174756917; 718787259; 3951481745 ].

Definition bytes_of_string (s : string) : list Z :=
  map (fun a => Z.of_nat (nat_of_ascii a)) (list_ascii_of_string s).

(** The message followed by the bit 1, zeros up to 56 modulo 64, and the
    bit length as a little-endian 64-bit number. *)
Definition le_bytes (n : nat) (x : Z) : list Z :=
  map (fun i => Z.shiftr x (8 * Z.of_nat i) mod 256) (seq 0 n).

Definition padding (msg : list Z) : list Z :=
  let len := Z.of_nat (length msg) in
  let zeros := Z.to_nat ((55 - len) mod 64) in
  msg ++ [128] ++ repeat 0 zeros ++ le_bytes 8 (8 * len mod 2 ^ 64).

Definition le_word (bs : list Z) : Z :=
  fold_right (fun b acc => b + 256 * acc) 0 bs.

Fixpoint words_of (fuel : nat) (bs : list Z) : list Z :=
  match fuel with
  | O => []
  | S fuel' =>
      match bs with
      | [] => []
      | _ => le_word (firstn 4 bs) :: words_of fuel' (skipn 4 bs)
      end
  end.

Fixpoint blocks_of (fuel : nat) (ws : list Z) : list (list Z) :=
  match fuel with
  | O => []
  | S fuel' =>
      match ws with
      | [] => []
      | _ => firstn 16 ws :: blocks_of fuel' (skipn 16 ws)
      end
  end.

Record digest_state := Dg { dA : Z; dB : Z; dC : Z; dD : Z }.

Definition init_state : digest_state :=
  Dg 1732584193 4023233417 2562383102 271733878.

Definition round (M : list Z) (st : digest_state) (i : nat) : digest_state :=
  let '(Dg A B C D) := st in
  let iz := Z.of_nat i in
  let '(F, g) :=
    if iz <? 16 then (Z.lor (Z.land B C) (Z.land (not32 B) D), iz)
    else if iz <? 32 then
      (Z.lor (Z.land D B) (Z.land (not32 D) C), (5 * iz + 1) mod 16)
    else if iz <? 48 then (Z.lxor B (Z.lxor C D), (3 * iz + 5) mod 16)
    else (Z.lxor C (Z.lor B (not32 D)), (7 * iz) mod 16) in
  let F' := word (F + A + nth i sines 0 + nth (Z.to_nat g) M 0) in
  Dg D (word (B + leftrotate F' (nth i shifts 0))) B C.

Definition process_block (st : digest_state) (M : list Z) : digest_state :=
  let '(Dg A B C D) := fold_left (round M) (seq 0 64) st in
  Dg (word (dA st + A)) (word (dB st + B)) (word (dC st + C)) (word (dD st + D)).

Definition digest (msg : list Z) : list Z :=
  let bs := padding msg in
  let ws := words_of (length bs) bs in
  let '(Dg A B C D) := fold_left process_block (blocks_of (length ws) ws) init_state in
  le_bytes 4 A ++ le_bytes 4 B ++ le_bytes 4 C ++ le_bytes 4 D.

Definition hex_digit (d : Z) : ascii :=
  if d <? 10 then ascii_of_nat (Z.to_nat (48 + d))
  else ascii_of_nat (Z.to_nat (87 + d)).

Fixpoint hex_of_bytes (bs : list Z) : string :=
  match bs with
  | [] => EmptyString
  | b :: bs' => String (hex_digit (b / 16)) (String (hex_digit (b mod 16)) (hex_of_bytes bs'))
  end.

(** [hashlib.md5(s.encode()).hexdigest()] *)
Definition hexdigest (s : string) : string :=
  hex_of_bytes (digest (bytes_of_string s)).

End MD5.

(** ** datetime: calendar values, [str()] and the [.days] of a difference *)

Module Datetime.

Record t := mk {
  year : Z; month : Z; day : Z;
  hour : Z; minute : Z; second : Z; microsecond : Z
}.

Definition is_leap (y : Z) : bool :=
  (y mod 4 =? 0) && (negb (y mod 100 =? 0) || (y mod 400 =? 0)).

Definition days_before_year (y : Z) : Z :=
  let y1 := y - 1 in y1 * 365 + y1 / 4 - y1 / 100 + y1 / 400.

Definition days_in_month : list Z := [31; 28; 31; 30; 31; 30; 31; 31; 30; 31; 30; 31].

Definition days_before_month (y m : Z) : Z :=
  fold_right Z.add 0 (firstn (Z.to_nat (m - 1)) days_in_month)
  + (if (2 <? m) && is_leap y then 1 else 0).

Definition toordinal (d : t) : Z :=
  days_before_year (year d) + days_before_month (year d) (month d) + day d.

Definition seconds_of_day (d : t) : Z :=
  second d + minute d * 60 + hour d * 3600.

(** The difference [a - b] in microseconds; a [timedelta] is this number
    normalised, so its [.days] is the floor of the quotient by one day. *)
Definition delta_microseconds (a b : t) : Z :=
  ((toordinal a - toordinal b) * 86400 + (seconds_of_day a - seconds_of_day b)) * 1000000
  + (microsecond a - microsecond b).

(** [(a - b).days] *)
Definition days_between (a b : t) : Z :=
  delta_microseconds a b / 86400000000.

Definition digit (x : Z) : ascii := ascii_of_nat (Z.to_nat (48 + x mod 10)).

Fixpoint zpad (n : nat) (x : Z) : string :=
  match n with
  | O => EmptyString
  | S n' => String.append (zpad n' (x / 10)) (String (digit x) EmptyString)
  end.

(** [str(d)]: ISO format with a space separator; the fraction is printed
    only when the microsecond is not zero. *)
Definition str (d : t) : string :=
  zpad 4 (year d) +:+ "-" +:+ zpad 2 (month d) +:+ "-" +:+ zpad 2 (day d) +:+ " "
  +:+ zpad 2 (hour d) +:+ ":" +:+ zpad 2 (minute d) +:+ ":" +:+ zpad 2 (second d)
  +:+ (if microsecond d =? 0 then "" else "." +:+ zpad 6 (microsecond d)).

End Datetime.

(** ** Rational helpers standing for float operations *)

Definition Qlt_bool (a b : Q) : bool := negb (Qle_bool b a).

(** [int(x)] on a float: truncation towards zero. *)
Definition Qtrunc (x : Q) : Z :=
  if Qle_bool 0 x then Qfloor x else Qceiling x.

(** ** Data model *)

Inductive TestType := AB_TEST | MULTIVARIATE | SEQUENTIAL | ADAPTIVE.

Inductive TestStatus := PLANNING | RUNNING | COMPLETED | PAUSED | CANCELLED.

Definition TestStatus_value (s : TestStatus) : string :=
  match s with
  | PLANNING => "planning"
  | RUNNING => "running"
  | COMPLETED => "completed"
  | PAUSED => "paused"
  | CANCELLED => "cancelled"
  end.

Definition TestStatus_eqb (a b : TestStatus) : bool :=
  match a, b with
  | PLANNING, PLANNING | RUNNING, RUNNING | COMPLETED, COMPLETED
  | PAUSED, PAUSED | CANCELLED, CANCELLED => true
  | _, _ => false
  end.

Inductive SignificanceLevel := HIGH | MEDIUM | LOW.

(** [HIGH = 0.01] (99% confidence), [MEDIUM = 0.05], [LOW = 0.1]. *)
Definition SignificanceLevel_value (l : SignificanceLevel) : Q :=
  match l with
  | HIGH => 1 # 100
  | MEDIUM => 5 # 100
  | LOW => 1 # 10
  end.

(** A [Dict[str, Any]] payload: keys in insertion order, values as text. *)
Definition dict := list (string * string).

Fixpoint dict_get (d : dict) (k : string) : option string :=
  match d with
  | [] => None
  | (k', v) :: d' => if String.eqb k' k then Some v else dict_get d' k
  end.

Definition option_string_eqb (a b : option string) : bool :=
  match a, b with
  | Some x, Some y => String.eqb x y
  | None, None => true
  | _, _ => false
  end.

(** [d1 == d2] on dictionaries: the same keys with the same values,
    whatever the insertion order. *)
Definition dict_eqb (d1 d2 : dict) : bool :=
  forallb (fun kv => option_string_eqb (dict_get d1 (fst kv)) (dict_get d2 (fst kv))) d1
  && forallb (fun kv => option_string_eqb (dict_get d1 (fst kv)) (dict_get d2 (fst kv))) d2.

(** [TestVariant]: one arm with its running metrics. *)
Module TestVariant.

Record t := mk {
  variant_id : string;
  name : string;
  description : string;
  traffic_allocation : Q;
  content : dict;
  design : dict;
  visitors : Z;
  conversions : Z;
  conversion_rate : Q;
  bounce_rate : Q;
  time_on_page : Q;
  scroll_depth : Q;
  engagement_score : Q;
  revenue : Q;
  revenue_per_visitor : Q;
  created_at : option Datetime.t;
  last_updated : option Datetime.t
}.

Definition set_visitors (x : Z) (r : t) : t :=
  mk (variant_id r) (name r) (description r) (traffic_allocation r) (content r)
    (design r) x (conversions r) (conversion_rate r) (bounce_rate r)
    (time_on_page r) (scroll_depth r) (engagement_score r) (revenue r)
    (revenue_per_visitor r) (created_at r) (last_updated r).

Definition set_conversions (x : Z) (r : t) : t :=
  mk (variant_id r) (name r) (description r) (traffic_allocation r) (content r)
    (design r) (visitors r) x (conversion_rate r) (bounce_rate r)
    (time_on_page r) (scroll_depth r) (engagement_score r) (revenue r)
    (revenue_per_visitor r) (created_at r) (last_updated r).

Definition set_conversion_rate (x : Q) (r : t) : t :=
  mk (variant_id r) (name r) (description r) (traffic_allocation r) (content r)
    (design r) (visitors r) (conversions r) x (bounce_rate r) (time_on_page r)
    (scroll_depth r) (engagement_score r) (revenue r) (revenue_per_visitor r)
    (created_at r) (last_updated r).

Definition set_bounce_rate (x : Q) (r : t) : t :=
  mk (variant_id r) (name r) (description r) (traffic_allocation r) (content r)
    (design r) (visitors r) (conversions r) (conversion_rate r) x
    (time_on_page r) (scroll_depth r) (engagement_score r) (revenue r)
    (revenue_per_visitor r) (created_at r) (last_updated r).

Definition set_time_on_page (x : Q) (r : t) : t :=
  mk (variant_id r) (name r) (description r) (traffic_allocation r) (content r)
    (design r) (visitors r) (conversions r) (conversion_rate r) (bounce_rate r)
    x (scroll_depth r) (engagement_score r) (revenue r) (revenue_per_visitor r)
    (created_at r) (last_updated r).

Definition set_scroll_depth (x : Q) (r : t) : t :=
  mk (variant_id r) (name r) (description r) (traffic_allocation r) (content r)
    (design r) (visitors r) (conversions r) (conversion_rate r) (bounce_rate r)
    (time_on_page r) x (engagement_score r) (revenue r) (revenue_per_visitor r)
    (created_at r) (last_updated r).

Definition set_engagement_score (x : Q) (r : t) : t :=
  mk (variant_id r) (name r) (description r) (traffic_allocation r) (content r)
    (design r) (visitors r) (conversions r) (conversion_rate r) (bounce_rate r)
    (time_on_page r) (scroll_depth r) x (revenue r) (revenue_per_visitor r)
    (created_at r) (last_updated r).

Definition set_revenue (x : Q) (r : t) : t :=
  mk (variant_id r) (name r) (description r) (traffic_allocation r) (content r)
    (design r) (visitors r) (conversions r) (conversion_rate r) (bounce_rate r)
    (time_on_page r) (scroll_depth r) (engagement_score r) x
    (revenue_per_visitor r) (created_at r) (last_updated r).

Definition set_revenue_per_visitor (x : Q) (r : t) : t :=
  mk (variant_id r) (name r) (description r) (traffic_allocation r) (content r)
    (design r) (visitors r) (conversions r) (conversion_rate r) (bounce_rate r)
    (time_on_page r) (scroll_depth r) (engagement_score r) (revenue r) x
    (created_at r) (last_updated r).

Definition set_last_updated (x : option Datetime.t) (r : t) : t :=
  mk (variant_id r) (name r) (description r) (traffic_allocation r) (content r)
    (design r) (visitors r) (conversions r) (conversion_rate r) (bounce_rate r)
    (time_on_page r) (scroll_depth r) (engagement_score r) (revenue r)
    (revenue_per_visitor r) (created_at r) x.

End TestVariant.

(** [ABTest]: an experiment. *)
Module ABTest.

Record t := mk {
  test_id : string;
  name : string;
  description : string;
  test_type : TestType;
  status : TestStatus;
  primary_metric : string;
  secondary_metrics : list string;
  significance_level : SignificanceLevel;
  minimum_sample_size : Z;
  minimum_duration_days : Z;
  maximum_duration_days : Z;
  control_variant : TestVariant.t;
  test_variants : list TestVariant.t;
  winner_variant_id : option string;
  statistical_significance : bool;
  confidence_interval : option (Q * Q);
  p_value : option Q;
  effect_size : option Q;
  created_by : option string;
  created_at : option Datetime.t;
  started_at : option Datetime.t;
  ended_at : option Datetime.t;
  insights : option (list string);
  recommendations : option (list string)
}.

Definition set_status (x : TestStatus) (r : t) : t :=
  mk (test_id r) (name r) (description r) (test_type r) x (primary_metric r)
    (secondary_metrics r) (significance_level r) (minimum_sample_size r)
    (minimum_duration_days r) (maximum_duration_days r) (control_variant r)
    (test_variants r) (winner_variant_id r) (statistical_significance r)
    (confidence_interval r) (p_value r) (effect_size r) (created_by r)
    (created_at r) (started_at r) (ended_at r) (insights r) (recommendations r).

Definition set_started_at (x : option Datetime.t) (r : t) : t :=
  mk (test_id r) (name r) (description r) (test_type r) (status r)
    (primary_metric r) (secondary_metrics r) (significance_level r)
    (minimum_sample_size r) (minimum_duration_days r) (maximum_duration_days r)
    (control_variant r) (test_variants r) (winner_variant_id r)
    (statistical_significance r) (confidence_interval r) (p_value r)
    (effect_size r) (created_by r) (created_at r) x (ended_at r) (insights r)
    (recommendations r).

Definition set_ended_at (x : option Datetime.t) (r : t) : t :=
  mk (test_id r) (name r) (description r) (test_type r) (status r)
    (primary_metric r) (secondary_metrics r) (significance_level r)
    (minimum_sample_size r) (minimum_duration_days r) (maximum_duration_days r)
    (control_variant r) (test_variants r) (winner_variant_id r)
    (statistical_significance r) (confidence_interval r) (p_value r)
    (effect_size r) (created_by r) (created_at r) (started_at r) x (insights r)
    (recommendations r).

Definition set_control_variant (x : TestVariant.t) (r : t) : t :=
  mk (test_id r) (name r) (description r) (test_type r) (status r)
    (primary_metric r) (secondary_metrics r) (significance_level r)
    (minimum_sample_size r) (minimum_duration_days r) (maximum_duration_days r)
    x (test_variants r) (winner_variant_id r) (statistical_significance r)
    (confidence_interval r) (p_value r) (effect_size r) (created_by r)
    (created_at r) (started_at r) (ended_at r) (insights r) (recommendations r).

Definition set_test_variants (x : list TestVariant.t) (r : t) : t :=
  mk (test_id r) (name r) (description r) (test_type r) (status r)
    (primary_metric r) (secondary_metrics r) (significance_level r)
    (minimum_sample_size r) (minimum_duration_days r) (maximum_duration_days r)
    (control_variant r) x (winner_variant_id r) (statistical_significance r)
    (confidence_interval r) (p_value r) (effect_size r) (created_by r)
    (created_at r) (started_at r) (ended_at r) (insights r) (recommendations r).

Definition set_winner_variant_id (x : option string) (r : t) : t :=
  mk (test_id r) (name r) (description r) (test_type r) (status r)
    (primary_metric r) (secondary_metrics r) (significance_level r)
    (minimum_sample_size r) (minimum_duration_days r) (maximum_duration_days r)
    (control_variant r) (test_variants r) x (statistical_significance r)
    (confidence_interval r) (p_value r) (effect_size r) (created_by r)
    (created_at r) (started_at r) (ended_at r) (insights r) (recommendations r).

Definition set_statistical_significance (x : bool) (r : t) : t :=
  mk (test_id r) (name r) (description r) (test_type r) (status r)
    (primary_metric r) (secondary_metrics r) (significance_level r)
    (minimum_sample_size r) (minimum_duration_days r) (maximum_duration_days r)
    (control_variant r) (test_variants r) (winner_variant_id r) x
    (confidence_interval r) (p_value r) (effect_size r) (created_by r)
    (created_at r) (started_at r) (ended_at r) (insights r) (recommendations r).

Definition set_confidence_interval (x : option (Q * Q)) (r : t) : t :=
  mk (test_id r) (name r) (description r) (test_type r) (status r)
    (primary_metric r) (secondary_metrics r) (significance_level r)
    (minimum_sample_size r) (minimum_duration_days r) (maximum_duration_days r)
    (control_variant r) (test_variants r) (winner_variant_id r)
    (statistical_significance r) x (p_value r) (effect_size r) (created_by r)
    (created_at r) (started_at r) (ended_at r) (insights r) (recommendations r).

Definition set_p_value (x : option Q) (r : t) : t :=
  mk (test_id r) (name r) (description r) (test_type r) (status r)
    (primary_metric r) (secondary_metrics r) (significance_level r)
    (minimum_sample_size r) (minimum_duration_days r) (maximum_duration_days r)
    (control_variant r) (test_variants r) (winner_variant_id r)
    (statistical_significance r) (confidence_interval r) x (effect_size r)
    (created_by r) (created_at r) (started_at r) (ended_at r) (insights r)
    (recommendations r).

Definition set_effect_size (x : option Q) (r : t) : t :=
  mk (test_id r) (name r) (description r) (test_type r) (status r)
    (primary_metric r) (secondary_metrics r) (significance_level r)
    (minimum_sample_size r) (minimum_duration_days r) (maximum_duration_days r)
    (control_variant r) (test_variants r) (winner_variant_id r)
    (statistical_significance r) (confidence_interval r) (p_value r) x
    (created_by r) (created_at r) (started_at r) (ended_at r) (insights r)
    (recommendations r).

Definition set_insights (x : option (list string)) (r : t) : t :=
  mk (test_id r) (name r) (description r) (test_type r) (status r)
    (primary_metric r) (secondary_metrics r) (significance_level r)
    (minimum_sample_size r) (minimum_duration_days r) (maximum_duration_days r)
    (control_variant r) (test_variants r) (winner_variant_id r)
    (statistical_significance r) (confidence_interval r) (p_value r)
    (effect_size r) (created_by r) (created_at r) (started_at r) (ended_at r) x
    (recommendations r).

Definition set_recommendations (x : option (list string)) (r : t) : t :=
  mk (test_id r) (name r) (description r) (test_type r) (status r)
    (primary_metric r) (secondary_metrics r) (significance_level r)
    (minimum_sample_size r) (minimum_duration_days r) (maximum_duration_days r)
    (control_variant r) (test_variants r) (winner_variant_id r)
    (statistical_significance r) (confidence_interval r) (p_value r)
    (effect_size r) (created_by r) (created_at r) (started_at r) (ended_at r)
    (insights r) x.

End ABTest.

(** [LearningUpdate] *)
Record LearningUpdate := mkLearningUpdate {
  update_id : string;
  source_test_id : string;
  pattern_type : string;
  learned_insights : list string;
  performance_improvement : Q;
  confidence_score : Q;
  applicable_contexts : list string;
  lu_created_at : Datetime.t
}.

(** The state of an [ABTestManager]: the two registries and the learning
    store.  The machine-learning predictors are not part of the model. *)
Record ABTestManager := mkManager {
  active_tests : gmap string ABTest.t;
  completed_tests : gmap string ABTest.t;
  learned_patterns : list LearningUpdate
}.

(** [__init__] *)
Definition ABTestManager_init : ABTestManager := mkManager ∅ ∅ [].

(** [self.significance_threshold] and [self.minimum_detectable_effect]:
    set by [__init__] and never assigned again. *)
Definition significance_threshold : Q := 5 # 100.
Definition minimum_detectable_effect : Q := 5 # 100.

Definition set_active_tests (m : gmap string ABTest.t) (mgr : ABTestManager) : ABTestManager :=
  mkManager m (completed_tests mgr) (learned_patterns mgr).

Definition set_completed_tests (m : gmap string ABTest.t) (mgr : ABTestManager) : ABTestManager :=
  mkManager (active_tests mgr) m (learned_patterns mgr).

Definition set_learned_patterns (l : list LearningUpdate) (mgr : ABTestManager) : ABTestManager :=
  mkManager (active_tests mgr) (completed_tests mgr) l.

(** ** Library calls kept abstract

    [None] stands for a call that raises.
    - [ttest_power effect_size power alpha]: the call
      [statsmodels.stats.power.ttest_power(effect_size=.., power=.., alpha=..,
      alternative='two-sided')]; [None] also when its result is not a finite
      number, which [int] refuses.
    - [chi2_contingency a b c d]: [scipy.stats.chi2_contingency] on the table
      [[a, b], [c, d]], giving the statistic and the p-value.
    - [ttest_ind_normal m1 s1 n1 m2 s2 n2]: [scipy.stats.ttest_ind] on two
      samples drawn by [np.random.normal(m, s, n)], giving the statistic and
      the p-value.
    - [np_sqrt]: [numpy.sqrt].
    - [format_float d x]: the text of [f"{x:.<d>f}"]. *)
Record Externals := mkExternals {
  ttest_power : Q -> Q -> Q -> option Q;
  chi2_contingency : Z -> Z -> Z -> Z -> option (Q * Q);
  ttest_ind_normal : Q -> Q -> Z -> Q -> Q -> Z -> option (Q * Q);
  np_sqrt : Q -> Q;
  format_float : nat -> Q -> string
}.

(** The [visitor_data] dictionary of [record_visitor_interaction]: a key
    that is absent is [None]; a key that is present holds a value of the
    documented type. *)
Record VisitorData := mkVisitorData {
  vd_converted : option bool;
  vd_time_on_page : option Q;
  vd_bounce_rate : option bool;
  vd_scroll_depth : option Q;
  vd_revenue : option Q
}.

(** The dictionary returned by the statistical tests.  The fallback of an
    [except] branch has the two keys [significant] and [p_value] only. *)
Record StatResult := mkStatResult {
  significant : bool;
  res_p_value : Q;
  res_effect_size : option Q;
  res_confidence_interval : option (Q * Q);
  res_test_statistic : option Q
}.

Definition failed_result : StatResult := mkStatResult false 1 None None None.

(** The result of a block that can raise part-way: the object as mutated
    so far, and whether the block ran to its end. *)
Inductive outcome (A : Type) : Type :=
  | Returned (a : A)
  | Raised (a : A).
Arguments Returned {A} a.
Arguments Raised {A} a.

Definition outcome_bind {A : Type} (o : outcome A) (k : A -> outcome A) : outcome A :=
  match o with
  | Returned a => k a
  | Raised a => Raised a
  end.

Notation "o >>= k" := (outcome_bind o k) (at level 50, left associativity).

Definition outcome_value {A : Type} (o : outcome A) : A :=
  match o with Returned a | Raised a => a end.

Definition outcome_ok {A : Type} (o : outcome A) : bool :=
  match o with Returned _ => true | Raised _ => false end.

(** Which arm of an experiment a variant id names. *)
Inductive arm := Control | Treatment (i : nat).

(** ** Operations of [ABTestManager] *)

Section Manager.

Variable E : Externals.

(** [_calculate_sample_size].  A failure inside the [try] block (the
    library call, a zero baseline rate) leads to the fallback
    [max(2000, int(16 * (1 / effect_size) ** 2))] of the bare [except],
    which itself raises when [effect_size] is zero: [None].  (On doubles
    the fallback also raises when the square overflows, for effect sizes
    below about 1e-154; exact rationals do not overflow.) *)
Definition _calculate_sample_size (alpha power effect_size baseline_rate : Q)
    : option Z :=
  let fallback :=
    if Qeq_bool effect_size 0 then None
    else Some (Z.max 2000 (Qtrunc (16 * ((1 / effect_size) * (1 / effect_size)))%Q)) in
  match ttest_power E effect_size power alpha with
  | Some sample_size =>
      if Qeq_bool baseline_rate 0 then fallback
      else
        let visitors_per_group := Qtrunc (sample_size / baseline_rate)%Q in
        Some (Z.max visitors_per_group 1000)
  | None => fallback
  end.

(** [f"test_{hashlib.md5(f'{name}_{datetime.now()}'.encode()).hexdigest()[:8]}"] *)
Definition generate_test_id (name : string) (now : Datetime.t) : string :=
  "test_" +:+ String.substring 0 8 (MD5.hexdigest (name +:+ "_" +:+ Datetime.str now)).

(** The [ABTest(...)] object built by [create_ab_test]. *)
Definition new_ab_test (test_id : string) (now : Datetime.t)
    (name description : string) (control_variant : TestVariant.t)
    (test_variants : list TestVariant.t) (primary_metric : string)
    (significance_level : SignificanceLevel) (sample_size : Z) : ABTest.t :=
  {| ABTest.test_id := test_id;
     ABTest.name := name;
     ABTest.description := description;
     ABTest.test_type := AB_TEST;
     ABTest.status := PLANNING;
     ABTest.primary_metric := primary_metric;
     ABTest.secondary_metrics := ["bounce_rate"; "time_on_page"; "engagement_score"];
     ABTest.significance_level := significance_level;
     ABTest.minimum_sample_size := sample_size;
     ABTest.minimum_duration_days := 7;
     ABTest.maximum_duration_days := 30;
     ABTest.control_variant := control_variant;
     ABTest.test_variants := test_variants;
     ABTest.winner_variant_id := None;
     ABTest.statistical_significance := false;
     ABTest.confidence_interval := None;
     ABTest.p_value := None;
     ABTest.effect_size := None;
     ABTest.created_by := None;
     ABTest.created_at := Some now;
     ABTest.started_at := None;
     ABTest.ended_at := None;
     ABTest.insights := Some [];
     ABTest.recommendations := Some [] |}.

(** [create_ab_test]: the new id and the new state, or [None] when the
    exception of the sample-size computation is re-raised.  Nothing of the
    configuration is checked here. *)
Definition create_ab_test (mgr : ABTestManager) (now : Datetime.t)
    (name description : string) (control_variant : TestVariant.t)
    (test_variants : list TestVariant.t) (primary_metric : string)
    (significance_level : SignificanceLevel) : option (string * ABTestManager) :=
  let test_id := generate_test_id name now in
  match _calculate_sample_size (SignificanceLevel_value significance_level) (8 # 10)
          minimum_detectable_effect (1 # 10) with
  | None => None
  | Some sample_size =>
      let ab_test :=
        new_ab_test test_id now name description control_variant test_variants
          primary_metric significance_level sample_size in
      Some (test_id, set_active_tests (<[test_id := ab_test]> (active_tests mgr)) mgr)
  end.

(** The sum of the traffic allocations of the control and the treatments. *)
Definition total_allocation (test : ABTest.t) : Q :=
  fold_left (fun acc v => (acc + TestVariant.traffic_allocation v)%Q)
    (ABTest.test_variants test)
    (TestVariant.traffic_allocation (ABTest.control_variant test)).

(** [_validate_test_configuration] *)
Definition _validate_test_configuration (test : ABTest.t) : bool :=
  if Qlt_bool (1 # 100) (Qabs (total_allocation test - 1)%Q) then false
  else if ABTest.minimum_sample_size test <? 100 then false
  else if ABTest.minimum_duration_days test <? 1 then false
  else true.

(** [start_test]: each [ValueError] is caught and turned into [False]. *)
Definition start_test (mgr : ABTestManager) (now : Datetime.t) (test_id : string)
    : bool * ABTestManager :=
  match active_tests mgr !! test_id with
  | None => (false, mgr)
  | Some test =>
      if negb (TestStatus_eqb (ABTest.status test) PLANNING) then (false, mgr)
      else if negb (_validate_test_configuration test) then (false, mgr)
      else
        let test' := ABTest.set_started_at (Some now) (ABTest.set_status RUNNING test) in
        (true, set_active_tests (<[test_id := test']> (active_tests mgr)) mgr)
  end.

(** [_update_running_average] *)
Definition _update_running_average (current_avg new_value : Q) (count : Z) : Q :=
  if count <=? 1 then new_value
  else (((current_avg * inject_Z (count - 1)) + new_value) / inject_Z count)%Q.

(** [_calculate_engagement_score] *)
Definition _calculate_engagement_score (variant : TestVariant.t) : Q :=
  let time_score := Qmin (TestVariant.time_on_page variant / 300)%Q 1%Q in
  let bounce_score := (1 - TestVariant.bounce_rate variant)%Q in
  let scroll_score := TestVariant.scroll_depth variant in
  (time_score * (4 # 10) + bounce_score * (3 # 10) + scroll_score * (3 # 10))%Q.

(** The variant lookup of [record_visitor_interaction]: the control when
    its id matches, else the first treatment whose id matches. *)
Fixpoint find_treatment (vs : list TestVariant.t) (variant_id : string) (i : nat)
    : option (nat * TestVariant.t) :=
  match vs with
  | [] => None
  | v :: vs' =>
      if String.eqb (TestVariant.variant_id v) variant_id then Some (i, v)
      else find_treatment vs' variant_id (S i)
  end.

Definition find_variant (test : ABTest.t) (variant_id : string)
    : option (arm * TestVariant.t) :=
  if String.eqb (TestVariant.variant_id (ABTest.control_variant test)) variant_id
  then Some (Control, ABTest.control_variant test)
  else
    match find_treatment (ABTest.test_variants test) variant_id 0 with
    | Some (i, v) => Some (Treatment i, v)
    | None => None
    end.

(** Writing a mutated variant back where it lives in the experiment. *)
Definition put_arm (test : ABTest.t) (a : arm) (v : TestVariant.t) : ABTest.t :=
  match a with
  | Control => ABTest.set_control_variant v test
  | Treatment i => ABTest.set_test_variants (<[i := v]> (ABTest.test_variants test)) test
  end.

(** The metric updates of [record_visitor_interaction] on the variant
    found, up to [variant.last_updated = datetime.now()].  The two divisions
    by [variant.visitors] raise [ZeroDivisionError] when the count is zero. *)
Definition update_variant (variant : TestVariant.t) (visitor_data : VisitorData)
    (now : Datetime.t) : outcome TestVariant.t :=
  Returned (TestVariant.set_visitors (TestVariant.visitors variant + 1) variant)
  >>= (fun v =>
    if default false (vd_converted visitor_data) then
      let v := TestVariant.set_conversions (TestVariant.conversions v + 1) v in
      if TestVariant.visitors v =? 0 then Raised v
      else Returned (TestVariant.set_conversion_rate
             (inject_Z (TestVariant.conversions v) / inject_Z (TestVariant.visitors v))%Q v)
    else Returned v)
  >>= (fun v =>
    match vd_time_on_page visitor_data with
    | Some x =>
        Returned (TestVariant.set_time_on_page
          (_update_running_average (TestVariant.time_on_page v) x (TestVariant.visitors v)) v)
    | None => Returned v
    end)
  >>= (fun v =>
    match vd_bounce_rate visitor_data with
    | Some b =>
        Returned (TestVariant.set_bounce_rate
          (_update_running_average (TestVariant.bounce_rate v) (if b then 1 else 0)%Q
             (TestVariant.visitors v)) v)
    | None => Returned v
    end)
  >>= (fun v =>
    match vd_scroll_depth visitor_data with
    | Some x =>
        Returned (TestVariant.set_scroll_depth
          (_update_running_average (TestVariant.scroll_depth v) x (TestVariant.visitors v)) v)
    | None => Returned v
    end)
  >>= (fun v => Returned (TestVariant.set_engagement_score (_calculate_engagement_score v) v))
  >>= (fun v =>
    match vd_revenue visitor_data with
    | Some x =>
        let v := TestVariant.set_revenue (TestVariant.revenue v + x)%Q v in
        if TestVariant.visitors v =? 0 then Raised v
        else Returned (TestVariant.set_revenue_per_visitor
               (TestVariant.revenue v / inject_Z (TestVariant.visitors v))%Q v)
    | None => Returned v
    end)
  >>= (fun v => Returned (TestVariant.set_last_updated (Some now) v)).

(** [_chi_square_test].  The block raises, and the fallback is returned,
    when the library call raises or when a visitor count is zero in
    [p * (1 - p) / n]. *)
Definition _chi_square_test (control test_variant : TestVariant.t) : StatResult :=
  let control_conversions := TestVariant.conversions control in
  let control_non_conversions := TestVariant.visitors control - TestVariant.conversions control in
  let test_conversions := TestVariant.conversions test_variant in
  let test_non_conversions :=
    TestVariant.visitors test_variant - TestVariant.conversions test_variant in
  match chi2_contingency E control_conversions control_non_conversions
          test_conversions test_non_conversions with
  | None => failed_result
  | Some (chi2, p_value) =>
      let n := TestVariant.visitors control + TestVariant.visitors test_variant in
      let effect_size := np_sqrt E (chi2 / inject_Z (n * (Z.min 2 2 - 1)))%Q in
      let p1 := TestVariant.conversion_rate control in
      let p2 := TestVariant.conversion_rate test_variant in
      let n1 := TestVariant.visitors control in
      let n2 := TestVariant.visitors test_variant in
      let diff := (p2 - p1)%Q in
      if (n1 =? 0) || (n2 =? 0) then failed_result
      else
        let se := np_sqrt E ((p1 * (1 - p1) / inject_Z n1) + (p2 * (1 - p2) / inject_Z n2))%Q in
        let ci_lower := (diff - (196 # 100) * se)%Q in
        let ci_upper := (diff + (196 # 100) * se)%Q in
        {| significant := Qlt_bool p_value significance_threshold;
           res_p_value := p_value;
           res_effect_size := Some effect_size;
           res_confidence_interval := Some (ci_lower, ci_upper);
           res_test_statistic := Some chi2 |}
  end.

(** [getattr(variant, metric, 0)] for a metric name: [Some x] for a numeric
    attribute (and for a name that is no field, by the default [0]), [None]
    for a field that holds no number.  The special attributes every Python
    object inherits are not distinguished from unknown names. *)
Definition getattr (variant : TestVariant.t) (metric : string) : option Q :=
  if String.eqb metric "traffic_allocation" then Some (TestVariant.traffic_allocation variant)
  else if String.eqb metric "visitors" then Some (inject_Z (TestVariant.visitors variant))
  else if String.eqb metric "conversions" then Some (inject_Z (TestVariant.conversions variant))
  else if String.eqb metric "conversion_rate" then Some (TestVariant.conversion_rate variant)
  else if String.eqb metric "bounce_rate" then Some (TestVariant.bounce_rate variant)
  else if String.eqb metric "time_on_page" then Some (TestVariant.time_on_page variant)
  else if String.eqb metric "scroll_depth" then Some (TestVariant.scroll_depth variant)
  else if String.eqb metric "engagement_score" then Some (TestVariant.engagement_score variant)
  else if String.eqb metric "revenue" then Some (TestVariant.revenue variant)
  else if String.eqb metric "revenue_per_visitor"
       then Some (TestVariant.revenue_per_visitor variant)
  else if existsb (String.eqb metric)
            ["variant_id"; "name"; "description"; "content"; "design";
             "created_at"; "last_updated"]
       then None
  else Some 0%Q.

(** [_t_test].  The fallback is returned when an attribute is not a number,
    when sampling or the library test raises, and when one of the divisions
    by [len(control_data) + len(test_data) - 2], [len(control_data)] or
    [len(test_data)] is a division by zero. *)
Definition _t_test (control test_variant : TestVariant.t) (metric : string) : StatResult :=
  match getattr control metric, getattr test_variant metric with
  | Some control_mean, Some test_mean =>
      let control_std := (control_mean * (2 # 10))%Q in
      let test_std := (test_mean * (2 # 10))%Q in
      let n1 := TestVariant.visitors control in
      let n2 := TestVariant.visitors test_variant in
      match ttest_ind_normal E control_mean control_std n1 test_mean test_std n2 with
      | None => failed_result
      | Some (t_statistic, p_value) =>
          if (n1 + n2 - 2 =? 0) || (n1 =? 0) || (n2 =? 0) then failed_result
          else
            let pooled_std :=
              np_sqrt E
                ((inject_Z (n1 - 1) * (control_std * control_std)
                  + inject_Z (n2 - 1) * (test_std * test_std))
                 / inject_Z (n1 + n2 - 2))%Q in
            let effect_size := ((test_mean - control_mean) / pooled_std)%Q in
            let se := (pooled_std * np_sqrt E (1 / inject_Z n1 + 1 / inject_Z n2))%Q in
            let diff := (test_mean - control_mean)%Q in
            let ci_lower := (diff - (196 # 100) * se)%Q in
            let ci_upper := (diff + (196 # 100) * se)%Q in
            {| significant := Qlt_bool p_value significance_threshold;
               res_p_value := p_value;
               res_effect_size := Some (Qabs effect_size);
               res_confidence_interval := Some (ci_lower, ci_upper);
               res_test_statistic := Some t_statistic |}
      end
  | _, _ => failed_result
  end.

(** [_analyze_statistical_significance]: the returned dictionary and the
    experiment as mutated.  In the winner step for a metric other than the
    conversion rate the attributes are numbers whenever the step is reached
    (a significant result comes from a t-test that did not fall back); the
    remaining branch stands for the [except] path, which returns the
    fallback and keeps the fields already written. *)
Definition _analyze_statistical_significance (test : ABTest.t) : StatResult * ABTest.t :=
  match ABTest.test_variants test with
  | [test_variant] =>
      let control := ABTest.control_variant test in
      let result :=
        if String.eqb (ABTest.primary_metric test) "conversion_rate"
        then _chi_square_test control test_variant
        else _t_test control test_variant (ABTest.primary_metric test) in
      let test :=
        ABTest.set_effect_size (Some (default 0%Q (res_effect_size result)))
          (ABTest.set_confidence_interval (res_confidence_interval result)
             (ABTest.set_statistical_significance (significant result)
                (ABTest.set_p_value (Some (res_p_value result)) test))) in
      if significant result then
        if String.eqb (ABTest.primary_metric test) "conversion_rate" then
          if Qlt_bool (TestVariant.conversion_rate control)
               (TestVariant.conversion_rate test_variant)
          then (result,
                ABTest.set_winner_variant_id (Some (TestVariant.variant_id test_variant)) test)
          else (result,
                ABTest.set_winner_variant_id (Some (TestVariant.variant_id control)) test)
        else
          match getattr control (ABTest.primary_metric test),
                getattr test_variant (ABTest.primary_metric test) with
          | Some control_mean, Some test_mean =>
              if Qlt_bool control_mean test_mean
              then (result,
                    ABTest.set_winner_variant_id
                      (Some (TestVariant.variant_id test_variant)) test)
              else (result,
                    ABTest.set_winner_variant_id (Some (TestVariant.variant_id control)) test)
          | _, _ => (failed_result, test)
          end
      else (result, test)
  | _ => (failed_result, test)
  end.

(** [_generate_specific_recommendations]: the lines appended for the
    winning variant. *)
Definition _generate_specific_recommendations (winner : TestVariant.t) : list string :=
  let content := TestVariant.content winner in
  let design := TestVariant.design winner in
  (match dict_get content "headline" with
   | Some h => ["Use headline pattern: '" +:+ String.substring 0 50 h
                +:+ "...' for similar campaigns"]
   | None => []
   end)
  ++ (match dict_get content "cta_text" with
      | Some c => ["Apply CTA text: '" +:+ c +:+ "' to other landing pages"]
      | None => []
      end)
  ++ (match dict_get design "color_scheme" with
      | Some c => ["Consider color scheme '" +:+ c +:+ "' for brand consistency"]
      | None => []
      end)
  ++ (match dict_get design "layout" with
      | Some l => ["Implement '" +:+ l +:+ "' layout for similar pages"]
      | None => []
      end).

(** The winner lookup shared by [_generate_test_insights] and
    [_learn_from_test]: nothing when [winner_variant_id] is [None] or the
    empty string, the control when its id matches, else the first treatment
    whose id matches. *)
Definition find_winner (test : ABTest.t) : option TestVariant.t :=
  match ABTest.winner_variant_id test with
  | Some w =>
      if String.eqb w "" then None
      else if String.eqb (TestVariant.variant_id (ABTest.control_variant test)) w
      then Some (ABTest.control_variant test)
      else List.find (fun v => String.eqb (TestVariant.variant_id v) w)
             (ABTest.test_variants test)
  | None => None
  end.

(** The insight lines of one treatment in [_generate_test_insights];
    [None] when a division by the control's rate or score is a division by
    zero. *)
Definition variant_insights (test : ABTest.t) (variant : TestVariant.t)
    : option (list string) :=
  let control := ABTest.control_variant test in
  let rate_lines :=
    if String.eqb (ABTest.primary_metric test) "conversion_rate" then
      if Qeq_bool (TestVariant.conversion_rate control) 0 then None
      else
        let improvement :=
          (((TestVariant.conversion_rate variant - TestVariant.conversion_rate control)
            / TestVariant.conversion_rate control) * 100)%Q in
        if Qlt_bool 0 improvement
        then Some ["Variant " +:+ TestVariant.name variant
                   +:+ " improved conversion rate by "
                   +:+ format_float E 1 improvement +:+ "%"]
        else Some ["Variant " +:+ TestVariant.name variant
                   +:+ " decreased conversion rate by "
                   +:+ format_float E 1 (Qabs improvement) +:+ "%"]
    else Some [] in
  match rate_lines with
  | None => None
  | Some lines =>
      if Qlt_bool (TestVariant.engagement_score control)
           (TestVariant.engagement_score variant) then
        if Qeq_bool (TestVariant.engagement_score control) 0 then None
        else
          let eng_improvement :=
            (((TestVariant.engagement_score variant - TestVariant.engagement_score control)
              / TestVariant.engagement_score control) * 100)%Q in
          Some (lines ++ ["Variant " +:+ TestVariant.name variant
                          +:+ " improved engagement by "
                          +:+ format_float E 1 eng_improvement +:+ "%"])
      else Some lines
  end.

Fixpoint all_variant_insights (test : ABTest.t) (vs : list TestVariant.t)
    : option (list string) :=
  match vs with
  | [] => Some []
  | v :: vs' =>
      match variant_insights test v with
      | None => None
      | Some l1 =>
          match all_variant_insights test vs' with
          | None => None
          | Some l2 => Some (l1 ++ l2)
          end
      end
  end.

(** [_generate_test_insights]: an exception anywhere (a division by zero,
    formatting a p-value that is [None]) leaves the experiment as it was. *)
Definition _generate_test_insights (test : ABTest.t) : ABTest.t :=
  match all_variant_insights test (ABTest.test_variants test), ABTest.p_value test with
  | Some lines, Some p =>
      let insights :=
        lines ++
        [if ABTest.statistical_significance test
         then "Results are statistically significant (p-value: "
              +:+ format_float E 4 p +:+ ")"
         else "Results are not statistically significant (p-value: "
              +:+ format_float E 4 p +:+ ")"] in
      let recommendations :=
        match find_winner test with
        | Some winner =>
            ("Implement variant '" +:+ TestVariant.name winner
             +:+ "' for improved performance")
            :: _generate_specific_recommendations winner
        | None => []
        end in
      ABTest.set_recommendations (Some recommendations)
        (ABTest.set_insights (Some insights) test)
  | _, _ => test
  end.

(** [_analyze_content_differences] *)
Definition _analyze_content_differences (control_content winner_content : dict)
    : list string :=
  flat_map (fun kv =>
    let key := fst kv in
    match dict_get control_content key, dict_get winner_content key with
    | None, _ => ["Added content element: " +:+ key]
    | Some old, Some new =>
        if String.eqb new old then []
        else ["Modified " +:+ key +:+ ": " +:+ old +:+ " -> " +:+ new]
    | Some _, None => []
    end) winner_content.

(** [_analyze_design_differences] *)
Definition _analyze_design_differences (control_design winner_design : dict)
    : list string :=
  flat_map (fun kv =>
    let key := fst kv in
    match dict_get control_design key, dict_get winner_design key with
    | None, _ => ["Added design element: " +:+ key]
    | Some old, Some new =>
        if String.eqb new old then []
        else ["Modified " +:+ key +:+ ": " +:+ old +:+ " -> " +:+ new]
    | Some _, None => []
    end) winner_design.

(** The [improvement] computed by [_learn_from_test]; [None] when the
    computation raises: a zero control rate on the conversion-rate path, an
    attribute that is not a number on the other path. *)
Definition learn_improvement (test : ABTest.t) (winner_variant : TestVariant.t)
    : option Q :=
  let control := ABTest.control_variant test in
  if String.eqb (ABTest.primary_metric test) "conversion_rate" then
    if Qeq_bool (TestVariant.conversion_rate control) 0 then None
    else Some ((TestVariant.conversion_rate winner_variant
                - TestVariant.conversion_rate control)
               / TestVariant.conversion_rate control)%Q
  else
    match getattr control (ABTest.primary_metric test),
          getattr winner_variant (ABTest.primary_metric test) with
    | Some control_value, Some winner_value =>
        if Qlt_bool 0 control_value
        then Some ((winner_value - control_value) / control_value)%Q
        else Some 0%Q
    | _, _ => None
    end.

(** [_learn_from_test]: the learning store after the call.  Every early
    [return] and every swallowed exception leaves it as it was. *)
Definition _learn_from_test (mgr : ABTestManager) (now : Datetime.t) (test : ABTest.t)
    : ABTestManager :=
  if negb (ABTest.statistical_significance test) then mgr
  else
    match find_winner test with
    | None => mgr
    | Some winner_variant =>
        match learn_improvement test winner_variant, ABTest.p_value test with
        | Some improvement, Some p =>
            let control := ABTest.control_variant test in
            let content_diff :=
              if negb (dict_eqb (TestVariant.content winner_variant)
                         (TestVariant.content control))
              then _analyze_content_differences (TestVariant.content control)
                     (TestVariant.content winner_variant)
              else [] in
            let design_diff :=
              if negb (dict_eqb (TestVariant.design winner_variant)
                         (TestVariant.design control))
              then _analyze_design_differences (TestVariant.design control)
                     (TestVariant.design winner_variant)
              else [] in
            let learning_update :=
              {| update_id := "learn_" +:+ ABTest.test_id test;
                 source_test_id := ABTest.test_id test;
                 pattern_type := "test_result";
                 learned_insights := content_diff ++ design_diff;
                 performance_improvement := improvement;
                 confidence_score := (1 - p)%Q;
                 applicable_contexts := [];
                 lu_created_at := now |} in
            set_learned_patterns (learned_patterns mgr ++ [learning_update]) mgr
        | _, _ => mgr
        end
    end.

(** [_stop_test]: whether a test was stopped, and the new state. *)
Definition _stop_test (mgr : ABTestManager) (now : Datetime.t) (test_id : string)
    : bool * ABTestManager :=
  match active_tests mgr !! test_id with
  | None => (false, mgr)
  | Some test =>
      let test := ABTest.set_ended_at (Some now) (ABTest.set_status COMPLETED test) in
      let test := _generate_test_insights test in
      let mgr := _learn_from_test mgr now test in
      (true,
       set_active_tests (delete test_id (active_tests mgr))
         (set_completed_tests (<[test_id := test]> (completed_tests mgr)) mgr))
  end.

(** The visitors of all arms. *)
Definition total_visitors (test : ABTest.t) : Z :=
  fold_left (fun acc v => acc + TestVariant.visitors v) (ABTest.test_variants test)
    (TestVariant.visitors (ABTest.control_variant test)).

(** [_check_early_stopping] on the experiment stored under [key] in the
    active registry.  The analyzer mutates that experiment in place; the
    stop is requested for the experiment's own [test_id]. *)
Definition _check_early_stopping (mgr : ABTestManager) (now : Datetime.t) (key : string)
    : ABTestManager :=
  match active_tests mgr !! key with
  | None => mgr
  | Some test =>
      if total_visitors test <? ABTest.minimum_sample_size test then mgr
      else if match ABTest.started_at test with
              | Some started =>
                  Datetime.days_between now started <? ABTest.minimum_duration_days test
              | None => false
              end then mgr
      else
        let '(significance_result, test') := _analyze_statistical_significance test in
        let mgr' := set_active_tests (<[key := test']> (active_tests mgr)) mgr in
        if significant significance_result
        then snd (_stop_test mgr' now (ABTest.test_id test'))
        else mgr'
  end.

(** [record_visitor_interaction]: the boolean returned and the new state.
    An exception raised while the variant is updated is caught: the call
    returns [False], the part of the update already done stays, and the
    early-stopping check is skipped. *)
Definition record_visitor_interaction (mgr : ABTestManager) (now : Datetime.t)
    (test_id variant_id : string) (visitor_data : VisitorData) : bool * ABTestManager :=
  match active_tests mgr !! test_id with
  | None => (false, mgr)
  | Some test =>
      if negb (TestStatus_eqb (ABTest.status test) RUNNING) then (false, mgr)
      else
        match find_variant test variant_id with
        | None => (false, mgr)
        | Some (a, variant) =>
            let o := update_variant variant visitor_data now in
            let mgr' :=
              set_active_tests
                (<[test_id := put_arm test a (outcome_value o)]> (active_tests mgr)) mgr in
            if outcome_ok o then (true, _check_early_stopping mgr' now test_id)
            else (false, mgr')
        end
  end.

(** The dictionary returned by [get_test_status]. *)
Record VariantReport := mkVariantReport {
  vr_visitors : Z;
  vr_conversions : Z;
  vr_conversion_rate : Q;
  vr_engagement_score : Q
}.

Record StatusReport := mkStatusReport {
  sr_test_id : string;
  sr_name : string;
  sr_status : string;
  sr_progress_visitors : Q;
  sr_progress_time : Q;
  sr_progress_overall : Q;
  sr_statistical_significance : bool;
  sr_p_value : option Q;
  sr_winner_variant_id : option string;
  sr_effect_size : option Q;
  sr_control : VariantReport;
  sr_test : list (string * VariantReport);
  sr_insights : list string;
  sr_recommendations : list string
}.

Definition variant_report (v : TestVariant.t) : VariantReport :=
  {| vr_visitors := TestVariant.visitors v;
     vr_conversions := TestVariant.conversions v;
     vr_conversion_rate := TestVariant.conversion_rate v;
     vr_engagement_score := TestVariant.engagement_score v |}.

(** The report built by [get_test_status] once the experiment is found;
    [None] when a progress division is a division by zero (the exception is
    caught and [None] returned). *)
Definition status_report (now : Datetime.t) (test : ABTest.t) : option StatusReport :=
  if ABTest.minimum_sample_size test =? 0 then None
  else
    let progress :=
      Qmin (inject_Z (total_visitors test) / inject_Z (ABTest.minimum_sample_size test))%Q
        1%Q in
    match
      match ABTest.started_at test with
      | Some started =>
          if ABTest.minimum_duration_days test =? 0 then None
          else Some (Qmin (inject_Z (Datetime.days_between now started)
                           / inject_Z (ABTest.minimum_duration_days test))%Q 1%Q)
      | None => Some 0%Q
      end
    with
    | None => None
    | Some time_progress =>
        Some {| sr_test_id := ABTest.test_id test;
                sr_name := ABTest.name test;
                sr_status := TestStatus_value (ABTest.status test);
                sr_progress_visitors := progress;
                sr_progress_time := time_progress;
                sr_progress_overall := Qmax progress time_progress;
                sr_statistical_significance := ABTest.statistical_significance test;
                sr_p_value := ABTest.p_value test;
                sr_winner_variant_id := ABTest.winner_variant_id test;
                sr_effect_size := ABTest.effect_size test;
                sr_control := variant_report (ABTest.control_variant test);
                sr_test := map (fun v => (TestVariant.variant_id v, variant_report v))
                             (ABTest.test_variants test);
                sr_insights := default [] (ABTest.insights test);
                sr_recommendations := default [] (ABTest.recommendations test) |}
    end.

(** [get_test_status]: the active registry is consulted first, then the
    completed one. *)
Definition get_test_status (mgr : ABTestManager) (now : Datetime.t) (test_id : string)
    : option StatusReport :=
  match active_tests mgr !! test_id with
  | Some test => status_report now test
  | None =>
      match completed_tests mgr !! test_id with
      | Some test => status_report now test
      | None => None
      end
  end.

End Manager.

(** ** The registry as a state machine *)

(** The operations that change the registries. *)
Inductive command :=
  | Create (name description : string) (control_variant : TestVariant.t)
      (test_variants : list TestVariant.t) (primary_metric : string)
      (significance_level : SignificanceLevel)
  | Start (test_id : string)
  | RecordInteraction (test_id variant_id : string) (visitor_data : VisitorData)
  | Stop (test_id : string).

Definition run_command (E : Externals) (mgr : ABTestManager) (now : Datetime.t)
    (c : command) : ABTestManager :=
  match c with
  | Create name description control_variant test_variants primary_metric significance_level =>
      match create_ab_test E mgr now name description control_variant test_variants
              primary_metric significance_level with
      | Some (_, mgr') => mgr'
      | None => mgr
      end
  | Start test_id => snd (start_test mgr now test_id)
  | RecordInteraction test_id variant_id visitor_data =>
      snd (record_visitor_interaction E mgr now test_id variant_id visitor_data)
  | Stop test_id => snd (_stop_test E mgr now test_id)
  end.

(** No id is filed in both registries. *)
Definition registries_disjoint (mgr : ABTestManager) : Prop :=
  forall id, active_tests mgr !! id = None \/ completed_tests mgr !! id = None.

(** ** Definitions used by the statements *)

(** Folding [_update_running_average] over the values of successive
    events, the count being the number of the event. *)
Fixpoint running_average_from (avg : Q) (count : Z) (values : list Q) : Q :=
  match values with
  | [] => avg
  | x :: values' =>
      running_average_from (_update_running_average avg x count) (count + 1) values'
  end.

Definition Qsum (values : list Q) : Q := fold_right Qplus 0%Q values.

Definition arithmetic_mean (values : list Q) : Q :=
  (Qsum values / inject_Z (Z.of_nat (length values)))%Q.

(** The experiment as [_stop_test] files it in the completed registry. *)
Definition stopped (E : Externals) (now : Datetime.t) (test : ABTest.t) : ABTest.t :=
  _generate_test_insights E (ABTest.set_ended_at (Some now) (ABTest.set_status COMPLETED test)).

(** The ids a command files as new: the id generated by a creation. *)
Definition new_id_is_fresh (mgr : ABTestManager) (now : Datetime.t) (c : command) : Prop :=
  match c with
  | Create name _ _ _ _ _ => completed_tests mgr !! generate_test_id name now = None
  | _ => True
  end.

(** The three conversion counters of a variant are those of another. *)
Definition same_counters (v v' : TestVariant.t) : Prop :=
  TestVariant.visitors v' = TestVariant.visitors v
  /\ TestVariant.conversions v' = TestVariant.conversions v
  /\ TestVariant.conversion_rate v' = TestVariant.conversion_rate v.

(** The variant after a run of interactions, each recorded to its end. *)
Inductive recorded (now : Datetime.t) : TestVariant.t -> list VisitorData -> TestVariant.t -> Prop :=
  | recorded_nil (v : TestVariant.t) : recorded now v [] v
  | recorded_cons (v v' v'' : TestVariant.t) (d : VisitorData) (ds : list VisitorData) :
      update_variant v d now = Returned v' ->
      recorded now v' ds v'' ->
      recorded now v (d :: ds) v''.

(** The states a manager goes through: from [__init__], by the operations
    that change it. *)
Inductive reachable (E : Externals) : ABTestManager -> Prop :=
  | reachable_init : reachable E ABTestManager_init
  | reachable_step (mgr : ABTestManager) (now : Datetime.t) (c : command) :
      reachable E mgr -> reachable E (run_command E mgr now c).

(** What holds of every experiment in the active registry of a reachable
    manager. *)
Definition well_formed (id : string) (test : ABTest.t) : Prop :=
  ABTest.test_id test = id
  /\ (ABTest.status test = PLANNING \/ ABTest.status test = RUNNING)
  /\ (ABTest.status test = RUNNING -> is_Some (ABTest.started_at test))
  /\ 1000 <= ABTest.minimum_sample_size test
  /\ ABTest.minimum_duration_days test = 7.

Definition active_well_formed (mgr : ABTestManager) : Prop :=
  forall id test, active_tests mgr !! id = Some test -> well_formed id test.

(** ** Sample data

    The variants of the usage example at the end of the source file, and
    the answers of the statistical library on the contingency tables used
    below (continuity-corrected chi-square statistic and p-value, rounded).
    The call to [ttest_power] is taken to raise: it passes a keyword,
    [power], that the library function does not have. *)

(** [TestVariant(...)] with the defaults of the data class. *)
Definition new_variant (variant_id name description : string) (traffic_allocation : Q)
    (content design : dict) : TestVariant.t :=
  {| TestVariant.variant_id := variant_id;
     TestVariant.name := name;
     TestVariant.description := description;
     TestVariant.traffic_allocation := traffic_allocation;
     TestVariant.content := content;
     TestVariant.design := design;
     TestVariant.visitors := 0;
     TestVariant.conversions := 0;
     TestVariant.conversion_rate := 0;
     TestVariant.bounce_rate := 0;
     TestVariant.time_on_page := 0;
     TestVariant.scroll_depth := 0;
     TestVariant.engagement_score := 0;
     TestVariant.revenue := 0;
     TestVariant.revenue_per_visitor := 0;
     TestVariant.created_at := None;
     TestVariant.last_updated := None |}.

Definition sample_control : TestVariant.t :=
  new_variant "control" "Original" "Current landing page" (1 # 2)
    [("headline", "Original Headline"); ("cta", "Sign Up")]
    [("color", "blue"); ("layout", "standard")].

Definition sample_treatment : TestVariant.t :=
  new_variant "test_v1" "New Design" "New landing page with improved CTA" (1 # 2)
    [("headline", "Improved Headline"); ("cta", "Get Started Now")]
    [("color", "green"); ("layout", "modern")].

(** A variant with the given counters and the matching rate. *)
Definition with_traffic (visitors conversions : Z) (v : TestVariant.t) : TestVariant.t :=
  TestVariant.set_conversion_rate (inject_Z conversions / inject_Z visitors)%Q
    (TestVariant.set_conversions conversions (TestVariant.set_visitors visitors v)).

(** [numpy.sqrt] to six decimals. *)
Definition sqrt_approx (x : Q) : Q :=
  (inject_Z (Z.sqrt (Qfloor (x * 1000000000000))) / 1000000)%Q.

(** Rounding to the nearest integer, ties to even. *)
Definition Qround_half_even (x : Q) : Z :=
  let f := Qfloor x in
  let r := (x - inject_Z f)%Q in
  if Qlt_bool r (1 # 2) then f
  else if Qlt_bool (1 # 2) r then f + 1
  else if Z.even f then f else f + 1.

(** Fixed-point formatting with [d] decimals. *)
Definition format_fixed (d : nat) (x : Q) : string :=
  let scaled := Qround_half_even (x * inject_Z (10 ^ Z.of_nat d)) in
  let m := Z.abs scaled in
  (if scaled <? 0 then "-" else "")
  +:+ pretty (m / 10 ^ Z.of_nat d)
  +:+ (match d with O => "" | _ => "." +:+ Datetime.zpad d (m mod 10 ^ Z.of_nat d) end).

Definition sample_externals : Externals :=
  {| ttest_power := fun _ _ _ => None;
     chi2_contingency := fun a b c d =>
       if (a =? 500) && (b =? 4500) && (c =? 505) && (d =? 4495)
       then Some (177 # 10000, 8942 # 10000)%Q
       else if (a =? 500) && (b =? 4500) && (c =? 570) && (d =? 4430)
       then Some (49827 # 10000, 256 # 10000)%Q
       else if (a =? 0) && (b =? 3200) && (c =? 320) && (d =? 2880)
       then Some (3347401 # 10000, 1 # 1000000000000)%Q
       else None;
     ttest_ind_normal := fun _ _ _ _ _ _ => None;
     np_sqrt := sqrt_approx;
     format_float := format_fixed |}.

(** An interaction that converts, and one that does not. *)
Definition converting : VisitorData := mkVisitorData (Some true) None None None None.
Definition browsing : VisitorData := mkVisitorData (Some false) None None None None.

(** The same interaction recorded [n] times. *)
Fixpoint record_many (E : Externals) (mgr : ABTestManager) (now : Datetime.t)
    (test_id variant_id : string) (visitor_data : VisitorData) (n : nat) : ABTestManager :=
  match n with
  | O => mgr
  | S n' =>
      record_many E
        (snd (record_visitor_interaction E mgr now test_id variant_id visitor_data))
        now test_id variant_id visitor_data n'
  end.

(** The usage example: an experiment created and started, then recorded on
    the day of the start, the visitors of the control and then those of the
    treatment, each arm's converting visitors last. *)
Definition sample_experiment (E : Externals) (now : Datetime.t)
    (significance_level : SignificanceLevel)
    (control_visitors control_conversions test_visitors test_conversions : nat)
    : option (string * ABTestManager) :=
  match create_ab_test E ABTestManager_init now "Homepage CTA Test"
          "Testing new CTA button design" sample_control [sample_treatment]
          "conversion_rate" significance_level with
  | None => None
  | Some (test_id, mgr) =>
      let mgr := snd (start_test mgr now test_id) in
      let mgr := record_many E mgr now test_id "control" browsing
                   (control_visitors - control_conversions) in
      let mgr := record_many E mgr now test_id "control" converting control_conversions in
      let mgr := record_many E mgr now test_id "test_v1" browsing
                   (test_visitors - test_conversions) in
      let mgr := record_many E mgr now test_id "test_v1" converting test_conversions in
      Some (test_id, mgr)
  end.

Definition sample_start : Datetime.t := Datetime.mk 2024 3 1 10 0 0 74696.
Definition sample_week_later : Datetime.t := Datetime.mk 2024 3 9 10 0 0 8513.
Definition sample_six_weeks_later : Datetime.t := Datetime.mk 2024 4 12 10 0 0 0.

(** A running experiment as [create_ab_test] and [start_test] leave it,
    with the given arms. *)
Definition running_test (test_id : string) (significance_level : SignificanceLevel)
    (control_variant : TestVariant.t) (test_variants : list TestVariant.t) : ABTest.t :=
  ABTest.set_started_at (Some sample_start)
    (ABTest.set_status RUNNING
       (new_ab_test test_id sample_start "Homepage CTA Test" "Testing new CTA button design"
          control_variant test_variants "conversion_rate" significance_level 6400)).

Definition manager_with (test : ABTest.t) : ABTestManager :=
  set_active_tests {[ABTest.test_id test := test]} ABTestManager_init.

(** A running experiment with 100 visitors per arm, and one with 5000. *)
Definition small_running_test : ABTest.t :=
  running_test "test_e7b00d14" MEDIUM (with_traffic 100 10 sample_control)
    [with_traffic 100 12 sample_treatment].

Definition large_running_test : ABTest.t :=
  running_test "test_e7b00d14" MEDIUM (with_traffic 5000 500 sample_control)
    [with_traffic 5000 505 sample_treatment].

(** ** Recommendations and the learning summary *)

(** [l[-n:]]: the last [n] elements. *)
Definition last_n {A : Type} (n : nat) (l : list A) : list A :=
  skipn (length l - n) l.

(** [frequency[insight] = frequency.get(insight, 0) + 1] on a dictionary
    that keeps its keys in insertion order. *)
Fixpoint tally_add (insight : string) (frequency : list (string * Z)) : list (string * Z) :=
  match frequency with
  | [] => [(insight, 1)]
  | (k, n) :: frequency' =>
      if String.eqb k insight then (k, n + 1) :: frequency'
      else (k, n) :: tally_add insight frequency'
  end.

Definition tally (insights : list string) : list (string * Z) :=
  fold_left (fun frequency insight => tally_add insight frequency) insights [].

(** [sorted(items, key=lambda x: x[1], reverse=True)]: by decreasing
    frequency, items of equal frequency in their original order. *)
Fixpoint insert_by_frequency (x : string * Z) (sorted : list (string * Z))
    : list (string * Z) :=
  match sorted with
  | [] => [x]
  | y :: rest =>
      if snd x <=? snd y then y :: insert_by_frequency x rest else x :: sorted
  end.

Definition sorted_by_frequency (items : list (string * Z)) : list (string * Z) :=
  fold_left (fun sorted x => insert_by_frequency x sorted) items [].

(** The [success_insights] of [get_optimization_recommendations]: the
    insights of the last ten learning records whose improvement exceeds 5%. *)
Definition success_insights (mgr : ABTestManager) : list string :=
  let relevant_patterns :=
    List.filter (fun pattern => Qlt_bool (5 # 100) (performance_improvement pattern))
      (learned_patterns mgr) in
  flat_map learned_insights (last_n 10 relevant_patterns).

(** Its [top_patterns]: the tally of these insights, sorted. *)
Definition top_patterns (mgr : ABTestManager) : list (string * Z) :=
  sorted_by_frequency (tally (success_insights mgr)).

(** [get_optimization_recommendations]; [target_metric] is not used by the
    source.  No step of the body raises on values of these types, so the
    [except] branch is not written out. *)
Definition get_optimization_recommendations (mgr : ABTestManager)
    (current_variant : TestVariant.t) (target_metric : string) : list string :=
  let recommendations :=
    flat_map (fun pf : string * Z =>
                if 2 <=? snd pf
                then ["Consider: " +:+ fst pf +:+ " (successful in "
                      +:+ pretty (snd pf) +:+ " tests)"]
                else [])
      (firstn 5 (top_patterns mgr)) in
  let recommendations :=
    recommendations ++
    (if Qlt_bool (7 # 10) (TestVariant.bounce_rate current_variant)
     then ["High bounce rate detected - consider improving page loading speed"]
     else []) in
  let recommendations :=
    recommendations ++
    (if Qlt_bool (TestVariant.scroll_depth current_variant) (3 # 10)
     then ["Low scroll depth - consider moving key content above the fold"]
     else []) in
  if (length recommendations =? 0)%nat
  then recommendations
       ++ ["Continue testing with incremental changes to identify improvements"]
  else recommendations.

(** The dictionary returned by [get_learning_summary]. *)
Record LearningSummary := mkLearningSummary {
  total_tests_completed : Z;
  successful_tests : Z;
  success_rate : Q;
  average_improvement : Q;
  total_patterns_learned : Z;
  top_insights : list (string * Z);
  conversion_predictor_trained : bool;
  total_training_data_points : Z
}.

(** [get_learning_summary].  [predictor_trained] stands for
    [self.conversion_predictor is not None]; [test_results_history] is
    created empty and never appended to.  [numpy.mean] is the sum divided by
    the length. *)
Definition get_learning_summary (mgr : ABTestManager) (predictor_trained : bool)
    : LearningSummary :=
  let total_tests := Z.of_nat (size (completed_tests mgr)) in
  let successful_tests :=
    Z.of_nat (length (List.filter (fun kv => ABTest.statistical_significance (snd kv))
                        (map_to_list (completed_tests mgr)))) in
  let improvements :=
    List.filter (Qlt_bool 0) (map performance_improvement (learned_patterns mgr)) in
  let avg_improvement :=
    match improvements with
    | [] => 0%Q
    | _ => (Qsum improvements / inject_Z (Z.of_nat (length improvements)))%Q
    end in
  let all_insights := flat_map learned_insights (learned_patterns mgr) in
  {| total_tests_completed := total_tests;
     successful_tests := successful_tests;
     success_rate :=
       if 0 <? total_tests
       then (inject_Z successful_tests / inject_Z total_tests)%Q else 0%Q;
     average_improvement := avg_improvement;
     total_patterns_learned := Z.of_nat (length (learned_patterns mgr));
     top_insights := firstn 10 (sorted_by_frequency (tally all_insights));
     conversion_predictor_trained := predictor_trained;
     total_training_data_points := 0 |}.

(** ** The A/B-testing endpoints of the API

    The validator of the request model and the body of the
    [/testing/create] handler of [src/ai-engine/api/ai_engine_api.py], from
    the request to its call of [create_ab_test].  The handler names the
    manager's module [services.learning_optimizer]; the definitions describe
    it once that import has resolved. *)

(** The validator of [ABTestRequest.significance_level]. *)
Definition validate_significance (v : Q) : bool :=
  Qle_bool (1 # 1000) v && Qle_bool v (1 # 10).

(** The level chosen by the [/testing/create] handler. *)
Definition api_significance_level (requested : Q) : SignificanceLevel :=
  if Qle_bool requested (1 # 100) then HIGH
  else if Qle_bool requested (5 # 100) then MEDIUM
  else LOW.

(** One entry of [request.test_variants]: each key may be absent. *)
Record VariantRequest := mkVariantRequest {
  rq_name : option string;
  rq_description : option string;
  rq_traffic_allocation : option Q;
  rq_content : option dict;
  rq_design : option dict
}.

(** The [TestVariant] objects built by the handler. *)
Definition api_control_variant (content design : option dict) : TestVariant.t :=
  new_variant "control" "Control" "Original version" (1 # 2)
    (default [] content) (default [] design).

Definition api_test_variant (count i : nat) (variant_data : VariantRequest) : TestVariant.t :=
  new_variant ("test_v" +:+ pretty (i + 1)%nat)
    (default ("Test Variant " +:+ pretty (i + 1)%nat) (rq_name variant_data))
    (default "" (rq_description variant_data))
    (default ((1 # 2) / inject_Z (Z.of_nat count))%Q (rq_traffic_allocation variant_data))
    (default [] (rq_content variant_data))
    (default [] (rq_design variant_data)).

Definition api_test_variants (requested : list VariantRequest) : list TestVariant.t :=
  imap (api_test_variant (length requested)) requested.

(** The manager call of the [/testing/create] handler. *)
Definition api_create_ab_test (E : Externals) (mgr : ABTestManager) (now : Datetime.t)
    (test_name test_description : string) (control_content control_design : option dict)
    (test_variants : list VariantRequest) (primary_metric : string)
    (significance_level : Q) : option (string * ABTestManager) :=
  create_ab_test E mgr now test_name test_description
    (api_control_variant control_content control_design)
    (api_test_variants test_variants) primary_metric
    (api_significance_level significance_level).

(** ** Definitions used by the statements on the rest of the manager *)

(** The rates of a variant are rates: a time on page that is not
    negative, a bounce rate and a scroll depth between 0 and 1. *)
Definition metrics_in_range (v : TestVariant.t) : Prop :=
  (0 <= TestVariant.time_on_page v)%Q
  /\ (0 <= TestVariant.bounce_rate v <= 1)%Q
  /\ (0 <= TestVariant.scroll_depth v <= 1)%Q.

(** The values of an interaction are in their documented ranges. *)
Definition event_in_range (d : VisitorData) : Prop :=
  (forall x, vd_time_on_page d = Some x -> (0 <= x)%Q)
  /\ (forall x, vd_scroll_depth d = Some x -> (0 <= x <= 1)%Q).

(** The experiment as [start_test] leaves it. *)
Definition started (now : Datetime.t) (test : ABTest.t) : ABTest.t :=
  ABTest.set_started_at (Some now) (ABTest.set_status RUNNING test).

(** The frequency stored for a key, 0 when the key is absent. *)
Fixpoint frequency_get (frequency : list (string * Z)) (k : string) : Z :=
  match frequency with
  | [] => 0
  | (k', n) :: frequency' => if String.eqb k' k then n else frequency_get frequency' k
  end.

Definition by_decreasing_frequency (x y : string * Z) : Prop := snd y <= snd x.

(** An active experiment has no verdict yet. *)
Definition undecided (test : ABTest.t) : Prop :=
  ABTest.statistical_significance test = false
  /\ ABTest.winner_variant_id test = None.

(** A verdict of significance comes with a winner and a p-value below the
    manager's threshold. *)
Definition verdict_backed (test : ABTest.t) : Prop :=
  ABTest.statistical_significance test = true ->
  is_Some (ABTest.winner_variant_id test)
  /\ exists p, ABTest.p_value test = Some p /\ (p < significance_threshold)%Q.

(** A completed experiment is filed under its own id with status
    [COMPLETED] and an end time, and keeps the sample size and duration it
    was created with. *)
Definition completed_closed (id : string) (test : ABTest.t) : Prop :=
  ABTest.test_id test = id
  /\ ABTest.status test = COMPLETED
  /\ is_Some (ABTest.ended_at test)
  /\ 1000 <= ABTest.minimum_sample_size test
  /\ ABTest.minimum_duration_days test = 7
  /\ verdict_backed test.

Definition record_sound (mgr : ABTestManager) (record : LearningUpdate) : Prop :=
  is_Some (completed_tests mgr !! source_test_id record)
  /\ update_id record = "learn_" +:+ source_test_id record
  /\ (95 # 100 < confidence_score record)%Q.

Definition manager_sound (mgr : ABTestManager) : Prop :=
  (forall id test, active_tests mgr !! id = Some test ->
                   well_formed id test /\ undecided test)
  /\ (forall id test, completed_tests mgr !! id = Some test -> completed_closed id test)
  /\ (forall record, In record (learned_patterns mgr) -> record_sound mgr record).

(** The id a command works on. *)
Definition command_target (now : Datetime.t) (c : command) : string :=
  match c with
  | Create name _ _ _ _ _ => generate_test_id name now
  | Start test_id => test_id
  | RecordInteraction test_id _ _ => test_id
  | Stop test_id => test_id
  end.

(** A lowercase hexadecimal digit. *)
Definition is_lower_hex (a : ascii) : bool :=
  existsb (Ascii.eqb a) (list_ascii_of_string "0123456789abcdef").

(** The counters of a variant are integers that convert to doubles
    exactly, as the divisions and the running mean of the recorder do with
    them. *)
Definition counters_fit (v : TestVariant.t) : Prop :=
  Z.abs (TestVariant.visitors v) < 2 ^ 53
  /\ Z.abs (TestVariant.conversions v) < 2 ^ 53.

(** ** Sample runs

    The usage example configured with [HIGH], 5000 visitors per arm, 500
    and 570 conversions, its last visitor recorded a week after the start:
    the experiment is stopped as significant. *)
Definition sample_completed_run : ABTestManager :=
  match sample_experiment sample_externals sample_start HIGH 5000 500 4999 569 with
  | Some (id, mgr) =>
      run_command sample_externals mgr sample_week_later
        (RecordInteraction id "test_v1" converting)
  | None => ABTestManager_init
  end.

(** The creation of the usage example. *)
Definition sample_create : command :=
  Create "Homepage CTA Test" "Testing new CTA button design" sample_control
    [sample_treatment] "conversion_rate" MEDIUM.

(** A request for a treatment that gives no key at all. *)
Definition empty_variant_request : VariantRequest :=
  mkVariantRequest None None None None None.

(** An interaction with a time on page, no bounce and a scroll depth. *)
Definition engaged : VisitorData :=
  mkVisitorData (Some true) (Some (45 # 1)) (Some false) (Some (8 # 10)) None.

(** The manager after the creation of the usage example. *)
Definition sample_created : ABTestManager :=
  run_command sample_externals ABTestManager_init sample_start sample_create.

(** The usage example with no visitor yet, and with the traffic of
    [sample_completed_run] before the analyzer ran. *)
Definition fresh_running_test : ABTest.t :=
  running_test "test_e7b00d14" MEDIUM sample_control [sample_treatment].

Definition decisive_running_test : ABTest.t :=
  running_test "test_e7b00d14" HIGH (with_traffic 5000 500 sample_control)
    [with_traffic 5000 570 sample_treatment].

(** * Properties *)

(** ** The library models against known values *)

Example md5_empty : MD5.hexdigest "" = "d41d8cd98f00b204e9800998ecf8427e".
Proof. vm_compute. reflexivity. Qed.

Example md5_abc : MD5.hexdigest "abc" = "900150983cd24fb0d6963f7d28e17f72".
Proof. vm_compute. reflexivity. Qed.

Example md5_fox :
  MD5.hexdigest "The quick brown fox jumps over the lazy dog"
  = "9e107d9d372bb6826bd81d3542a419d6".
Proof. vm_compute. reflexivity. Qed.

Example md5_two_blocks :
  MD5.hexdigest "aaaaaaaaaaaaaaaaaaaaaaaaaaaaaaaaaaaaaaaaaaaaaaaaaaaaaaaa"
  = "3b0c8ac703f828b04c6c197006d17218".
Proof. vm_compute. reflexivity. Qed.

Example datetime_str_fraction :
  Datetime.str sample_start = "2024-03-01 10:00:00.074696".
Proof. vm_compute. reflexivity. Qed.

Example datetime_str_whole_second :
  Datetime.str sample_six_weeks_later = "2024-04-12 10:00:00".
Proof. vm_compute. reflexivity. Qed.

Example datetime_days :
  Datetime.toordinal sample_week_later = 738954
  /\ Datetime.days_between sample_week_later sample_start = 7
  /\ Datetime.days_between sample_start sample_week_later = -8.
Proof. vm_compute. repeat split; reflexivity. Qed.

(** ** The running mean *)

Lemma inject_Z_nonzero (z : Z) : z <> 0 -> ~ (inject_Z z == 0)%Q.
Proof. intros Hz H0. unfold Qeq in H0. simpl in H0. lia. Qed.

Lemma update_running_average_total (avg x : Q) (count : Z) :
  1 <= count ->
  (_update_running_average avg x count * inject_Z count
   == avg * inject_Z (count - 1) + x)%Q.
Proof.
  intros Hc. unfold _update_running_average.
  destruct (count <=? 1) eqn:Hle.
  - apply Z.leb_le in Hle. assert (count = 1) as -> by lia.
    change (inject_Z (1 - 1)) with 0%Q. change (inject_Z 1) with 1%Q. ring.
  - apply Z.leb_gt in Hle. field. apply inject_Z_nonzero. lia.
Qed.

(** The invariant behind the running mean: the average times the number of
    values seen is the sum of the values seen. *)
Lemma running_average_from_total (values : list Q) :
  forall (avg : Q) (count : Z),
    1 <= count -> values <> [] ->
    (running_average_from avg count values
       * inject_Z (count - 1 + Z.of_nat (length values))
     == avg * inject_Z (count - 1) + Qsum values)%Q.
Proof.
  induction values as [|x values IH]; intros avg count Hc Hne; [congruence|].
  destruct values as [|y values'].
  - cbn [running_average_from length Qsum fold_right].
    replace (count - 1 + Z.of_nat 1) with count by lia.
    rewrite update_running_average_total by exact Hc. ring.
  - cbn [running_average_from] in IH |- *.
    specialize (IH (_update_running_average avg x count) (count + 1)).
    replace (count - 1 + Z.of_nat (length (x :: y :: values')))
      with (count + 1 - 1 + Z.of_nat (length (y :: values')))
      by (cbn [length]; lia).
    rewrite IH by (lia || congruence).
    replace (count + 1 - 1) with count by lia.
    rewrite update_running_average_total by exact Hc.
    unfold Qsum. cbn [fold_right]. ring.
Qed.

(** In exact arithmetic (the rounding of doubles is not represented), and
    with the count running from 1 with the values: folding the update of
    [_update_running_average] over a non-empty sequence yields the
    arithmetic mean of the values, whatever the average held before. *)
Lemma running_average_is_arithmetic_mean (avg0 : Q) (values : list Q) :
  values <> [] ->
  (running_average_from avg0 1 values == arithmetic_mean values)%Q.
Proof.
  intros Hne. unfold arithmetic_mean.
  pose proof (running_average_from_total values avg0 1 ltac:(lia) Hne) as H.
  change (1 - 1) with 0 in H. rewrite Z.add_0_l in H.
  change (inject_Z 0) with 0%Q in H.
  assert (~ (inject_Z (Z.of_nat (length values)) == 0)%Q) as Hlen.
  { apply inject_Z_nonzero. destruct values; [congruence | cbn [length]; lia]. }
  apply (Qmult_inj_r _ _ (inject_Z (Z.of_nat (length values)))); [exact Hlen|].
  rewrite H. field. exact Hlen.
Qed.

(** ** The significance analyzer *)

(** C10. When the number of treatment variants of an experiment is not
    exactly one, the analyzer returns the result with [significant = False]
    and p-value 1.0 without raising, and leaves the experiment, hence its
    statistical fields, unchanged. *)
Theorem analyze_requires_single_treatment (E : Externals) (test : ABTest.t) :
  length (ABTest.test_variants test) <> 1%nat ->
  _analyze_statistical_significance E test
  = ({| significant := false; res_p_value := 1; res_effect_size := None;
        res_confidence_interval := None; res_test_statistic := None |}, test).
Proof.
  intros Hlen. unfold _analyze_statistical_significance.
  destruct (ABTest.test_variants test) as [|v [|w vs]]; cbn [length] in Hlen;
    [reflexivity | congruence | reflexivity].
Qed.

Lemma Qlt_bool_iff (a b : Q) : Qlt_bool a b = true <-> (a < b)%Q.
Proof.
  unfold Qlt_bool. rewrite negb_true_iff. split.
  - intros H. apply Qnot_le_lt. intros Hle. apply Qle_bool_iff in Hle. congruence.
  - intros H. destruct (Qle_bool b a) eqn:Hb; [|reflexivity].
    apply Qle_bool_iff in Hb. exfalso. exact (Qlt_not_le _ _ H Hb).
Qed.

Lemma chi_square_significant_iff (E : Externals) (control test_variant : TestVariant.t) :
  significant (_chi_square_test E control test_variant) = true <->
  (res_p_value (_chi_square_test E control test_variant) < significance_threshold)%Q.
Proof.
  unfold _chi_square_test.
  destruct (chi2_contingency E _ _ _ _) as [[chi2 p]|]; cbn.
  - destruct ((TestVariant.visitors control =? 0) || (TestVariant.visitors test_variant =? 0));
      cbn; [|apply Qlt_bool_iff].
    split; [discriminate | intros H; vm_compute in H; discriminate].
  - split; [discriminate | intros H; vm_compute in H; discriminate].
Qed.

Lemma t_test_significant_iff (E : Externals) (control test_variant : TestVariant.t)
    (metric : string) :
  significant (_t_test E control test_variant metric) = true <->
  (res_p_value (_t_test E control test_variant metric) < significance_threshold)%Q.
Proof.
  assert (significant failed_result = true <->
          (res_p_value failed_result < significance_threshold)%Q) as Hfail.
  { split; [discriminate | intros H; vm_compute in H; discriminate]. }
  unfold _t_test.
  destruct (getattr control metric), (getattr test_variant metric); try exact Hfail.
  destruct (ttest_ind_normal E _ _ _ _ _ _) as [[t p]|]; try exact Hfail.
  destruct (_ || _); [exact Hfail | cbn; apply Qlt_bool_iff].
Qed.

(** ** What stopping and learning touch *)

Lemma generate_test_insights_fields (E : Externals) (test : ABTest.t) :
  let test' := _generate_test_insights E test in
  ABTest.test_id test' = ABTest.test_id test
  /\ ABTest.status test' = ABTest.status test
  /\ ABTest.winner_variant_id test' = ABTest.winner_variant_id test
  /\ ABTest.statistical_significance test' = ABTest.statistical_significance test
  /\ ABTest.p_value test' = ABTest.p_value test
  /\ ABTest.primary_metric test' = ABTest.primary_metric test
  /\ ABTest.control_variant test' = ABTest.control_variant test
  /\ ABTest.test_variants test' = ABTest.test_variants test.
Proof.
  unfold _generate_test_insights.
  destruct (all_variant_insights E test _), (ABTest.p_value test) eqn:Hp;
    cbn; rewrite ?Hp; repeat split; reflexivity.
Qed.

Lemma learn_from_test_registries (mgr : ABTestManager) (now : Datetime.t) (test : ABTest.t) :
  active_tests (_learn_from_test mgr now test) = active_tests mgr
  /\ completed_tests (_learn_from_test mgr now test) = completed_tests mgr.
Proof.
  unfold _learn_from_test.
  destruct (negb _); [split; reflexivity|].
  destruct (find_winner test); [|split; reflexivity].
  destruct (learn_improvement _ _), (ABTest.p_value test); split; reflexivity.
Qed.

Lemma stop_test_found (E : Externals) (mgr : ABTestManager) (now : Datetime.t)
    (test_id : string) (test : ABTest.t) :
  active_tests mgr !! test_id = Some test ->
  fst (_stop_test E mgr now test_id) = true
  /\ active_tests (snd (_stop_test E mgr now test_id)) = delete test_id (active_tests mgr)
  /\ completed_tests (snd (_stop_test E mgr now test_id))
     = <[test_id := stopped E now test]> (completed_tests mgr)
  /\ learned_patterns (snd (_stop_test E mgr now test_id))
     = learned_patterns (_learn_from_test mgr now (stopped E now test)).
Proof.
  intros Hin. unfold _stop_test. rewrite Hin. cbn.
  destruct (learn_from_test_registries mgr now (stopped E now test)) as [Ha Hc].
  fold (stopped E now test). rewrite Ha, Hc. repeat split; reflexivity.
Qed.

Lemma stop_test_missing (E : Externals) (mgr : ABTestManager) (now : Datetime.t)
    (test_id : string) :
  active_tests mgr !! test_id = None ->
  _stop_test E mgr now test_id = (false, mgr).
Proof. intros Hout. unfold _stop_test. rewrite Hout. reflexivity. Qed.

Lemma stopped_fields (E : Externals) (now : Datetime.t) (test : ABTest.t) :
  ABTest.status (stopped E now test) = COMPLETED
  /\ ABTest.winner_variant_id (stopped E now test) = ABTest.winner_variant_id test
  /\ ABTest.statistical_significance (stopped E now test)
     = ABTest.statistical_significance test.
Proof.
  unfold stopped.
  destruct (generate_test_insights_fields E
              (ABTest.set_ended_at (Some now) (ABTest.set_status COMPLETED test)))
    as (_ & Hs & Hw & Hsig & _).
  rewrite Hs, Hw, Hsig. repeat split; reflexivity.
Qed.

(** ** The analyzer's effect on the experiment *)

Ltac destruct_getattr :=
  repeat match goal with
         | |- context [match getattr ?v ?m with _ => _ end] => destruct (getattr v m)
         end.

Ltac name_result test v :=
  cbv zeta;
  set (result := if String.eqb (ABTest.primary_metric test) "conversion_rate"
                 then _chi_square_test _ (ABTest.control_variant test) v
                 else _t_test _ (ABTest.control_variant test) v (ABTest.primary_metric test)).

Lemma analyze_fields (E : Externals) (test : ABTest.t) :
  let test' := snd (_analyze_statistical_significance E test) in
  ABTest.test_id test' = ABTest.test_id test
  /\ ABTest.status test' = ABTest.status test
  /\ ABTest.control_variant test' = ABTest.control_variant test
  /\ ABTest.test_variants test' = ABTest.test_variants test
  /\ ABTest.minimum_sample_size test' = ABTest.minimum_sample_size test
  /\ ABTest.significance_level test' = ABTest.significance_level test
  /\ ABTest.started_at test' = ABTest.started_at test
  /\ ABTest.minimum_duration_days test' = ABTest.minimum_duration_days test.
Proof.
  unfold _analyze_statistical_significance.
  destruct (ABTest.test_variants test) as [|v [|w vs]] eqn:Hv;
    try (cbn; rewrite ?Hv; repeat split; reflexivity).
  name_result test v.
  destruct (significant result); [|cbn; rewrite ?Hv; repeat split; reflexivity].
  cbn [ABTest.primary_metric ABTest.set_effect_size ABTest.set_confidence_interval
       ABTest.set_statistical_significance ABTest.set_p_value].
  destruct (String.eqb _ _); destruct_getattr; try destruct (Qlt_bool _ _);
    cbn; rewrite ?Hv; repeat split; reflexivity.
Qed.

Lemma analyze_significant_sets_winner (E : Externals) (test : ABTest.t) :
  significant (fst (_analyze_statistical_significance E test)) = true ->
  is_Some (ABTest.winner_variant_id (snd (_analyze_statistical_significance E test)))
  /\ ABTest.statistical_significance (snd (_analyze_statistical_significance E test)) = true.
Proof.
  unfold _analyze_statistical_significance.
  destruct (ABTest.test_variants test) as [|v [|w vs]]; try (cbn; discriminate).
  name_result test v.
  destruct (significant result) eqn:Hs; [|cbn; congruence].
  cbn [ABTest.primary_metric ABTest.set_effect_size ABTest.set_confidence_interval
       ABTest.set_statistical_significance ABTest.set_p_value].
  destruct (String.eqb _ _); destruct_getattr; try destruct (Qlt_bool _ _);
    cbn; try discriminate; intros _; split; eauto.
Qed.

(** Without significance the analyzer leaves the winner as it was. *)
Lemma analyze_not_significant_keeps_winner (E : Externals) (test : ABTest.t) :
  significant (fst (_analyze_statistical_significance E test)) = false ->
  ABTest.winner_variant_id (snd (_analyze_statistical_significance E test))
  = ABTest.winner_variant_id test.
Proof.
  unfold _analyze_statistical_significance.
  destruct (ABTest.test_variants test) as [|v [|w vs]]; try reflexivity.
  name_result test v.
  destruct (significant result) eqn:Hs; [|reflexivity].
  cbn [ABTest.primary_metric ABTest.set_effect_size ABTest.set_confidence_interval
       ABTest.set_statistical_significance ABTest.set_p_value].
  destruct (String.eqb _ _); destruct_getattr; try destruct (Qlt_bool _ _);
    cbn; congruence.
Qed.

(** ** The early-stopping check *)

Lemma check_early_stopping_few_visitors (E : Externals) (mgr : ABTestManager)
    (now : Datetime.t) (key : string) (test : ABTest.t) :
  active_tests mgr !! key = Some test ->
  total_visitors test < ABTest.minimum_sample_size test ->
  _check_early_stopping E mgr now key = mgr.
Proof.
  intros Hin Hv. unfold _check_early_stopping. rewrite Hin.
  apply Z.ltb_lt in Hv. rewrite Hv. reflexivity.
Qed.

Lemma check_early_stopping_too_early (E : Externals) (mgr : ABTestManager)
    (now started : Datetime.t) (key : string) (test : ABTest.t) :
  active_tests mgr !! key = Some test ->
  ABTest.started_at test = Some started ->
  Datetime.days_between now started < ABTest.minimum_duration_days test ->
  _check_early_stopping E mgr now key = mgr.
Proof.
  intros Hin Hstart Hd. unfold _check_early_stopping. rewrite Hin, Hstart.
  apply Z.ltb_lt in Hd. rewrite Hd.
  destruct (total_visitors test <? ABTest.minimum_sample_size test); reflexivity.
Qed.

(** C6. While the visitors of all arms are fewer than
    [minimum_sample_size], or fewer than [minimum_duration_days] days have
    elapsed since the start, the early-stopping check returns with the
    manager unchanged for every behaviour of the statistical library: the
    analyzer is not run and nothing is stopped, whatever the data.  Hence an
    experiment that the check removes from the active registry met both
    preconditions. *)
Theorem early_stop_waits_for_sample_and_duration (E : Externals) (mgr : ABTestManager)
    (now started : Datetime.t) (key : string) (test : ABTest.t) :
  active_tests mgr !! key = Some test ->
  ABTest.started_at test = Some started ->
  (total_visitors test < ABTest.minimum_sample_size test
   \/ Datetime.days_between now started < ABTest.minimum_duration_days test ->
   _check_early_stopping E mgr now key = mgr)
  /\ (active_tests (_check_early_stopping E mgr now key) !! key = None ->
      ABTest.minimum_sample_size test <= total_visitors test
      /\ ABTest.minimum_duration_days test <= Datetime.days_between now started).
Proof.
  intros Hin Hstart.
  assert (total_visitors test < ABTest.minimum_sample_size test
          \/ Datetime.days_between now started < ABTest.minimum_duration_days test ->
          _check_early_stopping E mgr now key = mgr) as Hwait.
  { intros [Hv|Hd].
    - eapply check_early_stopping_few_visitors; eassumption.
    - eapply check_early_stopping_too_early; eassumption. }
  split; [exact Hwait|].
  intros Hgone.
  destruct (Z.lt_ge_cases (total_visitors test) (ABTest.minimum_sample_size test)) as [Hv|Hv].
  { rewrite Hwait in Hgone by (left; exact Hv). congruence. }
  destruct (Z.lt_ge_cases (Datetime.days_between now started)
              (ABTest.minimum_duration_days test)) as [Hd|Hd].
  { rewrite Hwait in Hgone by (right; exact Hd). congruence. }
  split; assumption.
Qed.

(** The check once both preconditions hold: the analyzer's result is
    written to the experiment and the experiment is stopped when, and only
    when, the result is significant. *)
Lemma check_early_stopping_ready (E : Externals) (mgr : ABTestManager)
    (now started : Datetime.t) (key : string) (test : ABTest.t) :
  active_tests mgr !! key = Some test ->
  ABTest.started_at test = Some started ->
  ABTest.minimum_sample_size test <= total_visitors test ->
  ABTest.minimum_duration_days test <= Datetime.days_between now started ->
  _check_early_stopping E mgr now key
  = let analysed := _analyze_statistical_significance E test in
    let mgr' := set_active_tests (<[key := snd analysed]> (active_tests mgr)) mgr in
    if significant (fst analysed)
    then snd (_stop_test E mgr' now (ABTest.test_id (snd analysed)))
    else mgr'.
Proof.
  intros Hin Hstart Hv Hd. unfold _check_early_stopping. rewrite Hin, Hstart.
  apply Z.ltb_ge in Hv, Hd. rewrite Hv, Hd.
  destruct (_analyze_statistical_significance E test) as [result test']. reflexivity.
Qed.

(** C2 (amended). The early-stopping check has no duration cap.  For a
    started experiment filed under its own id, the check removes it from the
    active registry exactly when the visitors of all arms reach
    [minimum_sample_size], at least [minimum_duration_days] days have
    elapsed and the analyzer reports significance; it is then in the
    completed registry with status [COMPLETED] and a winner.  In every other
    case, however many days have elapsed, it stays active with its status;
    [maximum_duration_days] plays no part. *)
Theorem check_stops_only_on_significance (E : Externals) (mgr : ABTestManager)
    (now started : Datetime.t) (key : string) (test : ABTest.t) :
  active_tests mgr !! key = Some test ->
  ABTest.test_id test = key ->
  ABTest.started_at test = Some started ->
  (active_tests (_check_early_stopping E mgr now key) !! key = None <->
     ABTest.minimum_sample_size test <= total_visitors test
     /\ ABTest.minimum_duration_days test <= Datetime.days_between now started
     /\ significant (fst (_analyze_statistical_significance E test)) = true)
  /\ (active_tests (_check_early_stopping E mgr now key) !! key = None ->
      exists test',
        completed_tests (_check_early_stopping E mgr now key) !! key = Some test'
        /\ ABTest.status test' = COMPLETED
        /\ is_Some (ABTest.winner_variant_id test'))
  /\ (forall test',
        active_tests (_check_early_stopping E mgr now key) !! key = Some test' ->
        ABTest.status test' = ABTest.status test).
Proof.
  intros Hin Hid Hstart.
  destruct (Z.lt_ge_cases (total_visitors test) (ABTest.minimum_sample_size test)) as [Hv|Hv].
  { rewrite (check_early_stopping_few_visitors E mgr now key test) by assumption.
    rewrite Hin. split; [split; [discriminate | lia] |].
    split; [discriminate | intros t' [= <-]; reflexivity]. }
  destruct (Z.lt_ge_cases (Datetime.days_between now started)
              (ABTest.minimum_duration_days test)) as [Hd|Hd].
  { rewrite (check_early_stopping_too_early E mgr now started key test) by assumption.
    rewrite Hin. split; [split; [discriminate | lia] |].
    split; [discriminate | intros t' [= <-]; reflexivity]. }
  rewrite (check_early_stopping_ready E mgr now started key test) by assumption.
  cbv zeta.
  destruct (analyze_fields E test) as (Htid & Hst & _).
  destruct (significant (fst (_analyze_statistical_significance E test))) eqn:Hs.
  - rewrite Htid, Hid.
    edestruct (stop_test_found E
                 (set_active_tests
                    (<[key := snd (_analyze_statistical_significance E test)]>
                       (active_tests mgr)) mgr) now key) as (_ & Ha & Hc & _).
    { cbn. apply lookup_insert_eq. }
    rewrite Ha, Hc. cbn. rewrite lookup_delete_eq, lookup_insert_eq.
    split; [split; [intros _; repeat split; assumption | reflexivity] |].
    split; [|discriminate].
    intros _. eexists. split; [reflexivity|].
    destruct (stopped_fields E now (snd (_analyze_statistical_significance E test)))
      as (Hcs & Hw & _).
    rewrite Hcs, Hw. split; [reflexivity|].
    apply analyze_significant_sets_winner. exact Hs.
  - cbn. rewrite lookup_insert_eq.
    split; [split; [discriminate | intros (_ & _ & ?); discriminate] |].
    split; [discriminate | intros t' [= <-]; exact Hst].
Qed.

(** ** Rejected interactions *)

(** C5 (amended). [record_visitor_interaction] called with an id that is
    not in the active registry, on an experiment whose status is not
    [RUNNING], or with a variant id that names no arm of the experiment
    returns the plain boolean [False] in each case, and leaves the manager
    unchanged. *)
Theorem record_rejects_with_false (E : Externals) (mgr : ABTestManager)
    (now : Datetime.t) (test_id variant_id : string) (visitor_data : VisitorData) :
  active_tests mgr !! test_id = None
  \/ (exists test, active_tests mgr !! test_id = Some test
                   /\ ABTest.status test <> RUNNING)
  \/ (exists test, active_tests mgr !! test_id = Some test
                   /\ find_variant test variant_id = None) ->
  record_visitor_interaction E mgr now test_id variant_id visitor_data = (false, mgr).
Proof.
  unfold record_visitor_interaction.
  intros [Hout | [(test & Hin & Hst) | (test & Hin & Hv)]]; rewrite ?Hout, ?Hin.
  - reflexivity.
  - destruct (ABTest.status test); try reflexivity. congruence.
  - rewrite Hv. destruct (negb _); reflexivity.
Qed.

(** A recorded interaction: the variant is updated in place and the
    early-stopping check runs on the result. *)
Lemma record_accepted (E : Externals) (mgr : ABTestManager) (now : Datetime.t)
    (test_id variant_id : string) (visitor_data : VisitorData)
    (test : ABTest.t) (a : arm) (variant variant' : TestVariant.t) :
  active_tests mgr !! test_id = Some test ->
  ABTest.status test = RUNNING ->
  find_variant test variant_id = Some (a, variant) ->
  update_variant variant visitor_data now = Returned variant' ->
  record_visitor_interaction E mgr now test_id variant_id visitor_data
  = (true,
     _check_early_stopping E
       (set_active_tests (<[test_id := put_arm test a variant']> (active_tests mgr)) mgr)
       now test_id).
Proof.
  intros Hin Hst Hv Hup. unfold record_visitor_interaction.
  rewrite Hin, Hst, Hv, Hup. reflexivity.
Qed.

(** ** Creation and start *)

Lemma calculate_sample_size_default (E : Externals) (alpha : Q) :
  exists n, _calculate_sample_size E alpha (8 # 10) minimum_detectable_effect (1 # 10) = Some n
            /\ 1000 <= n.
Proof.
  unfold _calculate_sample_size.
  destruct (ttest_power E _ _ _) as [s|].
  - change (Qeq_bool (1 # 10) 0) with false. cbv iota.
    eexists. split; [reflexivity | lia].
  - eexists. split; [vm_compute; reflexivity | lia].
Qed.

Lemma create_ab_test_stores (E : Externals) (mgr : ABTestManager) (now : Datetime.t)
    (name description : string) (control_variant : TestVariant.t)
    (test_variants : list TestVariant.t) (primary_metric : string)
    (significance_level : SignificanceLevel) :
  exists n,
    1000 <= n
    /\ create_ab_test E mgr now name description control_variant test_variants
         primary_metric significance_level
       = Some (generate_test_id name now,
               set_active_tests
                 (<[generate_test_id name now :=
                      new_ab_test (generate_test_id name now) now name description
                        control_variant test_variants primary_metric significance_level n]>
                    (active_tests mgr)) mgr).
Proof.
  destruct (calculate_sample_size_default E (SignificanceLevel_value significance_level))
    as (n & Hn & Hge).
  exists n. split; [exact Hge|]. unfold create_ab_test. rewrite Hn. reflexivity.
Qed.

Lemma start_test_invalid (mgr : ABTestManager) (now : Datetime.t)
    (test_id : string) (test : ABTest.t) :
  active_tests mgr !! test_id = Some test ->
  _validate_test_configuration test = false ->
  start_test mgr now test_id = (false, mgr).
Proof.
  intros Hin Hbad. unfold start_test. rewrite Hin, Hbad.
  destruct (negb _); reflexivity.
Qed.

(** ** The two registries *)

Lemma disjoint_update_active (mgr : ABTestManager) (key : string) (test test' : ABTest.t) :
  registries_disjoint mgr ->
  active_tests mgr !! key = Some test ->
  registries_disjoint (set_active_tests (<[key := test']> (active_tests mgr)) mgr).
Proof.
  intros Hdis Hin id. cbn.
  destruct (decide (key = id)) as [<-|Hne].
  - right. destruct (Hdis key) as [H|H]; [congruence | exact H].
  - rewrite lookup_insert_ne by exact Hne. apply Hdis.
Qed.

Lemma disjoint_stop (E : Externals) (mgr : ABTestManager) (now : Datetime.t)
    (test_id : string) :
  registries_disjoint mgr ->
  registries_disjoint (snd (_stop_test E mgr now test_id)).
Proof.
  intros Hdis.
  destruct (active_tests mgr !! test_id) as [test|] eqn:Hin.
  - destruct (stop_test_found E mgr now test_id test Hin) as (_ & Ha & Hc & _).
    intros id. rewrite Ha, Hc.
    destruct (decide (test_id = id)) as [<-|Hne].
    + left. apply lookup_delete_eq.
    + rewrite lookup_delete_ne, lookup_insert_ne by exact Hne. apply Hdis.
  - rewrite stop_test_missing by exact Hin. exact Hdis.
Qed.

Lemma disjoint_check (E : Externals) (mgr : ABTestManager) (now : Datetime.t)
    (key : string) :
  registries_disjoint mgr ->
  registries_disjoint (_check_early_stopping E mgr now key).
Proof.
  intros Hdis. unfold _check_early_stopping.
  destruct (active_tests mgr !! key) as [test|] eqn:Hin; [|exact Hdis].
  destruct (_ <? _); [exact Hdis|].
  destruct (match ABTest.started_at test with Some _ => _ | None => _ end); [exact Hdis|].
  destruct (_analyze_statistical_significance E test) as [result test'].
  pose proof (disjoint_update_active mgr key test test' Hdis Hin) as Hdis'.
  destruct (significant result); [apply disjoint_stop|]; exact Hdis'.
Qed.

Lemma disjoint_record (E : Externals) (mgr : ABTestManager) (now : Datetime.t)
    (test_id variant_id : string) (visitor_data : VisitorData) :
  registries_disjoint mgr ->
  registries_disjoint
    (snd (record_visitor_interaction E mgr now test_id variant_id visitor_data)).
Proof.
  intros Hdis. unfold record_visitor_interaction.
  destruct (active_tests mgr !! test_id) as [test|] eqn:Hin; [|exact Hdis].
  destruct (negb _); [exact Hdis|].
  destruct (find_variant test variant_id) as [[a variant]|]; [|exact Hdis].
  pose proof (disjoint_update_active mgr test_id test
                (put_arm test a (outcome_value (update_variant variant visitor_data now)))
                Hdis Hin) as Hdis'.
  destruct (outcome_ok _); cbn [snd]; [apply disjoint_check|]; exact Hdis'.
Qed.

Lemma disjoint_start (mgr : ABTestManager) (now : Datetime.t) (test_id : string) :
  registries_disjoint mgr ->
  registries_disjoint (snd (start_test mgr now test_id)).
Proof.
  intros Hdis. unfold start_test.
  destruct (active_tests mgr !! test_id) as [test|] eqn:Hin; [|exact Hdis].
  destruct (negb _); [exact Hdis|].
  destruct (negb _); [exact Hdis|].
  cbn [snd]. eapply disjoint_update_active; eassumption.
Qed.

Lemma disjoint_create (E : Externals) (mgr : ABTestManager) (now : Datetime.t)
    (name description : string) (control_variant : TestVariant.t)
    (test_variants : list TestVariant.t) (primary_metric : string)
    (significance_level : SignificanceLevel) :
  registries_disjoint mgr ->
  completed_tests mgr !! generate_test_id name now = None ->
  registries_disjoint
    (run_command E mgr now
       (Create name description control_variant test_variants primary_metric
          significance_level)).
Proof.
  intros Hdis Hfresh.
  destruct (create_ab_test_stores E mgr now name description control_variant test_variants
              primary_metric significance_level) as (n & _ & Hc).
  cbn [run_command]. rewrite Hc. intros id. cbn.
  destruct (decide (generate_test_id name now = id)) as [<-|Hne].
  - right. exact Hfresh.
  - rewrite lookup_insert_ne by exact Hne. apply Hdis.
Qed.

(** C9 (amended). An id is filed in at most one of the two registries
    after every operation, provided the id generated by a creation is not
    that of a completed experiment: creation inserts into the active
    registry only, stopping removes the experiment from the active registry
    and files it in the completed one, and the status query answers from
    whichever registry holds the id. *)
Theorem registries_stay_disjoint (E : Externals) (mgr : ABTestManager)
    (now : Datetime.t) :
  registries_disjoint mgr ->
  (forall c, new_id_is_fresh mgr now c -> registries_disjoint (run_command E mgr now c))
  /\ (forall name description control_variant test_variants primary_metric significance_level,
        completed_tests
          (run_command E mgr now
             (Create name description control_variant test_variants primary_metric
                significance_level))
        = completed_tests mgr
        /\ is_Some
             (active_tests
                (run_command E mgr now
                   (Create name description control_variant test_variants primary_metric
                      significance_level)) !! generate_test_id name now))
  /\ (forall test_id test,
        active_tests mgr !! test_id = Some test ->
        active_tests (run_command E mgr now (Stop test_id)) !! test_id = None
        /\ is_Some (completed_tests (run_command E mgr now (Stop test_id)) !! test_id))
  /\ (forall test_id test,
        active_tests mgr !! test_id = Some test \/ completed_tests mgr !! test_id = Some test ->
        get_test_status mgr now test_id = status_report now test).
Proof.
  intros Hdis. repeat split.
  - intros [name description control tvs pm sl | id | id vid d | id] Hfresh.
    + apply disjoint_create; assumption.
    + apply disjoint_start. exact Hdis.
    + apply disjoint_record. exact Hdis.
    + apply disjoint_stop. exact Hdis.
  - destruct (create_ab_test_stores E mgr now name description control_variant
                test_variants primary_metric significance_level) as (n & _ & Hc).
    cbn [run_command]. rewrite Hc. reflexivity.
  - destruct (create_ab_test_stores E mgr now name description control_variant
                test_variants primary_metric significance_level) as (n & _ & Hc).
    cbn [run_command]. rewrite Hc. cbn. rewrite lookup_insert_eq. eauto.
  - cbn [run_command].
    destruct (stop_test_found E mgr now test_id test H) as (_ & Ha & _).
    rewrite Ha. apply lookup_delete_eq.
  - cbn [run_command].
    destruct (stop_test_found E mgr now test_id test H) as (_ & _ & Hc & _).
    rewrite Hc, lookup_insert_eq. eauto.
  - intros test_id test [Hin|Hin]; unfold get_test_status.
    + rewrite Hin. reflexivity.
    + destruct (Hdis test_id) as [Hout|Hout]; [|congruence].
      rewrite Hout, Hin. reflexivity.
Qed.

(** C4 (amended). [create_ab_test] checks nothing and never fails: for
    every configuration it files the experiment in the active registry with
    status [PLANNING], a minimum sample size of at least 1000 and a minimum
    duration of 7 days, and returns its id.  The traffic allocation is
    checked by [start_test]: when the sum over the control and the
    treatments differs from 1 by more than 0.01, [start_test] returns
    [False] and the experiment stays as created. *)
Theorem create_stores_then_start_validates (E : Externals) (mgr : ABTestManager)
    (now : Datetime.t) (name description : string) (control_variant : TestVariant.t)
    (test_variants : list TestVariant.t) (primary_metric : string)
    (significance_level : SignificanceLevel) :
  exists test mgr',
    create_ab_test E mgr now name description control_variant test_variants
      primary_metric significance_level
    = Some (generate_test_id name now, mgr')
    /\ active_tests mgr' !! generate_test_id name now = Some test
    /\ completed_tests mgr' = completed_tests mgr
    /\ ABTest.status test = PLANNING
    /\ ABTest.control_variant test = control_variant
    /\ ABTest.test_variants test = test_variants
    /\ 1000 <= ABTest.minimum_sample_size test
    /\ ABTest.minimum_duration_days test = 7
    /\ (forall later,
          (1 # 100 < Qabs (total_allocation test - 1))%Q ->
          start_test mgr' later (generate_test_id name now) = (false, mgr')).
Proof.
  destruct (create_ab_test_stores E mgr now name description control_variant test_variants
              primary_metric significance_level) as (n & Hn & Hc).
  eexists. eexists. split; [exact Hc|].
  split; [cbn; apply lookup_insert_eq|].
  repeat split; try exact Hn.
  intros later Hsum. eapply start_test_invalid; [cbn; apply lookup_insert_eq|].
  unfold _validate_test_configuration.
  apply Qlt_bool_iff in Hsum. rewrite Hsum. reflexivity.
Qed.

(** ** The conversion rate *)

Lemma outcome_bind_returned {A : Type} (o : outcome A) (k : A -> outcome A) (a' : A) :
  o >>= k = Returned a' -> exists a, o = Returned a /\ k a = Returned a'.
Proof. destruct o as [a|a]; cbn; [eauto | discriminate]. Qed.

Ltac counters_stage H :=
  repeat match type of H with
         | context [match ?o with _ => _ end] => destruct o
         end;
  try discriminate; injection H as <-; unfold same_counters; cbn; auto.

(** What a recorded interaction does to the three conversion counters. *)
Lemma update_variant_counters (variant variant' : TestVariant.t)
    (visitor_data : VisitorData) (now : Datetime.t) :
  update_variant variant visitor_data now = Returned variant' ->
  TestVariant.visitors variant' = TestVariant.visitors variant + 1
  /\ (default false (vd_converted visitor_data) = true ->
      TestVariant.conversions variant' = TestVariant.conversions variant + 1
      /\ TestVariant.conversion_rate variant'
         = (inject_Z (TestVariant.conversions variant')
            / inject_Z (TestVariant.visitors variant'))%Q)
  /\ (default false (vd_converted visitor_data) = false ->
      TestVariant.conversions variant' = TestVariant.conversions variant
      /\ TestVariant.conversion_rate variant' = TestVariant.conversion_rate variant).
Proof.
  unfold update_variant. intros H.
  apply outcome_bind_returned in H as (v7 & H & H8).
  apply outcome_bind_returned in H as (v6 & H & H7).
  apply outcome_bind_returned in H as (v5 & H & H6).
  apply outcome_bind_returned in H as (v4 & H & H5).
  apply outcome_bind_returned in H as (v3 & H & H4).
  apply outcome_bind_returned in H as (v2 & H & H3).
  apply outcome_bind_returned in H as (v1 & H & H2).
  assert (same_counters v7 variant') as (E8a & E8b & E8c) by counters_stage H8.
  assert (same_counters v6 v7) as (E7a & E7b & E7c) by counters_stage H7.
  assert (same_counters v5 v6) as (E6a & E6b & E6c) by counters_stage H6.
  assert (same_counters v4 v5) as (E5a & E5b & E5c) by counters_stage H5.
  assert (same_counters v3 v4) as (E4a & E4b & E4c) by counters_stage H4.
  assert (same_counters v2 v3) as (E3a & E3b & E3c) by counters_stage H3.
  rewrite E8a, E8b, E8c, E7a, E7b, E7c, E6a, E6b, E6c, E5a, E5b, E5c,
    E4a, E4b, E4c, E3a, E3b, E3c.
  injection H as <-.
  destruct (default false (vd_converted visitor_data)).
  - destruct (_ =? 0) in H2; [discriminate|]. injection H2 as <-. cbn.
    repeat split; intros; try reflexivity; discriminate.
  - injection H2 as <-. cbn. repeat split; intros; try reflexivity; discriminate.
Qed.

(** ** The threshold and the learning store *)

(** The result of the analyzer is significant exactly when its p-value is
    below the manager's threshold, whatever the experiment's level. *)
Lemma analyze_significant_iff_below_threshold (E : Externals) (test : ABTest.t) :
  significant (fst (_analyze_statistical_significance E test)) = true <->
  (res_p_value (fst (_analyze_statistical_significance E test)) < significance_threshold)%Q.
Proof.
  assert (significant failed_result = true <->
          (res_p_value failed_result < significance_threshold)%Q) as Hfail.
  { split; [discriminate | intros H; vm_compute in H; discriminate]. }
  unfold _analyze_statistical_significance.
  destruct (ABTest.test_variants test) as [|v [|w vs]]; try exact Hfail.
  name_result test v.
  assert (significant result = true <-> (res_p_value result < significance_threshold)%Q)
    as Hres.
  { subst result. destruct (String.eqb _ _);
      [apply chi_square_significant_iff | apply t_test_significant_iff]. }
  destruct (significant result) eqn:Hs; [|cbn [fst]; rewrite Hs; exact Hres].
  cbn [ABTest.primary_metric ABTest.set_effect_size ABTest.set_confidence_interval
       ABTest.set_statistical_significance ABTest.set_p_value].
  destruct (String.eqb (ABTest.primary_metric test) "conversion_rate") eqn:Hm.
  - destruct (Qlt_bool _ _); cbn [fst]; rewrite Hs; exact Hres.
  - assert (result = _t_test E (ABTest.control_variant test) v (ABTest.primary_metric test))
      as Hr by (subst result; rewrite ?Hm; reflexivity).
    assert (is_Some (getattr (ABTest.control_variant test) (ABTest.primary_metric test))
            /\ is_Some (getattr v (ABTest.primary_metric test))) as [[cm Hcm] [tm Htm]].
    { rewrite Hr in Hs. unfold _t_test in Hs.
      destruct (getattr (ABTest.control_variant test) _), (getattr v _);
        try discriminate; eauto. }
    rewrite Hcm, Htm. destruct (Qlt_bool _ _); cbn [fst]; rewrite Hs; exact Hres.
Qed.

(** A completion that is not significant adds nothing to the learning
    store. *)
Lemma learn_requires_significance (mgr : ABTestManager) (now : Datetime.t)
    (test : ABTest.t) :
  ABTest.statistical_significance test = false ->
  _learn_from_test mgr now test = mgr.
Proof. intros Hs. unfold _learn_from_test. rewrite Hs. reflexivity. Qed.

(** A completion adds at most one record to the learning store. *)
Lemma learn_appends_at_most_one (mgr : ABTestManager) (now : Datetime.t) (test : ABTest.t) :
  learned_patterns (_learn_from_test mgr now test) = learned_patterns mgr
  \/ exists record,
       learned_patterns (_learn_from_test mgr now test) = learned_patterns mgr ++ [record]
       /\ source_test_id record = ABTest.test_id test.
Proof.
  unfold _learn_from_test.
  destruct (negb _); [left; reflexivity|].
  destruct (find_winner test); [|left; reflexivity].
  destruct (learn_improvement _ _), (ABTest.p_value test); try (left; reflexivity).
  right. eexists. split; reflexivity.
Qed.

(** On the conversion-rate path a control rate of zero makes the
    improvement a division by zero, and the significant completion adds no
    record. *)
Lemma learn_skips_zero_control_rate (mgr : ABTestManager) (now : Datetime.t)
    (test : ABTest.t) :
  ABTest.primary_metric test = "conversion_rate" ->
  (TestVariant.conversion_rate (ABTest.control_variant test) == 0)%Q ->
  _learn_from_test mgr now test = mgr.
Proof.
  intros Hm H0. unfold _learn_from_test.
  destruct (negb _); [reflexivity|].
  destruct (find_winner test) as [winner|]; [|reflexivity].
  unfold learn_improvement. rewrite Hm, String.eqb_refl.
  apply Qeq_bool_iff in H0. rewrite H0. reflexivity.
Qed.

(** ** The running mean inside the recorder *)

Lemma update_variant_time_on_page (variant variant' : TestVariant.t)
    (visitor_data : VisitorData) (now : Datetime.t) (x : Q) :
  update_variant variant visitor_data now = Returned variant' ->
  vd_time_on_page visitor_data = Some x ->
  TestVariant.time_on_page variant'
  = _update_running_average (TestVariant.time_on_page variant) x
      (TestVariant.visitors variant + 1).
Proof.
  unfold update_variant. intros H Hx. rewrite Hx in H.
  apply outcome_bind_returned in H as (v7 & H & H8).
  apply outcome_bind_returned in H as (v6 & H & H7).
  apply outcome_bind_returned in H as (v5 & H & H6).
  apply outcome_bind_returned in H as (v4 & H & H5).
  apply outcome_bind_returned in H as (v3 & H & H4).
  apply outcome_bind_returned in H as (v2 & H & H3).
  apply outcome_bind_returned in H as (v1 & H & H2).
  assert (TestVariant.time_on_page variant' = TestVariant.time_on_page v7) as ->
    by (counters_stage H8).
  assert (TestVariant.time_on_page v7 = TestVariant.time_on_page v6) as ->
    by (counters_stage H7).
  assert (TestVariant.time_on_page v6 = TestVariant.time_on_page v5) as ->
    by (counters_stage H6).
  assert (TestVariant.time_on_page v5 = TestVariant.time_on_page v4) as ->
    by (counters_stage H5).
  assert (TestVariant.time_on_page v4 = TestVariant.time_on_page v3) as ->
    by (counters_stage H4).
  injection H3 as <-. cbn [TestVariant.time_on_page TestVariant.set_time_on_page].
  assert (TestVariant.time_on_page v2 = TestVariant.time_on_page variant
          /\ TestVariant.visitors v2 = TestVariant.visitors variant + 1) as [-> ->];
    [|reflexivity].
  injection H as <-.
  destruct (default false (vd_converted visitor_data)).
  - destruct (_ =? 0) in H2; [discriminate|]. injection H2 as <-. split; reflexivity.
  - injection H2 as <-. split; reflexivity.
Qed.

Lemma recorded_time_on_page (now : Datetime.t) (v v' : TestVariant.t)
    (events : list VisitorData) (values : list Q) :
  recorded now v events v' ->
  map vd_time_on_page events = map Some values ->
  TestVariant.time_on_page v'
  = running_average_from (TestVariant.time_on_page v) (TestVariant.visitors v + 1) values.
Proof.
  intros Hrec. revert values.
  induction Hrec as [v | v v1 v2 d ds Hup Hrec IH]; intros values Hvals.
  - destruct values; [reflexivity | discriminate].
  - destruct values as [|x values]; [discriminate|].
    cbn [map] in Hvals. injection Hvals as Hx Hrest.
    rewrite (IH values Hrest). cbn [running_average_from].
    rewrite (update_variant_time_on_page v v1 d now x Hup Hx).
    destruct (update_variant_counters v v1 d now Hup) as (-> & _). reflexivity.
Qed.

(** In exact arithmetic: on a new variant, after interactions that each
    carry a time on page, the stored time on page is the arithmetic mean of
    the times. *)
Lemma time_on_page_is_mean (now : Datetime.t) (v v' : TestVariant.t)
    (events : list VisitorData) (values : list Q) :
  TestVariant.visitors v = 0 ->
  values <> [] ->
  recorded now v events v' ->
  map vd_time_on_page events = map Some values ->
  (TestVariant.time_on_page v' == arithmetic_mean values)%Q.
Proof.
  intros Hv Hne Hrec Hvals.
  rewrite (recorded_time_on_page now v v' events values Hrec Hvals), Hv.
  change (0 + 1) with 1. unfold arithmetic_mean.
  pose proof (running_average_from_total values (TestVariant.time_on_page v) 1
                ltac:(lia) Hne) as H.
  change (1 - 1) with 0 in H. rewrite Z.add_0_l in H.
  change (inject_Z 0) with 0%Q in H.
  assert (~ (inject_Z (Z.of_nat (length values)) == 0)%Q) as Hlen.
  { apply inject_Z_nonzero. destruct values; [congruence | cbn [length]; lia]. }
  apply (Qmult_inj_r _ _ (inject_Z (Z.of_nat (length values)))); [exact Hlen|].
  rewrite H. field. exact Hlen.
Qed.

(** ** Managers reached through the operations *)

Lemma well_formed_insert (mgr : ABTestManager) (key : string) (test : ABTest.t) :
  active_well_formed mgr ->
  well_formed key test ->
  active_well_formed (set_active_tests (<[key := test]> (active_tests mgr)) mgr).
Proof.
  intros Hwf Ht id t. cbn.
  destruct (decide (key = id)) as [<-|Hne].
  - rewrite lookup_insert_eq. intros [= <-]. exact Ht.
  - rewrite lookup_insert_ne by exact Hne. apply Hwf.
Qed.

Lemma well_formed_put_arm (id : string) (test : ABTest.t) (a : arm) (v : TestVariant.t) :
  well_formed id test -> well_formed id (put_arm test a v).
Proof. destruct a; exact (fun H => H). Qed.

Lemma well_formed_analyze (E : Externals) (id : string) (test : ABTest.t) :
  well_formed id test ->
  well_formed id (snd (_analyze_statistical_significance E test)).
Proof.
  destruct (analyze_fields E test) as (Hid & Hst & _ & _ & Hn & _ & Hs & Hd).
  unfold well_formed. rewrite Hid, Hst, Hn, Hs, Hd. exact (fun H => H).
Qed.

Lemma well_formed_stop (E : Externals) (mgr : ABTestManager) (now : Datetime.t)
    (test_id : string) :
  active_well_formed mgr ->
  active_well_formed (snd (_stop_test E mgr now test_id)).
Proof.
  intros Hwf.
  destruct (active_tests mgr !! test_id) as [test|] eqn:Hin.
  - destruct (stop_test_found E mgr now test_id test Hin) as (_ & Ha & _).
    intros id t. rewrite Ha. intros Hl.
    apply lookup_delete_Some in Hl as [_ Hl]. exact (Hwf id t Hl).
  - rewrite stop_test_missing by exact Hin. exact Hwf.
Qed.

Lemma well_formed_check (E : Externals) (mgr : ABTestManager) (now : Datetime.t)
    (key : string) :
  active_well_formed mgr ->
  active_well_formed (_check_early_stopping E mgr now key).
Proof.
  intros Hwf. unfold _check_early_stopping.
  destruct (active_tests mgr !! key) as [test|] eqn:Hin; [|exact Hwf].
  destruct (_ <? _); [exact Hwf|].
  destruct (match ABTest.started_at test with Some _ => _ | None => _ end); [exact Hwf|].
  pose proof (well_formed_analyze E key test (Hwf key test Hin)) as Ht.
  destruct (_analyze_statistical_significance E test) as [result test'].
  pose proof (well_formed_insert mgr key test' Hwf Ht) as Hwf'.
  destruct (significant result); [apply well_formed_stop|]; exact Hwf'.
Qed.

Lemma well_formed_step (E : Externals) (mgr : ABTestManager) (now : Datetime.t)
    (c : command) :
  active_well_formed mgr -> active_well_formed (run_command E mgr now c).
Proof.
  intros Hwf. destruct c as [name description control tvs pm sl | id | id vid d | id];
    cbn [run_command].
  - destruct (create_ab_test_stores E mgr now name description control tvs pm sl)
      as (n & Hn & ->).
    apply well_formed_insert; [exact Hwf|].
    repeat split; [left; reflexivity | discriminate | exact Hn].
  - unfold start_test.
    destruct (active_tests mgr !! id) as [test|] eqn:Hin; [|exact Hwf].
    destruct (negb _); [exact Hwf|].
    destruct (negb _); [exact Hwf|].
    cbn [snd]. apply well_formed_insert; [exact Hwf|].
    destruct (Hwf id test Hin) as (Hid & _ & _ & Hn & Hd).
    repeat split; cbn; eauto.
  - unfold record_visitor_interaction.
    destruct (active_tests mgr !! id) as [test|] eqn:Hin; [|exact Hwf].
    destruct (negb _); [exact Hwf|].
    destruct (find_variant test vid) as [[a variant]|]; [|exact Hwf].
    pose proof (well_formed_insert mgr id _ Hwf
                  (well_formed_put_arm id test a
                     (outcome_value (update_variant variant d now)) (Hwf id test Hin)))
      as Hwf'.
    destruct (outcome_ok _); cbn [snd]; [apply well_formed_check|]; exact Hwf'.
  - apply well_formed_stop. exact Hwf.
Qed.

(** In a reachable manager every active experiment is filed under its own
    id, is planned or running, has a start time once it runs, and has the
    sample size and duration that [create_ab_test] gave it. *)
Lemma reachable_active_well_formed (E : Externals) (mgr : ABTestManager) :
  reachable E mgr -> active_well_formed mgr.
Proof.
  induction 1 as [|mgr now c _ IH].
  - intros id test Hin. cbn in Hin. rewrite lookup_empty in Hin. discriminate.
  - apply well_formed_step. exact IH.
Qed.

(** If an interaction that does not convert is recorded on a variant whose
    rate was [conversions / visitors] with at least one conversion, the rate
    no longer is. *)
Lemma update_variant_rate_goes_stale (variant variant' : TestVariant.t)
    (visitor_data : VisitorData) (now : Datetime.t) :
  update_variant variant visitor_data now = Returned variant' ->
  default false (vd_converted visitor_data) = false ->
  0 < TestVariant.visitors variant ->
  0 < TestVariant.conversions variant ->
  (TestVariant.conversion_rate variant
   == inject_Z (TestVariant.conversions variant) / inject_Z (TestVariant.visitors variant))%Q ->
  ~ (TestVariant.conversion_rate variant'
     == inject_Z (TestVariant.conversions variant')
        / inject_Z (TestVariant.visitors variant'))%Q.
Proof.
  intros Hup Hconv Hv Hc Hrate Hrate'.
  destruct (update_variant_counters _ _ _ _ Hup) as (Hvis & _ & Hsame).
  destruct (Hsame Hconv) as [Hc' Hr'].
  rewrite Hr', Hc', Hvis, Hrate in Hrate'.
  set (c := TestVariant.conversions variant) in *.
  set (v := TestVariant.visitors variant) in *.
  clearbody c v.
  assert (~ (inject_Z v == 0)%Q) as Hv0 by (apply inject_Z_nonzero; lia).
  assert (~ (inject_Z (v + 1) == 0)%Q) as Hv1 by (apply inject_Z_nonzero; lia).
  assert (inject_Z c * inject_Z (v + 1) == inject_Z c * inject_Z v)%Q as Heq.
  { transitivity ((inject_Z c / inject_Z v) * (inject_Z v * inject_Z (v + 1)))%Q;
      [field; exact Hv0|].
    rewrite Hrate'. field. exact Hv1. }
  unfold Qeq in Heq. cbn in Heq. lia.
Qed.

(** ** Runs of the usage example *)

(** C1. The source updates [conversion_rate] only inside the branch of a
    converting visitor.  On the experiment of the usage example, created
    and started, a converting visitor and then a non-converting visitor on
    the control are both recorded with [True]; the control then has 2
    visitors, 1 conversion and the conversion rate 1, which is not 1/2. *)
Theorem conversion_rate_stale_after_non_conversion :
  match sample_experiment sample_externals sample_start MEDIUM 0 0 0 0 with
  | Some (id, mgr) =>
      let r1 := record_visitor_interaction sample_externals mgr sample_start id
                  "control" converting in
      let r2 := record_visitor_interaction sample_externals (snd r1) sample_start id
                  "control" browsing in
      fst r1 = true /\ fst r2 = true
      /\ (fun test =>
            let control := ABTest.control_variant test in
            (ABTest.status test, TestVariant.visitors control,
             TestVariant.conversions control, TestVariant.conversion_rate control))
         <$> active_tests (snd r2) !! id
         = Some (RUNNING, 2, 1, 1 # 1)
  | None => False
  end
  /\ ~ (1 # 1 == inject_Z 1 / inject_Z 2)%Q.
Proof.
  split; [vm_compute; repeat split; reflexivity | intros H; vm_compute in H; discriminate].
Qed.

(** C2, counterexample. The usage example with 10000 visitors, the last
    of them recorded 41 days after the start, past the maximum duration of
    30 days: the check runs the analyzer (p = 0.8942, not significant) and
    the experiment stays in the active registry with status [RUNNING]. *)
Lemma no_forced_stop_at_maximum_duration :
  match sample_experiment sample_externals sample_start MEDIUM 5000 500 4999 504 with
  | Some (id, mgr) =>
      let r := record_visitor_interaction sample_externals mgr sample_six_weeks_later id
                 "test_v1" converting in
      fst r = true
      /\ (fun test =>
            (ABTest.status test, ABTest.maximum_duration_days test,
             (fun started => Datetime.days_between sample_six_weeks_later started)
               <$> ABTest.started_at test,
             total_visitors test, ABTest.p_value test, ABTest.winner_variant_id test))
         <$> active_tests (snd r) !! id
         = Some (RUNNING, 30, Some 41, 10000, Some (8942 # 10000), None)
      /\ completed_tests (snd r) !! id = None
  | None => False
  end.
Proof. vm_compute. repeat split; reflexivity. Qed.

(** C3. The analyzer compares the p-value with the manager's fixed
    threshold 0.05, not with the experiment's [significance_level].  The
    usage example configured with [HIGH] (0.01), 5000 visitors per arm,
    500 and 570 conversions, a week after the start: the p-value 0.0256 is
    not below 0.01, yet the result is significant, the treatment is declared
    the winner and the experiment is stopped. *)
Theorem significance_ignores_configured_level :
  match sample_experiment sample_externals sample_start HIGH 5000 500 4999 569 with
  | Some (id, mgr) =>
      let r := record_visitor_interaction sample_externals mgr sample_week_later id
                 "test_v1" converting in
      fst r = true
      /\ active_tests (snd r) !! id = None
      /\ (fun test =>
            (ABTest.status test, ABTest.significance_level test, ABTest.p_value test,
             ABTest.statistical_significance test, ABTest.winner_variant_id test))
         <$> completed_tests (snd r) !! id
         = Some (COMPLETED, HIGH, Some (256 # 10000), true, Some "test_v1")
  | None => False
  end
  /\ ~ (256 # 10000 < SignificanceLevel_value HIGH)%Q.
Proof.
  split; [vm_compute; repeat split; reflexivity | intros H; vm_compute in H; discriminate].
Qed.

(** C4, counterexample. A configuration whose only arm is the control with
    half of the traffic is accepted by [create_ab_test]: the experiment is
    filed in the active registry with status [PLANNING] and its id is
    returned, although the allocations sum to 1/2. *)
Lemma create_accepts_unbalanced_allocation :
  match create_ab_test sample_externals ABTestManager_init sample_start
          "Homepage CTA Test" "Testing new CTA button design" sample_control []
          "conversion_rate" MEDIUM with
  | Some (id, mgr) =>
      id = "test_e7b00d14"
      /\ (fun test => (ABTest.status test, Qred (total_allocation test)))
         <$> active_tests mgr !! id
         = Some (PLANNING, 1 # 2)
  | None => False
  end
  /\ ~ (99 # 100 <= 1 # 2)%Q.
Proof.
  split; [vm_compute; repeat split; reflexivity | intros H; vm_compute in H; apply H; reflexivity].
Qed.

(** C5, counterexample. An interaction for an id the manager has never
    seen and an interaction for an experiment that is still in planning get
    the same answer, the boolean [False]. *)
Lemma record_failures_are_bare_false :
  record_visitor_interaction sample_externals ABTestManager_init sample_start
    "test_00000000" "control" converting
  = (false, ABTestManager_init)
  /\ match create_ab_test sample_externals ABTestManager_init sample_start
             "Homepage CTA Test" "Testing new CTA button design" sample_control
             [sample_treatment] "conversion_rate" MEDIUM with
     | Some (id, mgr) =>
         ABTest.status <$> active_tests mgr !! id = Some PLANNING
         /\ record_visitor_interaction sample_externals mgr sample_start id
              "control" converting
            = (false, mgr)
     | None => False
     end.
Proof. vm_compute. repeat split; reflexivity. Qed.

(** C7. [_learn_from_test] divides by the control's conversion rate
    without the guard its other branch has.  The usage example with 3200
    visitors per arm, no conversion on the control and 320 on the treatment,
    a week after the start: the experiment completes with
    [statistical_significance = True] and the treatment as winner, and the
    learning store is still empty. *)
Theorem significant_completion_without_learning_record :
  match sample_experiment sample_externals sample_start MEDIUM 3200 0 3199 319 with
  | Some (id, mgr) =>
      let r := record_visitor_interaction sample_externals mgr sample_week_later id
                 "test_v1" converting in
      learned_patterns mgr = []
      /\ fst r = true
      /\ (fun test =>
            (ABTest.status test, ABTest.statistical_significance test,
             ABTest.winner_variant_id test,
             TestVariant.conversion_rate (ABTest.control_variant test)))
         <$> completed_tests (snd r) !! id
         = Some (COMPLETED, true, Some "test_v1", 0%Q)
      /\ learned_patterns (snd r) = []
  | None => False
  end.
Proof. vm_compute. repeat split; reflexivity. Qed.

(** C8. The recorder folds the running-mean update with the visitor count
    of the variant as [n], and a visitor whose interaction carries no time
    on page is counted all the same.  On the experiment of the usage
    example, created and started, three visitors of the control with the
    times 100, none and 400 are all recorded with [True]; the control then
    has 3 visitors and the time on page (100 * 2 + 400) / 3 = 200, where the
    arithmetic mean of the two times recorded is 250. *)
Theorem time_on_page_diluted_by_silent_visitor :
  match sample_experiment sample_externals sample_start MEDIUM 0 0 0 0 with
  | Some (id, mgr) =>
      let r1 := record_visitor_interaction sample_externals mgr sample_start id
                  "control" (mkVisitorData (Some false) (Some 100%Q) None None None) in
      let r2 := record_visitor_interaction sample_externals (snd r1) sample_start id
                  "control" (mkVisitorData (Some false) None None None None) in
      let r3 := record_visitor_interaction sample_externals (snd r2) sample_start id
                  "control" (mkVisitorData (Some false) (Some 400%Q) None None None) in
      fst r1 = true /\ fst r2 = true /\ fst r3 = true
      /\ (fun test =>
            let control := ABTest.control_variant test in
            (ABTest.status test, TestVariant.visitors control,
             Qred (TestVariant.time_on_page control)))
         <$> active_tests (snd r3) !! id
         = Some (RUNNING, 3, 200 # 1)
  | None => False
  end
  /\ Qred (arithmetic_mean [100; 400]%Q) = 250 # 1
  /\ ~ (200 # 1 == 250 # 1)%Q.
Proof.
  split; [vm_compute; repeat split; reflexivity|].
  split; [vm_compute; reflexivity | intros H; vm_compute in H; discriminate].
Qed.

(** C9, counterexample. Two creations whose names and clock readings give
    the same first eight digits of the MD5 digest: the first experiment is
    stopped and filed as completed, the second creation files the same id in
    the active registry, and the status query answers for the new one. *)
Lemma colliding_id_in_both_registries :
  generate_test_id "Homepage CTA Test" sample_start = "test_e7b00d14"
  /\ generate_test_id "Homepage CTA Test" sample_week_later = "test_e7b00d14"
  /\ let m1 := run_command sample_externals ABTestManager_init sample_start
                 (Create "Homepage CTA Test" "Testing new CTA button design"
                    sample_control [sample_treatment] "conversion_rate" MEDIUM) in
     let m2 := run_command sample_externals m1 sample_start (Stop "test_e7b00d14") in
     let m3 := run_command sample_externals m2 sample_week_later
                 (Create "Homepage CTA Test" "Testing new CTA button design"
                    sample_control [sample_treatment] "conversion_rate" MEDIUM) in
     active_tests m2 !! "test_e7b00d14" = None
     /\ ABTest.status <$> completed_tests m2 !! "test_e7b00d14" = Some COMPLETED
     /\ ABTest.status <$> active_tests m3 !! "test_e7b00d14" = Some PLANNING
     /\ ABTest.status <$> completed_tests m3 !! "test_e7b00d14" = Some COMPLETED
     /\ sr_status <$> get_test_status m3 sample_week_later "test_e7b00d14"
        = Some "planning".
Proof. vm_compute. repeat split; reflexivity. Qed.

(** ** Instances of the general theorems *)

Lemma analyze_requires_single_treatment_witness :
  _analyze_statistical_significance sample_externals
    (running_test "test_e7b00d14" MEDIUM sample_control
       [sample_treatment; sample_treatment])
  = (failed_result,
     running_test "test_e7b00d14" MEDIUM sample_control
       [sample_treatment; sample_treatment]).
Proof. apply analyze_requires_single_treatment. cbn. lia. Defined.

Lemma early_stop_waits_for_sample_and_duration_witness :
  _check_early_stopping sample_externals (manager_with small_running_test)
    sample_six_weeks_later "test_e7b00d14"
  = manager_with small_running_test.
Proof.
  apply (proj1 (early_stop_waits_for_sample_and_duration sample_externals
                  (manager_with small_running_test) sample_six_weeks_later sample_start
                  "test_e7b00d14" small_running_test
                  ltac:(vm_compute; reflexivity) ltac:(reflexivity))).
  left. vm_compute. reflexivity.
Defined.

Lemma check_stops_only_on_significance_witness :
  active_tests
    (_check_early_stopping sample_externals (manager_with large_running_test)
       sample_six_weeks_later "test_e7b00d14") !! "test_e7b00d14" = None
  <-> ABTest.minimum_sample_size large_running_test <= total_visitors large_running_test
      /\ ABTest.minimum_duration_days large_running_test
         <= Datetime.days_between sample_six_weeks_later sample_start
      /\ significant (fst (_analyze_statistical_significance sample_externals
                             large_running_test)) = true.
Proof.
  apply (proj1 (check_stops_only_on_significance sample_externals
                  (manager_with large_running_test) sample_six_weeks_later sample_start
                  "test_e7b00d14" large_running_test
                  ltac:(vm_compute; reflexivity) ltac:(reflexivity) ltac:(reflexivity))).
Defined.

Lemma record_rejects_with_false_witness :
  record_visitor_interaction sample_externals ABTestManager_init sample_start
    "test_00000000" "control" converting
  = (false, ABTestManager_init).
Proof. apply record_rejects_with_false. left. reflexivity. Defined.

Lemma registries_stay_disjoint_witness :
  registries_disjoint
    (run_command sample_externals ABTestManager_init sample_start
       (Create "Homepage CTA Test" "Testing new CTA button design" sample_control
          [sample_treatment] "conversion_rate" MEDIUM)).
Proof.
  apply (proj1 (registries_stay_disjoint sample_externals ABTestManager_init sample_start
                  ltac:(intros id; left; reflexivity))).
  reflexivity.
Defined.

(** * The rest of the manager and its callers *)

(** ** Bounds kept by the recorder *)

Lemma update_running_average_between (avg x lo hi : Q) (count : Z) :
  (lo <= avg <= hi)%Q -> (lo <= x <= hi)%Q ->
  (lo <= _update_running_average avg x count <= hi)%Q.
Proof.
  intros [Ha1 Ha2] [Hx1 Hx2]. unfold _update_running_average.
  destruct (count <=? 1) eqn:Hc; [split; assumption|].
  apply Z.leb_gt in Hc.
  assert (0 < inject_Z count)%Q as Hpos.
  { change 0%Q with (inject_Z 0). rewrite <- Zlt_Qlt. lia. }
  assert (0 <= inject_Z (count - 1))%Q as Hnn.
  { change 0%Q with (inject_Z 0). rewrite <- Zle_Qle. lia. }
  assert (inject_Z count == inject_Z (count - 1) + 1)%Q as Hsplit.
  { change 1%Q with (inject_Z 1). rewrite <- inject_Z_plus.
    replace (count - 1 + 1) with count by lia. reflexivity. }
  split.
  - apply Qle_shift_div_l; [exact Hpos|].
    rewrite Hsplit.
    assert (lo * inject_Z (count - 1) <= avg * inject_Z (count - 1))%Q
      by (apply Qmult_le_compat_r; assumption).
    lra.
  - apply Qle_shift_div_r; [exact Hpos|].
    rewrite Hsplit.
    assert (avg * inject_Z (count - 1) <= hi * inject_Z (count - 1))%Q
      by (apply Qmult_le_compat_r; assumption).
    lra.
Qed.

Lemma engagement_score_bounds (variant : TestVariant.t) :
  (0 <= TestVariant.time_on_page variant)%Q ->
  (0 <= TestVariant.bounce_rate variant <= 1)%Q ->
  (0 <= TestVariant.scroll_depth variant <= 1)%Q ->
  (0 <= _calculate_engagement_score variant <= 1)%Q.
Proof.
  intros Ht [Hb1 Hb2] [Hs1 Hs2]. unfold _calculate_engagement_score.
  set (t := TestVariant.time_on_page variant) in *.
  assert (0 <= Qmin (t / 300) 1 <= 1)%Q as [Hm1 Hm2].
  { split.
    - apply Q.min_glb; [|discriminate].
      apply Qle_shift_div_l; [reflexivity | lra].
    - apply Q.le_min_r. }
  cbv zeta. lra.
Qed.

Ltac project_setters :=
  cbn [TestVariant.variant_id TestVariant.name TestVariant.description
       TestVariant.traffic_allocation TestVariant.content TestVariant.design
       TestVariant.visitors TestVariant.conversions TestVariant.conversion_rate
       TestVariant.bounce_rate TestVariant.time_on_page TestVariant.scroll_depth
       TestVariant.engagement_score TestVariant.revenue TestVariant.revenue_per_visitor
       TestVariant.created_at TestVariant.last_updated
       TestVariant.set_visitors TestVariant.set_conversions TestVariant.set_conversion_rate
       TestVariant.set_bounce_rate TestVariant.set_time_on_page TestVariant.set_scroll_depth
       TestVariant.set_engagement_score TestVariant.set_revenue
       TestVariant.set_revenue_per_visitor TestVariant.set_last_updated].

(** The engagement metrics after a recorded interaction, field by field. *)
Lemma update_variant_metrics (variant variant' : TestVariant.t)
    (visitor_data : VisitorData) (now : Datetime.t) :
  update_variant variant visitor_data now = Returned variant' ->
  TestVariant.time_on_page variant'
  = match vd_time_on_page visitor_data with
    | Some x => _update_running_average (TestVariant.time_on_page variant) x
                  (TestVariant.visitors variant + 1)
    | None => TestVariant.time_on_page variant
    end
  /\ TestVariant.bounce_rate variant'
     = match vd_bounce_rate visitor_data with
       | Some b => _update_running_average (TestVariant.bounce_rate variant)
                     (if b then 1 else 0)%Q (TestVariant.visitors variant + 1)
       | None => TestVariant.bounce_rate variant
       end
  /\ TestVariant.scroll_depth variant'
     = match vd_scroll_depth visitor_data with
       | Some x => _update_running_average (TestVariant.scroll_depth variant) x
                     (TestVariant.visitors variant + 1)
       | None => TestVariant.scroll_depth variant
       end
  /\ TestVariant.engagement_score variant' = _calculate_engagement_score variant'
  /\ TestVariant.last_updated variant' = Some now.
Proof.
  unfold update_variant. intros H.
  apply outcome_bind_returned in H as (v7 & H & H8).
  apply outcome_bind_returned in H as (v6 & H & H7).
  apply outcome_bind_returned in H as (v5 & H & H6).
  apply outcome_bind_returned in H as (v4 & H & H5).
  apply outcome_bind_returned in H as (v3 & H & H4).
  apply outcome_bind_returned in H as (v2 & H & H3).
  apply outcome_bind_returned in H as (v1 & H & H2).
  injection H as <-. injection H8 as <-. injection H6 as <-.
  assert (TestVariant.visitors v2 = TestVariant.visitors variant + 1
          /\ TestVariant.time_on_page v2 = TestVariant.time_on_page variant
          /\ TestVariant.bounce_rate v2 = TestVariant.bounce_rate variant
          /\ TestVariant.scroll_depth v2 = TestVariant.scroll_depth variant)
    as (Hv & Ht & Hb & Hs).
  { destruct (default false (vd_converted visitor_data)).
    - destruct (_ =? 0) in H2; [discriminate|]. injection H2 as <-.
      repeat split; reflexivity.
    - injection H2 as <-. repeat split; reflexivity. }
  destruct (vd_time_on_page visitor_data); injection H3 as <-;
    destruct (vd_bounce_rate visitor_data); injection H4 as <-;
    destruct (vd_scroll_depth visitor_data); injection H5 as <-;
    (destruct (vd_revenue visitor_data);
     [destruct (_ =? 0) in H7; [discriminate|] |]; injection H7 as <-);
    unfold _calculate_engagement_score; project_setters;
    rewrite ?Hv, ?Ht, ?Hb, ?Hs; repeat split; reflexivity.
Qed.

(** The count handed to the running mean is the visitor count.  On a new
    variant, a visitor with the time [x], a visitor without a time and a
    visitor with the time [y] leave, in exact arithmetic, the time on page
    (2x + y) / 3: the second visitor is averaged in as if it had reported
    [x].  This is the mean of the two times only when they are equal. *)
Lemma silent_visitor_dilutes_time_on_page (now : Datetime.t)
    (v v1 v2 v3 : TestVariant.t) (d1 d2 d3 : VisitorData) (x y : Q) :
  TestVariant.visitors v = 0 ->
  update_variant v d1 now = Returned v1 ->
  update_variant v1 d2 now = Returned v2 ->
  update_variant v2 d3 now = Returned v3 ->
  vd_time_on_page d1 = Some x ->
  vd_time_on_page d2 = None ->
  vd_time_on_page d3 = Some y ->
  (TestVariant.time_on_page v3 == (2 * x + y) / 3)%Q
  /\ ((TestVariant.time_on_page v3 == arithmetic_mean [x; y])%Q <-> (x == y)%Q).
Proof.
  intros Hv H1 H2 H3 Hx Hnone Hy.
  destruct (update_variant_metrics _ _ _ _ H1) as (T1 & _).
  destruct (update_variant_metrics _ _ _ _ H2) as (T2 & _).
  destruct (update_variant_metrics _ _ _ _ H3) as (T3 & _).
  destruct (update_variant_counters _ _ _ _ H1) as (V1 & _).
  destruct (update_variant_counters _ _ _ _ H2) as (V2 & _).
  rewrite Hx in T1. rewrite Hnone in T2. rewrite Hy in T3.
  rewrite Hv in T1, V1. rewrite V1 in V2. rewrite V2 in T3.
  change (0 + 1 + 1 + 1) with 3 in T3. change (0 + 1) with 1 in T1.
  assert (TestVariant.time_on_page v3 == (2 * x + y) / 3)%Q as Hval.
  { rewrite T3, T2, T1. unfold _update_running_average.
    change (3 <=? 1) with false. change (1 <=? 1) with true. cbv iota.
    change (inject_Z (3 - 1)) with 2%Q. change (inject_Z 3) with 3%Q. field. }
  split; [exact Hval|].
  rewrite Hval. unfold arithmetic_mean, Qsum. cbn [fold_right length].
  change (inject_Z (Z.of_nat 2)) with 2%Q.
  unfold Qdiv. change (/ 3)%Q with (1 # 3)%Q. change (/ 2)%Q with (1 # 2)%Q.
  split; intros H; lra.
Qed.

(** X1. After a recorded interaction whose values are in range, on a variant
    whose rates are in range, the rates are in range and the engagement
    score is between 0 and 1. *)
Theorem update_variant_keeps_metrics_in_range (variant variant' : TestVariant.t)
    (visitor_data : VisitorData) (now : Datetime.t) :
  update_variant variant visitor_data now = Returned variant' ->
  metrics_in_range variant ->
  event_in_range visitor_data ->
  metrics_in_range variant'
  /\ (0 <= TestVariant.engagement_score variant' <= 1)%Q.
Proof.
  intros Hup (Ht & Hb & Hs) (Hdt & Hds).
  destruct (update_variant_metrics _ _ _ _ Hup) as (Et & Eb & Es & Ee & _).
  assert (metrics_in_range variant') as Hrange.
  { unfold metrics_in_range. rewrite Et, Eb, Es. repeat split.
    - destruct (vd_time_on_page visitor_data) as [x|]; [|exact Ht].
      apply (update_running_average_between _ _ 0
               (Qmax (TestVariant.time_on_page variant) x)).
      + split; [exact Ht | apply Q.le_max_l].
      + split; [apply Hdt; reflexivity | apply Q.le_max_r].
    - destruct (vd_bounce_rate visitor_data) as [b|]; [|apply Hb].
      apply (update_running_average_between _ _ 0 1); [exact Hb|].
      destruct b; split; discriminate.
    - destruct (vd_bounce_rate visitor_data) as [b|]; [|apply Hb].
      apply (update_running_average_between _ _ 0 1); [exact Hb|].
      destruct b; split; discriminate.
    - destruct (vd_scroll_depth visitor_data) as [x|]; [|apply Hs].
      apply (update_running_average_between _ _ 0 1); [exact Hs|].
      apply Hds; reflexivity.
    - destruct (vd_scroll_depth visitor_data) as [x|]; [|apply Hs].
      apply (update_running_average_between _ _ 0 1); [exact Hs|].
      apply Hds; reflexivity. }
  split; [exact Hrange|]. rewrite Ee.
  destruct Hrange as (Ht' & Hb' & Hs'). apply engagement_score_bounds; assumption.
Qed.

(** ** Starting and stopping *)

Lemma Qle_bool_false_iff (a b : Q) : Qle_bool a b = false <-> (b < a)%Q.
Proof.
  split.
  - intros H. apply Qnot_le_lt. intros Hle. apply Qle_bool_iff in Hle. congruence.
  - intros H. destruct (Qle_bool a b) eqn:Hb; [|reflexivity].
    apply Qle_bool_iff in Hb. exfalso. exact (Qlt_not_le _ _ H Hb).
Qed.

(** [_validate_test_configuration] accepts exactly the experiments whose
    allocations sum to 1 within 0.01, whose minimum sample size is at least
    100 and whose minimum duration is at least one day. *)
Lemma validate_test_configuration_iff (test : ABTest.t) :
  _validate_test_configuration test = true <->
  (Qabs (total_allocation test - 1) <= 1 # 100)%Q
  /\ 100 <= ABTest.minimum_sample_size test
  /\ 1 <= ABTest.minimum_duration_days test.
Proof.
  unfold _validate_test_configuration, Qlt_bool.
  destruct (Qle_bool (Qabs (total_allocation test - 1)) (1 # 100)) eqn:Hsum; cbn [negb].
  - apply Qle_bool_iff in Hsum.
    destruct (ABTest.minimum_sample_size test <? 100) eqn:Hn;
      [apply Z.ltb_lt in Hn; split; [discriminate | lia]|].
    destruct (ABTest.minimum_duration_days test <? 1) eqn:Hd;
      [apply Z.ltb_lt in Hd; split; [discriminate | lia]|].
    apply Z.ltb_ge in Hn, Hd. split; [intros _; repeat split; assumption | reflexivity].
  - apply Qle_bool_false_iff in Hsum. split; [discriminate|].
    intros (Hle & _). exfalso. exact (Qlt_not_le _ _ Hsum Hle).
Qed.


Lemma TestStatus_eqb_eq (a b : TestStatus) : TestStatus_eqb a b = true <-> a = b.
Proof. destruct a, b; cbn; split; congruence. Qed.

Lemma start_test_accepts (mgr : ABTestManager) (now : Datetime.t) (test_id : string)
    (test : ABTest.t) :
  active_tests mgr !! test_id = Some test ->
  ABTest.status test = PLANNING ->
  _validate_test_configuration test = true ->
  start_test mgr now test_id
  = (true, set_active_tests (<[test_id := started now test]> (active_tests mgr)) mgr).
Proof.
  intros Hin Hst Hval. unfold start_test. rewrite Hin, Hst, Hval. reflexivity.
Qed.

Lemma start_test_true_inv (mgr : ABTestManager) (now : Datetime.t) (test_id : string) :
  fst (start_test mgr now test_id) = true ->
  exists test, active_tests mgr !! test_id = Some test
               /\ ABTest.status test = PLANNING
               /\ _validate_test_configuration test = true.
Proof.
  unfold start_test.
  destruct (active_tests mgr !! test_id) as [test|]; [|discriminate].
  destruct (TestStatus_eqb (ABTest.status test) PLANNING) eqn:Hst; [|discriminate].
  destruct (_validate_test_configuration test) eqn:Hval; [|discriminate].
  intros _. exists test. apply TestStatus_eqb_eq in Hst. auto.
Qed.

(** X2. [start_test] returns [True] exactly for an id of the active registry
    whose experiment is in planning and passes the validation; the
    experiment is then running, started at the time of the call, and nothing
    else changes.  In every other case the manager is unchanged. *)
Theorem start_test_from_planning_only (mgr : ABTestManager) (now : Datetime.t)
    (test_id : string) :
  (fst (start_test mgr now test_id) = true <->
     exists test, active_tests mgr !! test_id = Some test
                  /\ ABTest.status test = PLANNING
                  /\ _validate_test_configuration test = true)
  /\ (forall test,
        active_tests mgr !! test_id = Some test ->
        fst (start_test mgr now test_id) = true ->
        snd (start_test mgr now test_id)
        = set_active_tests (<[test_id := started now test]> (active_tests mgr)) mgr
        /\ ABTest.status (started now test) = RUNNING
        /\ ABTest.started_at (started now test) = Some now)
  /\ (fst (start_test mgr now test_id) = false -> snd (start_test mgr now test_id) = mgr).
Proof.
  unfold start_test.
  destruct (active_tests mgr !! test_id) as [test|] eqn:Hin.
  - destruct (TestStatus_eqb (ABTest.status test) PLANNING) eqn:Hst; cbn [negb].
    + apply TestStatus_eqb_eq in Hst.
      destruct (_validate_test_configuration test) eqn:Hval; cbn [negb fst snd].
      * split; [split; [intros _; exists test; auto | reflexivity]|].
        split; [|discriminate].
        intros t [= <-] _. repeat split; reflexivity.
      * split; [split; [discriminate | intros (t & [= <-] & _ & Hv); congruence]|].
        split; [discriminate | reflexivity].
    + cbn [fst snd].
      split; [split; [discriminate|]|split; [discriminate | reflexivity]].
      intros (t & [= <-] & Hp & _). apply TestStatus_eqb_eq in Hp. congruence.
  - cbn [fst snd].
    split; [split; [discriminate|]|split; [discriminate | reflexivity]].
    intros (t & Ht & _). discriminate.
Qed.

(** X3. For an experiment as created, the sample-size and duration checks
    of [_validate_test_configuration] never fire (the size is at least 1000,
    the duration 7 days): [start_test] returns [True] exactly when the
    allocation check [abs(total_allocation - 1.0) > 0.01], evaluated on the
    sum over the control and the treatments, does not fire. *)
Theorem created_test_starts_iff_allocation_check_passes (E : Externals)
    (mgr : ABTestManager) (now later : Datetime.t) (name description : string)
    (control_variant : TestVariant.t) (test_variants : list TestVariant.t)
    (primary_metric : string) (significance_level : SignificanceLevel) :
  exists test mgr',
    create_ab_test E mgr now name description control_variant test_variants
      primary_metric significance_level
    = Some (generate_test_id name now, mgr')
    /\ active_tests mgr' !! generate_test_id name now = Some test
    /\ ABTest.control_variant test = control_variant
    /\ ABTest.test_variants test = test_variants
    /\ (fst (start_test mgr' later (generate_test_id name now)) = true
        <-> Qlt_bool (1 # 100) (Qabs (total_allocation test - 1)) = false).
Proof.
  destruct (create_ab_test_stores E mgr now name description control_variant test_variants
              primary_metric significance_level) as (n & Hn & Hc).
  eexists. eexists. split; [exact Hc|].
  split; [cbn; apply lookup_insert_eq|].
  split; [reflexivity|]. split; [reflexivity|].
  unfold Qlt_bool. rewrite negb_false_iff, Qle_bool_iff.
  split.
  - intros Hok. apply start_test_true_inv in Hok as (t & Ht & _ & Hv).
    cbn [active_tests set_active_tests] in Ht. rewrite lookup_insert_eq in Ht.
    injection Ht as <-. apply validate_test_configuration_iff in Hv. apply Hv.
  - intros Hsum. erewrite start_test_accepts; [reflexivity | cbn; apply lookup_insert_eq | reflexivity |].
    apply validate_test_configuration_iff. repeat split; [exact Hsum | cbn; lia | cbn; lia].
Qed.

(** X4. A second [start_test] on a started experiment returns [False] and
    changes nothing. *)
Theorem start_test_twice (mgr : ABTestManager) (now later : Datetime.t) (test_id : string) :
  fst (start_test mgr now test_id) = true ->
  start_test (snd (start_test mgr now test_id)) later test_id
  = (false, snd (start_test mgr now test_id)).
Proof.
  intros Hok.
  destruct (start_test_true_inv mgr now test_id Hok) as (test & Hin & Hst & Hval).
  rewrite (start_test_accepts mgr now test_id test Hin Hst Hval). cbn [snd].
  unfold start_test. cbn [active_tests set_active_tests].
  rewrite lookup_insert_eq. reflexivity.
Qed.

(** X5. After [_stop_test] on an id, the id is no longer active: stopping it
    again, starting it and recording an interaction on it all return [False]
    and change nothing. *)
Theorem stopped_test_rejects_operations (E : Externals) (mgr : ABTestManager)
    (now later : Datetime.t) (test_id : string) :
  _stop_test E (snd (_stop_test E mgr now test_id)) later test_id
  = (false, snd (_stop_test E mgr now test_id))
  /\ start_test (snd (_stop_test E mgr now test_id)) later test_id
     = (false, snd (_stop_test E mgr now test_id))
  /\ (forall variant_id visitor_data,
        record_visitor_interaction E (snd (_stop_test E mgr now test_id)) later test_id
          variant_id visitor_data
        = (false, snd (_stop_test E mgr now test_id))).
Proof.
  assert (active_tests (snd (_stop_test E mgr now test_id)) !! test_id = None) as Hgone.
  { destruct (active_tests mgr !! test_id) as [test|] eqn:Hin.
    - destruct (stop_test_found E mgr now test_id test Hin) as (_ & -> & _).
      apply lookup_delete_eq.
    - rewrite stop_test_missing by exact Hin. exact Hin. }
  split; [apply stop_test_missing; exact Hgone|].
  split.
  - unfold start_test. rewrite Hgone. reflexivity.
  - intros variant_id visitor_data.
    unfold record_visitor_interaction. rewrite Hgone. reflexivity.
Qed.

Lemma stopped_config (E : Externals) (now : Datetime.t) (test : ABTest.t) :
  ABTest.test_id (stopped E now test) = ABTest.test_id test
  /\ ABTest.minimum_sample_size (stopped E now test) = ABTest.minimum_sample_size test
  /\ ABTest.minimum_duration_days (stopped E now test) = ABTest.minimum_duration_days test
  /\ ABTest.started_at (stopped E now test) = ABTest.started_at test
  /\ ABTest.ended_at (stopped E now test) = Some now
  /\ ABTest.p_value (stopped E now test) = ABTest.p_value test.
Proof.
  unfold stopped, _generate_test_insights.
  destruct (all_variant_insights E _ _); [|repeat split; reflexivity].
  cbn [ABTest.p_value ABTest.set_ended_at ABTest.set_status].
  destruct (ABTest.p_value test) eqn:Hp; cbn; rewrite ?Hp; repeat split; reflexivity.
Qed.

(** X6. The progress fractions of a status report never exceed 1, and the
    overall progress is the larger of the two. *)
Theorem status_report_progress (now : Datetime.t) (test : ABTest.t) (report : StatusReport) :
  status_report now test = Some report ->
  (sr_progress_visitors report <= 1)%Q
  /\ (sr_progress_time report <= 1)%Q
  /\ (sr_progress_overall report <= 1)%Q
  /\ (sr_progress_visitors report <= sr_progress_overall report)%Q
  /\ (sr_progress_time report <= sr_progress_overall report)%Q
  /\ (0 <= total_visitors test -> 0 < ABTest.minimum_sample_size test ->
      (0 <= sr_progress_visitors report)%Q).
Proof.
  unfold status_report.
  destruct (ABTest.minimum_sample_size test =? 0); [discriminate|].
  set (progress := Qmin _ 1).
  assert (progress <= 1)%Q as Hp by apply Q.le_min_r.
  destruct (match ABTest.started_at test with Some _ => _ | None => _ end)
    as [time_progress|] eqn:Ht; [|discriminate].
  assert (time_progress <= 1)%Q as Htp.
  { destruct (ABTest.started_at test).
    - destruct (_ =? 0) in Ht; [discriminate|]. injection Ht as <-. apply Q.le_min_r.
    - injection Ht as <-. discriminate. }
  intros [= <-]. cbn.
  repeat split; try assumption.
  - apply Q.max_lub; assumption.
  - apply Q.le_max_l.
  - apply Q.le_max_r.
  - intros Hv Hn. subst progress. apply Q.min_glb; [|discriminate].
    apply Qle_shift_div_l.
    + change 0%Q with (inject_Z 0). rewrite <- Zlt_Qlt. exact Hn.
    + rewrite Qmult_0_l. change 0%Q with (inject_Z 0). rewrite <- Zle_Qle. exact Hv.
Qed.

(** ** Sample size, empty arms and ties *)

(** X7. Whatever the power library answers, a sample size that is returned
    is at least 1000; and for an effect size of zero the computation raises
    whenever the [try] block fails (the library call raises, or the baseline
    rate is zero), because the fallback divides by the effect size. *)
Theorem calculate_sample_size_floor (E : Externals) (alpha power effect_size baseline_rate : Q) :
  (forall n, _calculate_sample_size E alpha power effect_size baseline_rate = Some n ->
             1000 <= n)
  /\ ((effect_size == 0)%Q ->
      ttest_power E effect_size power alpha = None \/ (baseline_rate == 0)%Q ->
      _calculate_sample_size E alpha power effect_size baseline_rate = None).
Proof.
  unfold _calculate_sample_size. split.
  - intros n.
    destruct (ttest_power E effect_size power alpha) as [s|];
      [destruct (Qeq_bool baseline_rate 0)|];
      destruct (Qeq_bool effect_size 0); try discriminate; intros [= <-]; lia.
  - intros He Hfail. apply Qeq_bool_iff in He. rewrite He.
    destruct Hfail as [-> | Hb]; [reflexivity|].
    apply Qeq_bool_iff in Hb. rewrite Hb.
    destruct (ttest_power E effect_size power alpha); reflexivity.
Qed.

(** X8. On the conversion rate, an experiment one of whose two arms has no
    visitor is never significant, whatever the chi-square library answers:
    the analyzer records the p-value 1.0 and leaves the winner as it was. *)
Theorem analyze_empty_arm_not_significant (E : Externals) (test : ABTest.t)
    (test_variant : TestVariant.t) :
  ABTest.test_variants test = [test_variant] ->
  ABTest.primary_metric test = "conversion_rate" ->
  TestVariant.visitors (ABTest.control_variant test) = 0
  \/ TestVariant.visitors test_variant = 0 ->
  fst (_analyze_statistical_significance E test) = failed_result
  /\ ABTest.statistical_significance (snd (_analyze_statistical_significance E test)) = false
  /\ ABTest.p_value (snd (_analyze_statistical_significance E test)) = Some 1%Q
  /\ ABTest.winner_variant_id (snd (_analyze_statistical_significance E test))
     = ABTest.winner_variant_id test.
Proof.
  intros Hv Hm Hzero.
  assert (_chi_square_test E (ABTest.control_variant test) test_variant = failed_result)
    as Hchi.
  { unfold _chi_square_test.
    destruct (chi2_contingency E _ _ _ _) as [[chi2 p]|]; [|reflexivity].
    destruct Hzero as [-> | ->]; cbn [Z.eqb orb]; [reflexivity|].
    rewrite orb_true_r. reflexivity. }
  unfold _analyze_statistical_significance. rewrite Hv, Hm, String.eqb_refl.
  cbv zeta. rewrite Hchi. cbn. repeat split; reflexivity.
Qed.

(** X9. The winner rule on the conversion rate: once the result is
    significant, the treatment wins only with a strictly higher stored
    rate; on a tie the control is declared the winner. *)
Theorem analyze_winner_rule (E : Externals) (test : ABTest.t) (test_variant : TestVariant.t) :
  ABTest.test_variants test = [test_variant] ->
  ABTest.primary_metric test = "conversion_rate" ->
  significant (fst (_analyze_statistical_significance E test)) = true ->
  ((TestVariant.conversion_rate (ABTest.control_variant test)
    < TestVariant.conversion_rate test_variant)%Q ->
   ABTest.winner_variant_id (snd (_analyze_statistical_significance E test))
   = Some (TestVariant.variant_id test_variant))
  /\ ((TestVariant.conversion_rate test_variant
       <= TestVariant.conversion_rate (ABTest.control_variant test))%Q ->
      ABTest.winner_variant_id (snd (_analyze_statistical_significance E test))
      = Some (TestVariant.variant_id (ABTest.control_variant test))).
Proof.
  intros Hv Hm. unfold _analyze_statistical_significance.
  rewrite Hv, Hm, String.eqb_refl. cbv zeta.
  cbn [ABTest.primary_metric ABTest.set_effect_size ABTest.set_confidence_interval
       ABTest.set_statistical_significance ABTest.set_p_value].
  rewrite Hm, String.eqb_refl.
  destruct (significant (_chi_square_test E (ABTest.control_variant test) test_variant))
    eqn:Hs; [|cbn [fst]; rewrite Hs; discriminate].
  destruct (Qlt_bool _ _) eqn:Hlt; cbn; intros _; split; intros H; try reflexivity.
  - apply Qlt_bool_iff in Hlt. exfalso. exact (Qlt_not_le _ _ Hlt H).
  - apply Qlt_bool_iff in H. congruence.
Qed.

(** ** Payload differences and insights *)

Lemma dict_get_In (d : dict) (k v : string) :
  In (k, v) d -> is_Some (dict_get d k).
Proof.
  induction d as [|[k' v'] d IH]; intros Hin; [destruct Hin|].
  cbn. destruct (String.eqb k' k) eqn:Hk; [eauto|].
  destruct Hin as [[= -> ->]|Hin]; [rewrite String.eqb_refl in Hk; discriminate|].
  apply IH. exact Hin.
Qed.

Lemma flat_map_all_nil {A B : Type} (f : A -> list B) (l : list A) :
  (forall a, In a l -> f a = []) -> flat_map f l = [].
Proof.
  induction l as [|a l IH]; intros H; [reflexivity|].
  cbn. rewrite (H a) by (left; reflexivity). apply IH.
  intros b Hb. apply H. right. exact Hb.
Qed.

(** X10. A payload compared with itself shows no difference, and comparing
    against an empty control reports every entry of the winner as added. *)
Theorem payload_differences (d : dict) :
  _analyze_content_differences d d = []
  /\ _analyze_design_differences d d = []
  /\ _analyze_content_differences [] d
     = map (fun kv => "Added content element: " +:+ fst kv) d
  /\ _analyze_design_differences [] d
     = map (fun kv => "Added design element: " +:+ fst kv) d.
Proof.
  split; [|split; [|split]].
  - apply flat_map_all_nil. intros [k v] Hin. cbv beta zeta. cbn [fst].
    destruct (dict_get_In d k v Hin) as [w ->]. rewrite String.eqb_refl. reflexivity.
  - apply flat_map_all_nil. intros [k v] Hin. cbv beta zeta. cbn [fst].
    destruct (dict_get_In d k v Hin) as [w ->]. rewrite String.eqb_refl. reflexivity.
  - unfold _analyze_content_differences.
    induction d as [|kv d' IH]; [reflexivity|]. cbn. f_equal; exact IH.
  - unfold _analyze_design_differences.
    induction d as [|kv d' IH]; [reflexivity|]. cbn. f_equal; exact IH.
Qed.

(** X11. Stopping an experiment on which the analyzer never ran (its p-value is
    still [None]): formatting the p-value raises, so the experiment is filed
    as completed with nothing changed but its status and end time, no
    insight and no recommendation being added, and the learning store is
    left as it was. *)
Theorem stop_without_analysis_adds_no_insight (E : Externals) (mgr : ABTestManager)
    (now : Datetime.t) (test_id : string) (test : ABTest.t) :
  active_tests mgr !! test_id = Some test ->
  ABTest.p_value test = None ->
  completed_tests (snd (_stop_test E mgr now test_id)) !! test_id
  = Some (ABTest.set_ended_at (Some now) (ABTest.set_status COMPLETED test))
  /\ learned_patterns (snd (_stop_test E mgr now test_id)) = learned_patterns mgr.
Proof.
  intros Hin Hp.
  destruct (stop_test_found E mgr now test_id test Hin) as (_ & _ & Hc & Hl).
  assert (stopped E now test
          = ABTest.set_ended_at (Some now) (ABTest.set_status COMPLETED test)) as Hs.
  { unfold stopped, _generate_test_insights.
    destruct (all_variant_insights E _ _); [|reflexivity].
    cbn [ABTest.p_value ABTest.set_ended_at ABTest.set_status]. rewrite Hp. reflexivity. }
  rewrite Hc, Hl, Hs, lookup_insert_eq.
  split; [reflexivity|].
  unfold _learn_from_test.
  destruct (negb _); [reflexivity|].
  destruct (find_winner _); [|reflexivity].
  destruct (learn_improvement _ _); cbn [ABTest.p_value ABTest.set_ended_at ABTest.set_status];
    rewrite ?Hp; reflexivity.
Qed.

(** ** What one recorded interaction changes *)

Lemma find_treatment_spec (vs : list TestVariant.t) (variant_id : string) :
  forall (i0 i : nat) (v : TestVariant.t),
    find_treatment vs variant_id i0 = Some (i, v) ->
    exists j, i = (i0 + j)%nat /\ vs !! j = Some v /\ TestVariant.variant_id v = variant_id.
Proof.
  induction vs as [|w vs IH]; intros i0 i v H; [discriminate|].
  cbn in H. destruct (String.eqb (TestVariant.variant_id w) variant_id) eqn:Hw.
  - injection H as <- <-. exists 0%nat. apply String.eqb_eq in Hw.
    repeat split; [lia | exact Hw].
  - destruct (IH _ _ _ H) as (j & -> & Hj & Hid).
    exists (S j). repeat split; [lia | exact Hj | exact Hid].
Qed.

(** The variant found carries the id asked for, and is the arm it is
    said to be. *)
Lemma find_variant_spec (test : ABTest.t) (variant_id : string) (a : arm)
    (v : TestVariant.t) :
  find_variant test variant_id = Some (a, v) ->
  TestVariant.variant_id v = variant_id
  /\ match a with
     | Control => v = ABTest.control_variant test
     | Treatment i => ABTest.test_variants test !! i = Some v
     end.
Proof.
  unfold find_variant.
  destruct (String.eqb _ variant_id) eqn:Hc.
  - intros [= <- <-]. apply String.eqb_eq in Hc. split; [exact Hc | reflexivity].
  - destruct (find_treatment _ _ _) as [[i w]|] eqn:Hf; [|discriminate].
    intros [= <- <-]. destruct (find_treatment_spec _ _ _ _ _ Hf) as (j & -> & Hj & Hid).
    split; [exact Hid | exact Hj].
Qed.

Lemma fold_left_visitors (vs : list TestVariant.t) (acc : Z) :
  fold_left (fun acc v => acc + TestVariant.visitors v) vs acc
  = acc + fold_right Z.add 0 (map TestVariant.visitors vs).
Proof.
  revert acc. induction vs as [|v vs IH]; intros acc; cbn; [lia|].
  rewrite IH. lia.
Qed.

Lemma sum_visitors_insert (vs : list TestVariant.t) (i : nat) (v v' : TestVariant.t) :
  vs !! i = Some v ->
  fold_right Z.add 0 (map TestVariant.visitors (<[i := v']> vs))
  = fold_right Z.add 0 (map TestVariant.visitors vs)
    - TestVariant.visitors v + TestVariant.visitors v'.
Proof.
  revert i. induction vs as [|w vs IH]; intros i Hi; [discriminate|].
  destruct i as [|i].
  - cbn in Hi. injection Hi as ->.
    change (<[0%nat := v']> (v :: vs)) with (v' :: vs). cbn [map fold_right]. lia.
  - change (<[S i := v']> (w :: vs)) with (w :: <[i := v']> vs).
    cbn [map fold_right]. rewrite (IH i Hi). lia.
Qed.

Lemma total_visitors_put_arm (test : ABTest.t) (variant_id : string) (a : arm)
    (v v' : TestVariant.t) :
  find_variant test variant_id = Some (a, v) ->
  total_visitors (put_arm test a v')
  = total_visitors test - TestVariant.visitors v + TestVariant.visitors v'.
Proof.
  intros Hf. destruct (find_variant_spec _ _ _ _ Hf) as (_ & Harm).
  unfold total_visitors. rewrite !fold_left_visitors.
  destruct a as [|i]; cbn.
  - subst v. lia.
  - rewrite (sum_visitors_insert _ _ _ _ Harm). lia.
Qed.

(** What it takes for [record_visitor_interaction] to return [True]. *)
Lemma record_true_inv (E : Externals) (mgr : ABTestManager) (now : Datetime.t)
    (test_id variant_id : string) (visitor_data : VisitorData) :
  fst (record_visitor_interaction E mgr now test_id variant_id visitor_data) = true ->
  exists test a v v',
    active_tests mgr !! test_id = Some test
    /\ ABTest.status test = RUNNING
    /\ find_variant test variant_id = Some (a, v)
    /\ update_variant v visitor_data now = Returned v'
    /\ snd (record_visitor_interaction E mgr now test_id variant_id visitor_data)
       = _check_early_stopping E
           (set_active_tests (<[test_id := put_arm test a v']> (active_tests mgr)) mgr)
           now test_id.
Proof.
  unfold record_visitor_interaction.
  destruct (active_tests mgr !! test_id) as [test|] eqn:Hin; [|discriminate].
  destruct (TestStatus_eqb (ABTest.status test) RUNNING) eqn:Hst; [|discriminate].
  apply TestStatus_eqb_eq in Hst. cbn [negb].
  destruct (find_variant test variant_id) as [[a v]|] eqn:Hf; [|discriminate].
  destruct (update_variant v visitor_data now) as [v'|v'] eqn:Hup; [|discriminate].
  cbn. intros _. exists test, a, v, v'. repeat split; try assumption; reflexivity.
Qed.

Lemma total_visitors_same_arms (t t' : ABTest.t) :
  ABTest.control_variant t' = ABTest.control_variant t ->
  ABTest.test_variants t' = ABTest.test_variants t ->
  total_visitors t' = total_visitors t.
Proof. intros Hc Hv. unfold total_visitors. rewrite Hc, Hv. reflexivity. Qed.

Lemma stopped_arms (E : Externals) (now : Datetime.t) (test : ABTest.t) :
  ABTest.control_variant (stopped E now test) = ABTest.control_variant test
  /\ ABTest.test_variants (stopped E now test) = ABTest.test_variants test.
Proof.
  unfold stopped.
  destruct (generate_test_insights_fields E
              (ABTest.set_ended_at (Some now) (ABTest.set_status COMPLETED test)))
    as (_ & _ & _ & _ & _ & _ & Hc & Hv).
  rewrite Hc, Hv. split; reflexivity.
Qed.

(** X12. An interaction recorded with [True] counts exactly one visitor: the
    experiment, whether it is still active or has just been stopped by the
    early-stopping check, has one visitor more over all its arms (the arms
    being distinct objects, as the callers of [create_ab_test] build
    them). *)
Theorem record_counts_one_visitor (E : Externals) (mgr : ABTestManager) (now : Datetime.t)
    (test_id variant_id : string) (visitor_data : VisitorData) (test : ABTest.t) :
  active_tests mgr !! test_id = Some test ->
  ABTest.test_id test = test_id ->
  fst (record_visitor_interaction E mgr now test_id variant_id visitor_data) = true ->
  exists test',
    (active_tests (snd (record_visitor_interaction E mgr now test_id variant_id
                          visitor_data)) !! test_id = Some test'
     \/ completed_tests (snd (record_visitor_interaction E mgr now test_id variant_id
                                visitor_data)) !! test_id = Some test')
    /\ total_visitors test' = total_visitors test + 1.
Proof.
  intros Hin Hid Hok.
  destruct (record_true_inv _ _ _ _ _ _ Hok) as (t & a & v & v' & Hin' & _ & Hf & Hup & ->).
  rewrite Hin in Hin'. injection Hin' as <-.
  destruct (update_variant_counters _ _ _ _ Hup) as (Hvis & _).
  pose proof (total_visitors_put_arm test variant_id a v v' Hf) as Htot.
  rewrite Hvis in Htot.
  set (updated := put_arm test a v') in *.
  assert (total_visitors updated = total_visitors test + 1) as Hupd by lia.
  assert (ABTest.test_id updated = test_id) as Hid'
    by (subst updated; destruct a; exact Hid).
  assert (active_tests
            (set_active_tests (<[test_id := updated]> (active_tests mgr)) mgr) !! test_id
          = Some updated) as Hin1 by (cbn; apply lookup_insert_eq).
  remember (set_active_tests (<[test_id := updated]> (active_tests mgr)) mgr) as mgr1.
  unfold _check_early_stopping. rewrite Hin1.
  destruct (_ <? _); [exists updated; split; [left; exact Hin1 | exact Hupd]|].
  destruct (match ABTest.started_at updated with Some _ => _ | None => _ end);
    [exists updated; split; [left; exact Hin1 | exact Hupd]|].
  destruct (analyze_fields E updated) as (Htid & _ & Hc & Hv & _).
  destruct (_analyze_statistical_significance E updated) as [result analysed].
  cbn [snd] in Htid, Hc, Hv.
  pose proof (total_visitors_same_arms updated analysed Hc Hv) as Hsame.
  destruct (significant result).
  - rewrite Htid, Hid'.
    edestruct (stop_test_found E
                 (set_active_tests (<[test_id := analysed]> (active_tests mgr1)) mgr1)
                 now test_id) as (_ & _ & Hcomp & _).
    { cbn. apply lookup_insert_eq. }
    exists (stopped E now analysed). split.
    + right. rewrite Hcomp. apply lookup_insert_eq.
    + destruct (stopped_arms E now analysed) as (Hc' & Hv').
      rewrite (total_visitors_same_arms analysed (stopped E now analysed) Hc' Hv'). lia.
  - exists analysed. split; [left; cbn; apply lookup_insert_eq | lia].
Qed.

(** ** The tally of insights *)


Lemma frequency_get_tally_add (insight : string) (frequency : list (string * Z)) (k : string) :
  frequency_get (tally_add insight frequency) k
  = frequency_get frequency k + (if String.eqb insight k then 1 else 0).
Proof.
  induction frequency as [|[k' n] f IH]; cbn.
  - destruct (String.eqb insight k); lia.
  - destruct (String.eqb k' insight) eqn:Hi; cbn.
    + apply String.eqb_eq in Hi. subst k'.
      destruct (String.eqb insight k); lia.
    + destruct (String.eqb k' k) eqn:Hk; [|exact IH].
      apply String.eqb_eq in Hk. subst k'. rewrite String.eqb_sym, Hi. lia.
Qed.

Lemma keys_tally_add (insight : string) (frequency : list (string * Z)) :
  map fst (tally_add insight frequency)
  = if existsb (String.eqb insight) (map fst frequency)
    then map fst frequency else map fst frequency ++ [insight].
Proof.
  induction frequency as [|[k' n] f IH]; cbn; [reflexivity|].
  rewrite (String.eqb_sym insight k').
  destruct (String.eqb k' insight); cbn; [reflexivity|].
  rewrite IH. destruct (existsb _ _); reflexivity.
Qed.

Lemma existsb_eqb_In (k : string) (l : list string) :
  existsb (String.eqb k) l = true <-> In k l.
Proof.
  rewrite existsb_exists. split.
  - intros (x & Hx & He). apply String.eqb_eq in He. subst. exact Hx.
  - intros H. exists k. split; [exact H | apply String.eqb_refl].
Qed.

(** The tally as an invariant of the loop: distinct keys, each present
    key with a positive frequency, each frequency the number of
    occurrences. *)
Lemma tally_invariant (insights : list string) :
  forall frequency seen,
    NoDup (map fst frequency) ->
    (forall k, In k (map fst frequency) <-> In k seen) ->
    (forall k, frequency_get frequency k = Z.of_nat (count_occ string_dec seen k)) ->
    let result := fold_left (fun f i => tally_add i f) insights frequency in
    NoDup (map fst result)
    /\ (forall k, In k (map fst result) <-> In k (seen ++ insights))
    /\ (forall k, frequency_get result k
                  = Z.of_nat (count_occ string_dec (seen ++ insights) k)).
Proof.
  induction insights as [|i insights IH]; intros f seen Hnd Hkeys Hget;
    cbn [fold_left]; cbv zeta.
  - rewrite List.app_nil_r. auto.
  - replace (seen ++ i :: insights) with ((seen ++ [i]) ++ insights)
      by (rewrite <- app_assoc; reflexivity).
    apply IH.
    + rewrite keys_tally_add. destruct (existsb _ _) eqn:He; [exact Hnd|].
      apply NoDup_app. split; [exact Hnd|]. split; [|apply NoDup_singleton].
      intros x Hx Hin. apply list_elem_of_singleton in Hin. subst x.
      apply list_elem_of_In, existsb_eqb_In in Hx. congruence.
    + intros k. rewrite keys_tally_add, in_app_iff. cbn [In].
      destruct (existsb _ _) eqn:He.
      * apply existsb_eqb_In in He. rewrite Hkeys. split; [auto|].
        intros [H|[<-|[]]]; [exact H | apply Hkeys; exact He].
      * rewrite in_app_iff, Hkeys. cbn [In]. tauto.
    + intros k. rewrite frequency_get_tally_add, Hget, count_occ_app. cbn [count_occ].
      destruct (string_dec i k) as [->|Hne].
      * rewrite String.eqb_refl. lia.
      * apply String.eqb_neq in Hne. rewrite Hne. lia.
Qed.

Lemma frequency_get_In (frequency : list (string * Z)) (k : string) (n : Z) :
  NoDup (map fst frequency) ->
  (In (k, n) frequency <-> In k (map fst frequency) /\ frequency_get frequency k = n).
Proof.
  induction frequency as [|[k' m] f IH]; intros Hnd; cbn; [tauto|].
  inversion Hnd as [|? ? Hnotin Hnd']; subst. rewrite list_elem_of_In in Hnotin.
  destruct (String.eqb k' k) eqn:Hk.
  - apply String.eqb_eq in Hk. subst k'. split.
    + intros [[= ->]|Hin]; [auto|].
      exfalso. apply Hnotin. apply (in_map fst) in Hin. exact Hin.
    + intros (_ & ->). left. reflexivity.
  - apply String.eqb_neq in Hk. rewrite (IH Hnd'). split.
    + intros [[= ? ?]|(Hin & Hg)]; [congruence | auto].
    + intros ([?|Hin] & Hg); [congruence | auto].
Qed.

(** The tally lists each insight that occurs, once, with the number of
    its occurrences. *)
Lemma tally_counts (insights : list string) :
  NoDup (map fst (tally insights))
  /\ forall k n,
       In (k, n) (tally insights)
       <-> In k insights /\ n = Z.of_nat (count_occ string_dec insights k).
Proof.
  destruct (tally_invariant insights [] [] (NoDup_nil_2)
              (fun k => conj (fun H => H) (fun H => H)) (fun k => eq_refl))
    as (Hnd & Hkeys & Hget).
  cbn [app] in Hkeys, Hget. fold (tally insights) in Hnd, Hkeys, Hget.
  split; [exact Hnd|]. intros k n.
  rewrite (frequency_get_In _ k n Hnd), Hkeys, Hget. split; intros [? ?]; auto.
Qed.

(** ** Sorting by frequency *)


Lemma insert_by_frequency_perm (x : string * Z) (sorted : list (string * Z)) :
  Permutation (insert_by_frequency x sorted) (x :: sorted).
Proof.
  induction sorted as [|y rest IH]; cbn; [reflexivity|].
  destruct (snd x <=? snd y); [|reflexivity].
  rewrite IH. apply perm_swap.
Qed.

Lemma insert_by_frequency_sorted (x : string * Z) (sorted : list (string * Z)) :
  StronglySorted by_decreasing_frequency sorted ->
  StronglySorted by_decreasing_frequency (insert_by_frequency x sorted).
Proof.
  induction sorted as [|y rest IH]; intros Hs; cbn.
  - repeat constructor.
  - inversion Hs as [|? ? Hrest Hall]; subst.
    destruct (snd x <=? snd y) eqn:Hle.
    + apply Z.leb_le in Hle. constructor; [apply IH; exact Hrest|].
      rewrite insert_by_frequency_perm. constructor; [exact Hle | exact Hall].
    + apply Z.leb_gt in Hle. constructor; [exact Hs|].
      constructor; [unfold by_decreasing_frequency; lia|].
      eapply Forall_impl; [exact Hall|].
      unfold by_decreasing_frequency. intros z Hz. lia.
Qed.

Lemma sorted_by_frequency_spec (items : list (string * Z)) :
  Permutation (sorted_by_frequency items) items
  /\ StronglySorted by_decreasing_frequency (sorted_by_frequency items).
Proof.
  unfold sorted_by_frequency.
  assert (forall acc,
            StronglySorted by_decreasing_frequency acc ->
            Permutation (fold_left (fun s x => insert_by_frequency x s) items acc)
              (acc ++ items)
            /\ StronglySorted by_decreasing_frequency
                 (fold_left (fun s x => insert_by_frequency x s) items acc)) as H.
  { induction items as [|x items IH]; intros acc Hacc; cbn [fold_left].
    - rewrite List.app_nil_r. split; [reflexivity | exact Hacc].
    - destruct (IH (insert_by_frequency x acc) (insert_by_frequency_sorted x acc Hacc))
        as (Hp & Hs).
      split; [|exact Hs].
      rewrite Hp, insert_by_frequency_perm. apply Permutation_middle. }
  apply (H [] (SSorted_nil _)).
Qed.

(** X13. The [top_patterns] of the recommendations: every insight of the
    records considered appears exactly once, with the number of its
    occurrences, and the list is in order of decreasing frequency. *)
Theorem top_patterns_sorted_counts (mgr : ABTestManager) :
  NoDup (map fst (top_patterns mgr))
  /\ (forall k n,
        In (k, n) (top_patterns mgr)
        <-> In k (success_insights mgr)
            /\ n = Z.of_nat (count_occ string_dec (success_insights mgr) k))
  /\ StronglySorted by_decreasing_frequency (top_patterns mgr).
Proof.
  unfold top_patterns.
  destruct (sorted_by_frequency_spec (tally (success_insights mgr))) as (Hp & Hs).
  destruct (tally_counts (success_insights mgr)) as (Hnd & Hin).
  split; [|split; [|exact Hs]].
  - assert (map fst (sorted_by_frequency (tally (success_insights mgr)))
            ≡ₚ map fst (tally (success_insights mgr))) as Hpm
      by (apply Permutation_map; exact Hp).
    rewrite Hpm. exact Hnd.
  - intros k n. rewrite <- Hin. split; apply Permutation_in; [exact Hp | symmetry; exact Hp].
Qed.

(** X14. [get_optimization_recommendations] always returns between one and
    seven recommendations. *)
Theorem recommendations_between_one_and_seven (mgr : ABTestManager)
    (current_variant : TestVariant.t) (target_metric : string) :
  (1 <= length (get_optimization_recommendations mgr current_variant target_metric) <= 7)%nat.
Proof.
  unfold get_optimization_recommendations.
  set (f := fun pf : string * Z => if 2 <=? snd pf then _ else []).
  assert (forall l, length (flat_map f l) <= length l)%nat as Hflat.
  { induction l as [|x l IH]; cbn; [lia|].
    rewrite length_app. subst f. cbn. destruct (2 <=? snd x); cbn; lia. }
  pose proof (Hflat (firstn 5 (top_patterns mgr))) as H5.
  rewrite length_firstn in H5.
  cbv zeta.
  set (r := (flat_map f _ ++ _) ++ _).
  assert (length r <= 7)%nat as Hr.
  { subst r. rewrite !length_app.
    destruct (Qlt_bool (7 # 10) _), (Qlt_bool _ (3 # 10)); cbn [length]; lia. }
  destruct (length r =? 0)%nat eqn:H0.
  - apply Nat.eqb_eq in H0. rewrite length_app, H0. cbn. lia.
  - apply Nat.eqb_neq in H0. lia.
Qed.

(** ** The learning summary *)

Lemma Qsum_positive (values : list Q) :
  Forall (fun x => (0 < x)%Q) values -> (0 <= Qsum values)%Q.
Proof.
  induction 1 as [|x l Hx _ IH]; cbn; [discriminate|].
  apply Qlt_le_weak in Hx. change 0%Q with (0 + 0)%Q.
  apply Qplus_le_compat; assumption.
Qed.

(** X15. In the learning summary the significant experiments are at most the
    completed ones, the success rate lies between 0 and 1, the average
    improvement is not negative, and at most ten insights are listed. *)
Theorem learning_summary_bounds (mgr : ABTestManager) (predictor_trained : bool) :
  0 <= successful_tests (get_learning_summary mgr predictor_trained)
    <= total_tests_completed (get_learning_summary mgr predictor_trained)
  /\ (0 <= success_rate (get_learning_summary mgr predictor_trained) <= 1)%Q
  /\ (0 <= average_improvement (get_learning_summary mgr predictor_trained))%Q
  /\ (length (top_insights (get_learning_summary mgr predictor_trained)) <= 10)%nat.
Proof.
  unfold get_learning_summary. cbn.
  set (total := Z.of_nat (size (completed_tests mgr))).
  set (ok := Z.of_nat (length (List.filter _ (map_to_list (completed_tests mgr))))).
  assert (0 <= ok <= total) as Hok.
  { subst ok total. split; [lia|]. apply inj_le.
    rewrite <- length_map_to_list. apply List.filter_length_le. }
  split; [exact Hok|]. split; [|split].
  - destruct (0 <? total) eqn:Ht; [|split; discriminate].
    apply Z.ltb_lt in Ht.
    assert (0 < inject_Z total)%Q as Hpos
      by (change 0%Q with (inject_Z 0); rewrite <- Zlt_Qlt; exact Ht).
    split.
    + apply Qle_shift_div_l; [exact Hpos|]. rewrite Qmult_0_l.
      change 0%Q with (inject_Z 0). rewrite <- Zle_Qle. lia.
    + apply Qle_shift_div_r; [exact Hpos|]. rewrite Qmult_1_l.
      rewrite <- Zle_Qle. lia.
  - set (improvements := List.filter (Qlt_bool 0) _).
    assert (Forall (fun x => (0 < x)%Q) improvements) as Hall.
    { subst improvements. apply List.Forall_forall. intros x Hx.
      apply List.filter_In in Hx as (_ & Hx). apply Qlt_bool_iff. exact Hx. }
    destruct improvements as [|x l] eqn:Himp; [discriminate|].
    apply Qle_shift_div_l.
    + change 0%Q with (inject_Z 0). rewrite <- Zlt_Qlt. cbn [length]. lia.
    + rewrite Qmult_0_l. apply Qsum_positive. exact Hall.
  - rewrite length_firstn. lia.
Qed.

(** ** The API handler *)

(** X16. For a requested level that passes the validator, the level chosen is
    the strictest of 0.01, 0.05 and 0.1 that is not below the request. *)
Theorem api_significance_level_rounds_up (requested : Q) :
  validate_significance requested = true ->
  (requested <= SignificanceLevel_value (api_significance_level requested))%Q
  /\ forall level,
       (requested <= SignificanceLevel_value level)%Q ->
       (SignificanceLevel_value (api_significance_level requested)
        <= SignificanceLevel_value level)%Q.
Proof.
  unfold validate_significance, api_significance_level.
  intros Hv. apply andb_true_iff in Hv as (_ & Hmax). apply Qle_bool_iff in Hmax.
  destruct (Qle_bool requested (1 # 100)) eqn:H1.
  - apply Qle_bool_iff in H1. split; [exact H1|].
    intros []; cbn; intros _; discriminate.
  - apply Qle_bool_false_iff in H1.
    destruct (Qle_bool requested (5 # 100)) eqn:H5.
    + apply Qle_bool_iff in H5. split; [exact H5|].
      intros []; cbn; intros Hl; try discriminate.
      exfalso. exact (Qlt_not_le _ _ H1 Hl).
    + apply Qle_bool_false_iff in H5. split; [exact Hmax|].
      intros []; cbn; intros Hl; try discriminate.
      * exfalso. exact (Qlt_not_le _ _ H1 Hl).
      * exfalso. exact (Qlt_not_le _ _ H5 Hl).
Qed.

Lemma fold_left_allocation (c : Q) (vs : list TestVariant.t) :
  Forall (fun v => (TestVariant.traffic_allocation v == c)%Q) vs ->
  forall acc,
    (fold_left (fun acc v => (acc + TestVariant.traffic_allocation v)%Q) vs acc
     == acc + inject_Z (Z.of_nat (length vs)) * c)%Q.
Proof.
  induction 1 as [|v vs Hv _ IH]; intros acc; cbn [fold_left length].
  - change (inject_Z (Z.of_nat 0)) with 0%Q. ring.
  - rewrite IH, Hv, Nat2Z.inj_succ. unfold Z.succ. rewrite inject_Z_plus.
    change (inject_Z 1) with 1%Q. ring.
Qed.

Lemma api_test_variants_default_allocation (count : nat) (requested : list VariantRequest) :
  Forall (fun r => rq_traffic_allocation r = None) requested ->
  forall i,
    Forall (fun v => (TestVariant.traffic_allocation v
                      == (1 # 2) / inject_Z (Z.of_nat count))%Q)
      (imap (fun j => api_test_variant count (i + j)) requested).
Proof.
  induction 1 as [|r rs Hr _ IH]; intros i; cbn [imap]; constructor.
  - cbn. rewrite Hr. reflexivity.
  - specialize (IH (S i)).
    erewrite imap_ext; [exact IH|]. intros j x _. cbn.
    replace (i + S j)%nat with (S (i + j)) by lia. reflexivity.
Qed.

(** X17. An experiment created through the API with at least one treatment and
    no allocation given (the control gets 0.5, each of the [n] treatments
    [0.5 / n]) has allocations summing to 1 in exact arithmetic, and
    [start_test] accepts it. *)
Theorem api_default_allocations_start (E : Externals) (mgr : ABTestManager)
    (now later : Datetime.t) (test_name test_description : string)
    (control_content control_design : option dict) (test_variants : list VariantRequest)
    (primary_metric : string) (significance_level : Q) :
  test_variants <> [] ->
  Forall (fun r => rq_traffic_allocation r = None) test_variants ->
  exists test_id mgr',
    api_create_ab_test E mgr now test_name test_description control_content control_design
      test_variants primary_metric significance_level
    = Some (test_id, mgr')
    /\ (exists test, active_tests mgr' !! test_id = Some test
                     /\ (total_allocation test == 1)%Q
                     /\ length (ABTest.test_variants test) = length test_variants)
    /\ fst (start_test mgr' later test_id) = true.
Proof.
  intros Hne Hnone. unfold api_create_ab_test.
  destruct (create_ab_test_stores E mgr now test_name test_description
              (api_control_variant control_content control_design)
              (api_test_variants test_variants) primary_metric
              (api_significance_level significance_level)) as (n & Hn & Hc).
  set (test_id := generate_test_id test_name now) in *.
  set (test := new_ab_test test_id now test_name test_description
                 (api_control_variant control_content control_design)
                 (api_test_variants test_variants) primary_metric
                 (api_significance_level significance_level) n) in *.
  assert (total_allocation test == 1)%Q as Hsum.
  { unfold total_allocation. subst test. cbn [ABTest.control_variant ABTest.test_variants new_ab_test].
    rewrite (fold_left_allocation ((1 # 2) / inject_Z (Z.of_nat (length test_variants)))).
    - unfold api_test_variants. rewrite length_imap. cbn.
      field. apply inject_Z_nonzero. destruct test_variants; [congruence | cbn; lia].
    - unfold api_test_variants.
      exact (api_test_variants_default_allocation (length test_variants) test_variants
               Hnone 0). }
  eexists. eexists. split; [exact Hc|].
  assert (active_tests (set_active_tests (<[test_id := test]> (active_tests mgr)) mgr)
            !! test_id = Some test) as Hin by (cbn; apply lookup_insert_eq).
  split.
  - exists test. split; [exact Hin|]. split; [exact Hsum|].
    subst test. cbn [ABTest.test_variants new_ab_test].
    unfold api_test_variants. apply length_imap.
  - erewrite start_test_accepts; [reflexivity | exact Hin | reflexivity |].
    apply validate_test_configuration_iff.
    split; [rewrite Hsum; vm_compute; discriminate | subst test; cbn; lia].
Qed.

(** ** Invariants of reachable managers *)

Lemma t_test_significant_numeric (E : Externals) (control test_variant : TestVariant.t)
    (metric : string) :
  significant (_t_test E control test_variant metric) = true ->
  is_Some (getattr control metric) /\ is_Some (getattr test_variant metric).
Proof.
  unfold _t_test.
  destruct (getattr control metric), (getattr test_variant metric);
    try discriminate; eauto.
Qed.

(** After the analyzer ran on an experiment with one treatment, the
    experiment's verdict and p-value are those of the returned result. *)
Lemma analyze_writes_result (E : Externals) (test : ABTest.t) (v : TestVariant.t) :
  ABTest.test_variants test = [v] ->
  ABTest.statistical_significance (snd (_analyze_statistical_significance E test))
  = significant (fst (_analyze_statistical_significance E test))
  /\ ABTest.p_value (snd (_analyze_statistical_significance E test))
     = Some (res_p_value (fst (_analyze_statistical_significance E test))).
Proof.
  intros Hv. unfold _analyze_statistical_significance. rewrite Hv.
  name_result test v.
  destruct (significant result) eqn:Hs; [|cbn; rewrite Hs; split; reflexivity].
  cbn [ABTest.primary_metric ABTest.set_effect_size ABTest.set_confidence_interval
       ABTest.set_statistical_significance ABTest.set_p_value].
  destruct (String.eqb (ABTest.primary_metric test) "conversion_rate") eqn:Hm.
  - destruct (Qlt_bool _ _); cbn; rewrite Hs; split; reflexivity.
  - assert (result = _t_test E (ABTest.control_variant test) v (ABTest.primary_metric test))
      as Hr by (subst result; rewrite ?Hm; reflexivity).
    rewrite Hr in Hs. destruct (t_test_significant_numeric _ _ _ _ Hs) as [[cm ->] [tm ->]].
    rewrite <- Hr in Hs.
    destruct (Qlt_bool _ _); cbn; rewrite Hs; split; reflexivity.
Qed.

Lemma analyze_not_single (E : Externals) (test : ABTest.t) :
  length (ABTest.test_variants test) <> 1%nat ->
  _analyze_statistical_significance E test = (failed_result, test).
Proof.
  intros Hlen. unfold _analyze_statistical_significance.
  destruct (ABTest.test_variants test) as [|v [|w vs]]; cbn [length] in Hlen;
    [reflexivity | congruence | reflexivity].
Qed.

(** On an undecided experiment the analyzer either leaves it undecided or
    gives it a backed verdict, according to the result it returns. *)
Lemma analyze_undecided (E : Externals) (test : ABTest.t) :
  undecided test ->
  (significant (fst (_analyze_statistical_significance E test)) = false ->
   undecided (snd (_analyze_statistical_significance E test)))
  /\ (significant (fst (_analyze_statistical_significance E test)) = true ->
      ABTest.statistical_significance (snd (_analyze_statistical_significance E test)) = true
      /\ verdict_backed (snd (_analyze_statistical_significance E test))).
Proof.
  intros (Hsig & Hwin).
  destruct (ABTest.test_variants test) as [|v [|w vs]] eqn:Hv.
  1, 3: rewrite analyze_not_single by (rewrite Hv; cbn; lia);
        cbn [fst snd]; split; [intros _; split; assumption | discriminate].
  destruct (analyze_writes_result E test v Hv) as (Hw & Hp).
  split.
  - intros Hs. split; [rewrite Hw; exact Hs|].
    rewrite (analyze_not_significant_keeps_winner E test Hs). exact Hwin.
  - intros Hs. split; [rewrite Hw; exact Hs|]. intros _.
    split; [apply analyze_significant_sets_winner; exact Hs|].
    eexists. split; [exact Hp|].
    apply analyze_significant_iff_below_threshold. exact Hs.
Qed.

(** The record that [_learn_from_test] may append. *)
Lemma learn_record_spec (mgr : ABTestManager) (now : Datetime.t) (test : ABTest.t) :
  learned_patterns (_learn_from_test mgr now test) = learned_patterns mgr
  \/ exists record p,
       learned_patterns (_learn_from_test mgr now test) = learned_patterns mgr ++ [record]
       /\ ABTest.statistical_significance test = true
       /\ ABTest.p_value test = Some p
       /\ source_test_id record = ABTest.test_id test
       /\ update_id record = "learn_" +:+ ABTest.test_id test
       /\ confidence_score record = (1 - p)%Q.
Proof.
  unfold _learn_from_test.
  destruct (ABTest.statistical_significance test); cbn [negb]; [|left; reflexivity].
  destruct (find_winner test); [|left; reflexivity].
  destruct (learn_improvement _ _); [|left; reflexivity].
  destruct (ABTest.p_value test) as [p|]; [|left; reflexivity].
  right. eexists. exists p. repeat split; reflexivity.
Qed.

(** Filing an experiment as completed keeps a sound manager sound,
    provided the experiment is well formed and its verdict, if any, is
    backed. *)
Lemma sound_stop (E : Externals) (mgr0 mgr1 : ABTestManager) (now : Datetime.t)
    (id : string) (test : ABTest.t) :
  manager_sound mgr0 ->
  active_tests mgr1 = <[id := test]> (active_tests mgr0) ->
  completed_tests mgr1 = completed_tests mgr0 ->
  learned_patterns mgr1 = learned_patterns mgr0 ->
  well_formed id test ->
  verdict_backed test ->
  manager_sound (snd (_stop_test E mgr1 now id)).
Proof.
  intros (Hact & Hcomp & Hlearn) Ha Hc Hl (Hid & _ & _ & Hn & Hd) Hbacked.
  assert (active_tests mgr1 !! id = Some test) as Hin
    by (rewrite Ha; apply lookup_insert_eq).
  destruct (stop_test_found E mgr1 now id test Hin) as (_ & Ha' & Hc' & Hl').
  destruct (stopped_fields E now test) as (Hst & Hw & Hsig).
  destruct (stopped_config E now test) as (Hid' & Hn' & Hd' & _ & Hend & Hp).
  assert (completed_closed id (stopped E now test)) as Hclosed.
  { split; [rewrite Hid'; exact Hid|]. split; [exact Hst|].
    split; [rewrite Hend; eauto|].
    split; [rewrite Hn'; exact Hn|]. split; [rewrite Hd'; exact Hd|].
    unfold verdict_backed. rewrite Hw, Hsig, Hp. exact Hbacked. }
  split; [|split].
  - intros id' t' H. rewrite Ha', Ha in H. apply lookup_delete_Some in H as (Hne & H).
    rewrite lookup_insert_ne in H by exact Hne. exact (Hact _ _ H).
  - intros id' t'. rewrite Hc', Hc.
    destruct (decide (id = id')) as [<-|Hne].
    + rewrite lookup_insert_eq. intros [= <-]. exact Hclosed.
    + rewrite lookup_insert_ne by exact Hne. apply Hcomp.
  - intros record Hrec. rewrite Hl' in Hrec.
    assert (forall r, In r (learned_patterns mgr0) ->
              record_sound (snd (_stop_test E mgr1 now id)) r) as Hold.
    { intros r Hr. destruct (Hlearn r Hr) as (Hsome & Hrest).
      split; [|exact Hrest]. rewrite Hc', Hc.
      destruct (decide (id = source_test_id r)) as [Heq|Hne];
        [rewrite <- Heq, lookup_insert_eq; eauto
        | rewrite lookup_insert_ne by exact Hne; exact Hsome]. }
    destruct (learn_record_spec mgr1 now (stopped E now test))
      as [Hsame | (r & p & Hnew & Hs & Hpv & Hsrc & Huid & Hconf)].
    + rewrite Hsame, Hl in Hrec. apply Hold. exact Hrec.
    + rewrite Hnew, Hl in Hrec. apply in_app_iff in Hrec as [Hrec | [<- | []]];
        [apply Hold; exact Hrec|].
      rewrite Hid' in Hsrc, Huid. rewrite Hsig in Hs. rewrite Hp in Hpv.
      destruct (Hbacked Hs) as (_ & p' & Hp' & Hlt).
      rewrite Hpv in Hp'. injection Hp' as <-.
      split; [rewrite Hsrc, Hid, Hc', lookup_insert_eq; eauto|].
      split; [rewrite Hsrc; exact Huid|].
      rewrite Hconf. unfold significance_threshold in Hlt. lra.
Qed.

Lemma sound_insert (mgr : ABTestManager) (key : string) (test : ABTest.t) :
  manager_sound mgr ->
  well_formed key test ->
  undecided test ->
  manager_sound (set_active_tests (<[key := test]> (active_tests mgr)) mgr).
Proof.
  intros (Hact & Hcomp & Hlearn) Hwf Hund. split; [|split].
  - intros id t. cbn. destruct (decide (key = id)) as [<-|Hne].
    + rewrite lookup_insert_eq. intros [= <-]. split; assumption.
    + rewrite lookup_insert_ne by exact Hne. apply Hact.
  - exact Hcomp.
  - exact Hlearn.
Qed.

Lemma sound_check (E : Externals) (mgr : ABTestManager) (now : Datetime.t) (key : string) :
  manager_sound mgr -> manager_sound (_check_early_stopping E mgr now key).
Proof.
  intros Hsound. unfold _check_early_stopping.
  destruct (active_tests mgr !! key) as [test|] eqn:Hin; [|exact Hsound].
  destruct (_ <? _); [exact Hsound|].
  destruct (match ABTest.started_at test with Some _ => _ | None => _ end); [exact Hsound|].
  destruct (proj1 Hsound key test Hin) as (Hwf & Hund).
  pose proof (well_formed_analyze E key test Hwf) as Hwf'.
  destruct (analyze_undecided E test Hund) as (Hno & Hyes).
  destruct (_analyze_statistical_significance E test) as [result test'].
  cbn [fst snd] in *.
  destruct (significant result).
  - rewrite (proj1 Hwf').
    eapply (sound_stop E mgr); try reflexivity; [exact Hsound | exact Hwf'|].
    apply Hyes. reflexivity.
  - apply sound_insert; [exact Hsound | exact Hwf' | apply Hno; reflexivity].
Qed.

Lemma sound_step (E : Externals) (mgr : ABTestManager) (now : Datetime.t) (c : command) :
  manager_sound mgr -> manager_sound (run_command E mgr now c).
Proof.
  intros Hsound.
  destruct c as [name description control tvs pm sl | id | id vid d | id];
    cbn [run_command].
  - destruct (create_ab_test_stores E mgr now name description control tvs pm sl)
      as (n & Hn & ->).
    apply sound_insert; [exact Hsound | | split; reflexivity].
    repeat split; [left; reflexivity | discriminate | exact Hn].
  - unfold start_test.
    destruct (active_tests mgr !! id) as [test|] eqn:Hin; [|exact Hsound].
    destruct (negb _); [exact Hsound|].
    destruct (negb _); [exact Hsound|].
    destruct (proj1 Hsound id test Hin) as ((Hid & _ & _ & Hn & Hd) & Hund).
    cbn [snd]. apply sound_insert; [exact Hsound | | exact Hund].
    repeat split; cbn; eauto.
  - unfold record_visitor_interaction.
    destruct (active_tests mgr !! id) as [test|] eqn:Hin; [|exact Hsound].
    destruct (negb _); [exact Hsound|].
    destruct (find_variant test vid) as [[a variant]|]; [|exact Hsound].
    destruct (proj1 Hsound id test Hin) as (Hwf & Hund).
    assert (manager_sound
              (set_active_tests
                 (<[id := put_arm test a (outcome_value (update_variant variant d now))]>
                    (active_tests mgr)) mgr)) as Hsound'.
    { apply sound_insert; [exact Hsound | apply well_formed_put_arm; exact Hwf|].
      destruct a; exact Hund. }
    destruct (outcome_ok _); cbn [snd]; [apply sound_check|]; exact Hsound'.
  - destruct (active_tests mgr !! id) as [test|] eqn:Hin.
    + destruct (proj1 Hsound id test Hin) as (Hwf & (Hsig & _)).
      eapply (sound_stop E mgr mgr now id test); try reflexivity;
        [exact Hsound | symmetry; apply insert_id; exact Hin | exact Hwf|].
      intros Hs. congruence.
    + rewrite stop_test_missing by exact Hin. exact Hsound.
Qed.

Lemma reachable_manager_sound (E : Externals) (mgr : ABTestManager) :
  reachable E mgr -> manager_sound mgr.
Proof.
  induction 1 as [|mgr now c _ IH].
  - split; [|split].
    + intros id test H. cbn in H. rewrite lookup_empty in H. discriminate.
    + intros id test H. cbn in H. rewrite lookup_empty in H. discriminate.
    + intros record [].
  - apply sound_step. exact IH.
Qed.

(** X18. In every manager reached through the operations, each learning record
    names an experiment of the completed registry, has the update id
    "learn_" followed by that experiment's id, and has a confidence score
    of at least 0.95. *)
Theorem reachable_learning_records_sound (E : Externals) (mgr : ABTestManager)
    (record : LearningUpdate) :
  reachable E mgr ->
  In record (learned_patterns mgr) ->
  is_Some (completed_tests mgr !! source_test_id record)
  /\ update_id record = "learn_" +:+ source_test_id record
  /\ (95 # 100 <= confidence_score record)%Q.
Proof.
  intros Hreach Hin.
  destruct (reachable_manager_sound E mgr Hreach) as (_ & _ & Hlearn).
  destruct (Hlearn record Hin) as (Hsrc & Hid & Hconf).
  repeat split; [exact Hsrc | exact Hid | apply Qlt_le_weak; exact Hconf].
Qed.

(** X19. In every manager reached through the operations, an active experiment
    is planned or running and carries no verdict (not significant, no
    winner), and a completed experiment is filed under its own id with
    status [COMPLETED], an end time, and, when it is significant, a winner
    and a p-value below 0.05. *)
Theorem reachable_registries_consistent (E : Externals) (mgr : ABTestManager) :
  reachable E mgr ->
  (forall id test,
     active_tests mgr !! id = Some test ->
     (ABTest.status test = PLANNING \/ ABTest.status test = RUNNING)
     /\ ABTest.statistical_significance test = false
     /\ ABTest.winner_variant_id test = None)
  /\ (forall id test,
        completed_tests mgr !! id = Some test ->
        ABTest.test_id test = id
        /\ ABTest.status test = COMPLETED
        /\ is_Some (ABTest.ended_at test)
        /\ (ABTest.statistical_significance test = true ->
            is_Some (ABTest.winner_variant_id test)
            /\ exists p, ABTest.p_value test = Some p /\ (p < 5 # 100)%Q)).
Proof.
  intros Hreach.
  destruct (reachable_manager_sound E mgr Hreach) as (Hact & Hcomp & _).
  split.
  - intros id test Hin. destruct (Hact id test Hin) as ((_ & Hst & _) & Hsig & Hwin).
    repeat split; assumption.
  - intros id test Hin.
    destruct (Hcomp id test Hin) as (Hid & Hst & Hend & _ & _ & Hbacked).
    repeat split; [exact Hid | exact Hst | exact Hend | apply Hbacked; assumption
                  | apply Hbacked; assumption].
Qed.

(** ** One operation, one experiment *)

Lemma check_other_ids (E : Externals) (mgr : ABTestManager) (now : Datetime.t)
    (key id' : string) :
  (forall test, active_tests mgr !! key = Some test -> ABTest.test_id test = key) ->
  id' <> key ->
  active_tests (_check_early_stopping E mgr now key) !! id' = active_tests mgr !! id'
  /\ completed_tests (_check_early_stopping E mgr now key) !! id'
     = completed_tests mgr !! id'.
Proof.
  intros Hkey Hne. unfold _check_early_stopping.
  destruct (active_tests mgr !! key) as [test|] eqn:Hin; [|split; reflexivity].
  destruct (_ <? _); [split; reflexivity|].
  destruct (match ABTest.started_at test with Some _ => _ | None => _ end);
    [split; reflexivity|].
  destruct (analyze_fields E test) as (Hid & _).
  destruct (_analyze_statistical_significance E test) as [result test'].
  cbn [snd] in Hid.
  destruct (significant result).
  - rewrite Hid, (Hkey test eq_refl).
    edestruct (stop_test_found E
                 (set_active_tests (<[key := test']> (active_tests mgr)) mgr) now key)
      as (_ & Ha & Hc & _).
    { cbn. apply lookup_insert_eq. }
    rewrite Ha, Hc. cbn.
    rewrite lookup_delete_ne, !lookup_insert_ne by congruence. split; reflexivity.
  - cbn. rewrite lookup_insert_ne by congruence. split; reflexivity.
Qed.

Lemma command_other_ids (E : Externals) (mgr : ABTestManager)
    (now : Datetime.t) (c : command) (id' : string) :
  (forall id test, active_tests mgr !! id = Some test -> ABTest.test_id test = id) ->
  id' <> command_target now c ->
  active_tests (run_command E mgr now c) !! id' = active_tests mgr !! id'
  /\ completed_tests (run_command E mgr now c) !! id' = completed_tests mgr !! id'.
Proof.
  intros Hkeys Hne.
  destruct c as [name description control tvs pm sl | id | id vid d | id];
    cbn [run_command command_target] in *.
  - destruct (create_ab_test_stores E mgr now name description control tvs pm sl)
      as (n & _ & ->).
    cbn. rewrite lookup_insert_ne by congruence. split; reflexivity.
  - unfold start_test.
    destruct (active_tests mgr !! id) as [test|]; [|split; reflexivity].
    destruct (negb _); [split; reflexivity|].
    destruct (negb _); [split; reflexivity|].
    cbn. rewrite lookup_insert_ne by congruence. split; reflexivity.
  - unfold record_visitor_interaction.
    destruct (active_tests mgr !! id) as [test|] eqn:Hin; [|split; reflexivity].
    destruct (negb _); [split; reflexivity|].
    destruct (find_variant test vid) as [[a variant]|]; [|split; reflexivity].
    set (updated := put_arm test a (outcome_value (update_variant variant d now))).
    assert (ABTest.test_id updated = id) as Hid
      by (subst updated; destruct a; exact (Hkeys id test Hin)).
    destruct (outcome_ok _); cbn [snd].
    + destruct (check_other_ids E
                  (set_active_tests (<[id := updated]> (active_tests mgr)) mgr) now id id')
        as (Ha & Hc); [|exact Hne|].
      * cbn. rewrite lookup_insert_eq. intros t [= <-]. exact Hid.
      * rewrite Ha, Hc. cbn. rewrite lookup_insert_ne by congruence. split; reflexivity.
    + cbn. rewrite lookup_insert_ne by congruence. split; reflexivity.
  - destruct (active_tests mgr !! id) as [test|] eqn:Hin.
    + destruct (stop_test_found E mgr now id test Hin) as (_ & Ha & Hc & _).
      rewrite Ha, Hc, lookup_delete_ne, lookup_insert_ne by congruence.
      split; reflexivity.
    + rewrite stop_test_missing by exact Hin. split; reflexivity.
Qed.

Lemma reachable_keys (E : Externals) (mgr : ABTestManager) :
  reachable E mgr ->
  forall id test, active_tests mgr !! id = Some test -> ABTest.test_id test = id.
Proof.
  intros Hreach id test Hin.
  destruct (reachable_manager_sound E mgr Hreach) as (Hact & _).
  destruct (Hact id test Hin) as ((Hid & _) & _). exact Hid.
Qed.

(** X20. In a manager reached through the operations, no [TestVariant]
    object being shared between two experiments (each creation is given
    objects of its own, as the [/testing/create] handler builds them), an
    operation changes the registries at one id only, the id it is given (for
    a creation, the id it generates): every other experiment, active or
    completed, is left exactly as it was. *)
Theorem command_touches_one_experiment (E : Externals) (mgr : ABTestManager)
    (now : Datetime.t) (c : command) (id' : string) :
  reachable E mgr ->
  id' <> command_target now c ->
  active_tests (run_command E mgr now c) !! id' = active_tests mgr !! id'
  /\ completed_tests (run_command E mgr now c) !! id' = completed_tests mgr !! id'.
Proof.
  intros Hreach Hne.
  apply command_other_ids; [exact (reachable_keys E mgr Hreach) | exact Hne].
Qed.

(** X21. A completed experiment is frozen: in a manager reached through the
    operations in which no id is filed in both registries and no
    [TestVariant] object is shared between two experiments (each creation is
    given objects of its own), no operation changes an entry of the
    completed registry. *)
Theorem completed_experiment_is_frozen (E : Externals) (mgr : ABTestManager)
    (now : Datetime.t) (c : command) (id : string) (test : ABTest.t) :
  reachable E mgr ->
  registries_disjoint mgr ->
  completed_tests mgr !! id = Some test ->
  completed_tests (run_command E mgr now c) !! id = Some test.
Proof.
  intros Hreach Hdis Hin.
  pose proof (reachable_keys E mgr Hreach) as Hkeys.
  assert (active_tests mgr !! id = None) as Hout
    by (destruct (Hdis id) as [H|H]; [exact H | congruence]).
  destruct (decide (id = command_target now c)) as [Heq|Hne].
  - destruct c as [name description control tvs pm sl | id0 | id0 vid d | id0];
      cbn [run_command command_target] in *; subst.
    + destruct (create_ab_test_stores E mgr now name description control tvs pm sl)
        as (n & _ & ->). exact Hin.
    + unfold start_test. rewrite Hout. exact Hin.
    + unfold record_visitor_interaction. rewrite Hout. exact Hin.
    + rewrite stop_test_missing by exact Hout. exact Hin.
  - destruct (command_other_ids E mgr now c id Hkeys Hne) as (_ & ->).
    exact Hin.
Qed.

(** ** The status query on reachable managers *)

Lemma status_report_answers (now : Datetime.t) (test : ABTest.t) :
  ABTest.minimum_sample_size test <> 0 ->
  ABTest.minimum_duration_days test <> 0 ->
  exists report,
    status_report now test = Some report
    /\ sr_test_id report = ABTest.test_id test
    /\ sr_status report = TestStatus_value (ABTest.status test).
Proof.
  intros Hn Hd. unfold status_report.
  apply Z.eqb_neq in Hn, Hd. rewrite Hn.
  destruct (ABTest.started_at test); rewrite ?Hd; eexists; repeat split; reflexivity.
Qed.


(** ** When an interaction is recorded *)

Lemma update_variant_returns_iff (variant : TestVariant.t) (visitor_data : VisitorData)
    (now : Datetime.t) :
  outcome_ok (update_variant variant visitor_data now) = true
  <-> TestVariant.visitors variant <> -1
      \/ (default false (vd_converted visitor_data) = false
          /\ vd_revenue visitor_data = None).
Proof.
  unfold update_variant. cbn [outcome_bind].
  destruct (TestVariant.visitors variant + 1 =? 0) eqn:Hv.
  - apply Z.eqb_eq in Hv as Hm.
    destruct (default false (vd_converted visitor_data)); project_setters.
    + rewrite Hv. cbn. split; [discriminate | intros [Hne | [Hf _]]; [lia | discriminate]].
    + destruct (vd_time_on_page visitor_data), (vd_bounce_rate visitor_data),
        (vd_scroll_depth visitor_data), (vd_revenue visitor_data);
        cbn [outcome_bind]; project_setters; rewrite ?Hv; cbn;
        (split; [intros H; try discriminate; right; split; reflexivity
                | intros [Hne | [_ Hr]]; [lia | try discriminate; reflexivity]]).
  - apply Z.eqb_neq in Hv as Hm.
    destruct (default false (vd_converted visitor_data)); project_setters; rewrite ?Hv;
      cbn [outcome_bind];
      destruct (vd_time_on_page visitor_data), (vd_bounce_rate visitor_data),
        (vd_scroll_depth visitor_data), (vd_revenue visitor_data);
      cbn [outcome_bind]; project_setters; rewrite ?Hv; cbn;
      (split; [intros _; left; lia | reflexivity]).
Qed.

Lemma record_true_iff (E : Externals) (mgr : ABTestManager) (now : Datetime.t)
    (test_id variant_id : string) (visitor_data : VisitorData) :
  fst (record_visitor_interaction E mgr now test_id variant_id visitor_data) = true
  <-> exists test a variant,
        active_tests mgr !! test_id = Some test
        /\ ABTest.status test = RUNNING
        /\ find_variant test variant_id = Some (a, variant)
        /\ (TestVariant.visitors variant <> -1
            \/ (default false (vd_converted visitor_data) = false
                /\ vd_revenue visitor_data = None)).
Proof.
  unfold record_visitor_interaction.
  destruct (active_tests mgr !! test_id) as [test|] eqn:Hin;
    [|split; [discriminate | intros (t & a & v & H & _); discriminate]].
  destruct (TestStatus_eqb (ABTest.status test) RUNNING) eqn:Hst; cbn [negb].
  - apply TestStatus_eqb_eq in Hst.
    destruct (find_variant test variant_id) as [[a variant]|] eqn:Hf.
    + pose proof (update_variant_returns_iff variant visitor_data now) as Hok.
      destruct (outcome_ok (update_variant variant visitor_data now)); cbn [fst].
      * split; [intros _ | reflexivity].
        exists test, a, variant. repeat split; try assumption. apply Hok. reflexivity.
      * split; [discriminate|].
        intros (t & a' & v' & [= <-] & _ & Hf' & Hc).
        rewrite Hf in Hf'. injection Hf' as <- <-. apply Hok. exact Hc.
    + split; [discriminate | intros (t & a & v & [= <-] & _ & H & _); congruence].
  - split; [discriminate|].
    intros (t & a & v & [= <-] & Hr & _). apply TestStatus_eqb_eq in Hr. congruence.
Qed.


(** ** The shape of a generated id *)

Lemma hex_digit_is_lower_hex (d : Z) :
  0 <= d < 16 -> is_lower_hex (MD5.hex_digit d) = true.
Proof.
  intros Hd.
  assert (d = 0 \/ d = 1 \/ d = 2 \/ d = 3 \/ d = 4 \/ d = 5 \/ d = 6 \/ d = 7 \/ d = 8
          \/ d = 9 \/ d = 10 \/ d = 11 \/ d = 12 \/ d = 13 \/ d = 14 \/ d = 15) as H by lia.
  repeat (destruct H as [-> | H]; [reflexivity|]). subst d. reflexivity.
Qed.

Lemma byte_digits (x k : Z) :
  0 <= (Z.shiftr x k mod 256) / 16 < 16 /\ 0 <= (Z.shiftr x k mod 256) mod 16 < 16.
Proof.
  pose proof (Z.mod_pos_bound (Z.shiftr x k) 256 ltac:(lia)) as Hb.
  split; [|apply Z.mod_pos_bound; lia].
  split; [apply Z.div_pos; lia | apply Z.div_lt_upper_bound; lia].
Qed.

(** X24. Every generated id is "test_" followed by eight lowercase hexadecimal
    digits: there are at most 2^32 different ids, whatever the names and the
    clock readings. *)
Theorem generate_test_id_format (name : string) (now : Datetime.t) :
  exists digits,
    generate_test_id name now = "test_" +:+ digits
    /\ String.length digits = 8%nat
    /\ Forall (fun a => is_lower_hex a = true) (list_ascii_of_string digits).
Proof.
  unfold generate_test_id, MD5.hexdigest, MD5.digest.
  cbv zeta.
  destruct (fold_left MD5.process_block _ MD5.init_state) as [A B C D].
  eexists. split; [reflexivity|].
  cbn [MD5.le_bytes seq map app MD5.hex_of_bytes String.substring String.length
       list_ascii_of_string].
  split; [reflexivity|].
  repeat constructor; apply hex_digit_is_lower_hex; apply byte_digits.
Qed.

(** ** Instances on the sample runs *)

Lemma reachable_record_many (E : Externals) (now : Datetime.t)
    (test_id variant_id : string) (visitor_data : VisitorData) (n : nat) :
  forall mgr, reachable E mgr ->
              reachable E (record_many E mgr now test_id variant_id visitor_data n).
Proof.
  induction n as [|n IH]; intros mgr Hreach; cbn [record_many]; [exact Hreach|].
  apply IH.
  exact (reachable_step E mgr now (RecordInteraction test_id variant_id visitor_data) Hreach).
Qed.

Lemma reachable_sample_experiment (E : Externals) (now : Datetime.t)
    (significance_level : SignificanceLevel) (cv cc tv tc : nat) :
  match sample_experiment E now significance_level cv cc tv tc with
  | Some (_, mgr) => reachable E mgr
  | None => True
  end.
Proof.
  unfold sample_experiment.
  pose proof (reachable_step E ABTestManager_init now
                (Create "Homepage CTA Test" "Testing new CTA button design" sample_control
                   [sample_treatment] "conversion_rate" significance_level)
                (reachable_init E)) as Hcreated.
  cbn [run_command] in Hcreated.
  destruct (create_ab_test E ABTestManager_init now "Homepage CTA Test"
              "Testing new CTA button design" sample_control [sample_treatment]
              "conversion_rate" significance_level) as [[id mgr]|]; [|exact I].
  repeat apply reachable_record_many.
  exact (reachable_step E mgr now (Start id) Hcreated).
Qed.

Lemma sample_completed_run_reachable : reachable sample_externals sample_completed_run.
Proof.
  unfold sample_completed_run.
  pose proof (reachable_sample_experiment sample_externals sample_start HIGH
                5000 500 4999 569) as H.
  destruct (sample_experiment sample_externals sample_start HIGH 5000 500 4999 569)
    as [[id mgr]|]; [|apply reachable_init].
  apply reachable_step. exact H.
Qed.

Lemma reachable_learning_records_sound_witness :
  match learned_patterns sample_completed_run with
  | record :: _ =>
      is_Some (completed_tests sample_completed_run !! source_test_id record)
      /\ update_id record = "learn_" +:+ source_test_id record
      /\ (95 # 100 <= confidence_score record)%Q
  | [] => False
  end.
Proof.
  assert (learned_patterns sample_completed_run <> []) as Hne
    by (vm_compute; discriminate).
  destruct (learned_patterns sample_completed_run) as [|record records] eqn:Hl;
    [congruence|].
  apply (reachable_learning_records_sound sample_externals sample_completed_run record
           sample_completed_run_reachable).
  rewrite Hl. left. reflexivity.
Defined.

Lemma sample_completed_run_disjoint : registries_disjoint sample_completed_run.
Proof.
  assert (active_tests sample_completed_run = ∅) as H by (vm_compute; reflexivity).
  intros id. left. rewrite H. apply lookup_empty.
Qed.

Lemma update_variant_keeps_metrics_in_range_witness :
  match update_variant sample_control engaged sample_start with
  | Returned variant' =>
      metrics_in_range variant'
      /\ (0 <= TestVariant.engagement_score variant' <= 1)%Q
  | Raised _ => False
  end.
Proof.
  destruct (update_variant sample_control engaged sample_start) as [variant'|variant']
    eqn:Hup; [|vm_compute in Hup; discriminate].
  apply (update_variant_keeps_metrics_in_range sample_control variant' engaged
           sample_start Hup).
  - vm_compute. repeat split; discriminate.
  - split; intros x [= <-]; vm_compute; repeat split; discriminate.
Defined.

Lemma start_test_twice_witness :
  start_test (snd (start_test sample_created sample_start "test_e7b00d14"))
    sample_week_later "test_e7b00d14"
  = (false, snd (start_test sample_created sample_start "test_e7b00d14")).
Proof. apply start_test_twice. vm_compute. reflexivity. Defined.

Lemma status_report_progress_witness :
  match status_report sample_week_later large_running_test with
  | Some report =>
      (sr_progress_visitors report <= 1)%Q
      /\ (sr_progress_time report <= 1)%Q
      /\ (sr_progress_overall report <= 1)%Q
      /\ (sr_progress_visitors report <= sr_progress_overall report)%Q
      /\ (sr_progress_time report <= sr_progress_overall report)%Q
  | None => False
  end.
Proof.
  destruct (status_report sample_week_later large_running_test) as [report|] eqn:H;
    [|vm_compute in H; discriminate].
  destruct (status_report_progress sample_week_later large_running_test report H)
    as (H1 & H2 & H3 & H4 & H5 & _).
  repeat split; assumption.
Defined.

Lemma analyze_empty_arm_not_significant_witness :
  fst (_analyze_statistical_significance sample_externals fresh_running_test)
  = failed_result
  /\ ABTest.statistical_significance
       (snd (_analyze_statistical_significance sample_externals fresh_running_test))
     = false
  /\ ABTest.p_value
       (snd (_analyze_statistical_significance sample_externals fresh_running_test))
     = Some 1%Q
  /\ ABTest.winner_variant_id
       (snd (_analyze_statistical_significance sample_externals fresh_running_test))
     = ABTest.winner_variant_id fresh_running_test.
Proof.
  apply (analyze_empty_arm_not_significant sample_externals fresh_running_test
           sample_treatment); [reflexivity | reflexivity | left; reflexivity].
Defined.

Lemma analyze_winner_rule_witness :
  ABTest.winner_variant_id
    (snd (_analyze_statistical_significance sample_externals decisive_running_test))
  = Some "test_v1".
Proof.
  apply (proj1 (analyze_winner_rule sample_externals decisive_running_test
                  (with_traffic 5000 570 sample_treatment) eq_refl eq_refl
                  ltac:(vm_compute; reflexivity))).
  vm_compute. reflexivity.
Defined.

Lemma stop_without_analysis_adds_no_insight_witness :
  completed_tests
    (snd (_stop_test sample_externals (manager_with small_running_test)
            sample_week_later "test_e7b00d14")) !! "test_e7b00d14"
  = Some (ABTest.set_ended_at (Some sample_week_later)
            (ABTest.set_status COMPLETED small_running_test))
  /\ learned_patterns
       (snd (_stop_test sample_externals (manager_with small_running_test)
               sample_week_later "test_e7b00d14"))
     = learned_patterns (manager_with small_running_test).
Proof.
  apply (stop_without_analysis_adds_no_insight sample_externals
           (manager_with small_running_test) sample_week_later "test_e7b00d14"
           small_running_test ltac:(vm_compute; reflexivity) ltac:(reflexivity)).
Defined.

Lemma record_counts_one_visitor_witness :
  exists test',
    (active_tests
       (snd (record_visitor_interaction sample_externals (manager_with small_running_test)
               sample_start "test_e7b00d14" "control" converting)) !! "test_e7b00d14"
     = Some test'
     \/ completed_tests
          (snd (record_visitor_interaction sample_externals
                  (manager_with small_running_test) sample_start "test_e7b00d14"
                  "control" converting)) !! "test_e7b00d14"
        = Some test')
    /\ total_visitors test' = total_visitors small_running_test + 1.
Proof.
  apply (record_counts_one_visitor sample_externals (manager_with small_running_test)
           sample_start "test_e7b00d14" "control" converting small_running_test);
    [vm_compute; reflexivity | reflexivity | vm_compute; reflexivity].
Defined.

Lemma api_significance_level_rounds_up_witness :
  (3 # 100 <= SignificanceLevel_value (api_significance_level (3 # 100)))%Q
  /\ forall level,
       (3 # 100 <= SignificanceLevel_value level)%Q ->
       (SignificanceLevel_value (api_significance_level (3 # 100))
        <= SignificanceLevel_value level)%Q.
Proof. apply api_significance_level_rounds_up. reflexivity. Defined.

Lemma api_default_allocations_start_witness :
  exists test_id mgr',
    api_create_ab_test sample_externals ABTestManager_init sample_start
      "Homepage CTA Test" "Testing new CTA button design" None None
      [empty_variant_request; empty_variant_request; empty_variant_request]
      "conversion_rate" (5 # 100)
    = Some (test_id, mgr')
    /\ (exists test, active_tests mgr' !! test_id = Some test
                     /\ (total_allocation test == 1)%Q
                     /\ length (ABTest.test_variants test) = 3%nat)
    /\ fst (start_test mgr' sample_week_later test_id) = true.
Proof.
  apply (api_default_allocations_start sample_externals ABTestManager_init sample_start
           sample_week_later "Homepage CTA Test" "Testing new CTA button design" None None
           [empty_variant_request; empty_variant_request; empty_variant_request]
           "conversion_rate" (5 # 100));
    [discriminate | repeat constructor].
Defined.

Lemma reachable_registries_consistent_witness :
  (forall id test,
     active_tests sample_completed_run !! id = Some test ->
     (ABTest.status test = PLANNING \/ ABTest.status test = RUNNING)
     /\ ABTest.statistical_significance test = false
     /\ ABTest.winner_variant_id test = None)
  /\ (forall id test,
        completed_tests sample_completed_run !! id = Some test ->
        ABTest.test_id test = id
        /\ ABTest.status test = COMPLETED
        /\ is_Some (ABTest.ended_at test)
        /\ (ABTest.statistical_significance test = true ->
            is_Some (ABTest.winner_variant_id test)
            /\ exists p, ABTest.p_value test = Some p /\ (p < 5 # 100)%Q)).
Proof.
  exact (reachable_registries_consistent sample_externals sample_completed_run
           sample_completed_run_reachable).
Defined.


Lemma command_touches_one_experiment_witness :
  active_tests
    (run_command sample_externals sample_completed_run sample_six_weeks_later
       (Stop "test_00000000")) !! "test_e7b00d14"
  = active_tests sample_completed_run !! "test_e7b00d14"
  /\ completed_tests
       (run_command sample_externals sample_completed_run sample_six_weeks_later
          (Stop "test_00000000")) !! "test_e7b00d14"
     = completed_tests sample_completed_run !! "test_e7b00d14".
Proof.
  apply command_touches_one_experiment;
    [exact sample_completed_run_reachable | discriminate].
Defined.

Lemma completed_experiment_is_frozen_witness :
  match completed_tests sample_completed_run !! "test_e7b00d14" with
  | Some test =>
      completed_tests
        (run_command sample_externals sample_completed_run sample_six_weeks_later
           (Stop "test_e7b00d14")) !! "test_e7b00d14"
      = Some test
  | None => False
  end.
Proof.
  destruct (completed_tests sample_completed_run !! "test_e7b00d14") as [test|] eqn:H;
    [|vm_compute in H; discriminate].
  exact (completed_experiment_is_frozen sample_externals sample_completed_run
           sample_six_weeks_later (Stop "test_e7b00d14") "test_e7b00d14" test
           sample_completed_run_reachable sample_completed_run_disjoint H).
Defined.
